(** * AI edit endpoints: prompt compilation and response recovery

    A shallow embedding of the three selection-editing handlers of the
    repository,

      - [src/supabase/functions/ai-edit/index.ts]  (module [Supabase]),
      - [src/api/ai-edit.js]                       (module [ApiAiEdit]),
      - [src/api/edit.js]                          (module [ApiEdit]),

    together with the part of the JavaScript host they rely on (module [JS]):
    strings as sequences of UTF-16 code units, [String.prototype.trim],
    [indexOf], [lastIndexOf], [slice], the two fence-stripping regular
    expressions, [JSON.parse], and the value coercions [ToBoolean] and
    [ToString].  Exceptions are modelled by an explicit [result] type; the
    single awaited call to the text generator is modelled by a [Prog] value
    that either returns or asks for one generation. *)

From Stdlib Require Import String Ascii Bool NArith ZArith Lia Floats List.
From Stdlib Require Import DecimalString.
Import ListNotations.

Set Warnings "-inexact-float,-register-all".

(* ====================================================================== *)
(** * The JavaScript host                                                  *)
(* ====================================================================== *)

Module JS.

(** ** Strings *)

(** A JavaScript string is a finite sequence of 16-bit code units. *)
Abbreviation code_unit := N (only parsing).
Definition jsstring := list code_unit.

(** ASCII literals of the source text. *)
Definition lit (s : string) : jsstring :=
  map N_of_ascii (list_ascii_of_string s).
Arguments lit s%_string.

(** The same with every apostrophe of [s] standing for a quotation mark
    (code unit 34), for literals of JSON text. *)
Definition qlit (s : string) : jsstring :=
  map (fun c => if N.eqb c 39 then 34%N else c) (lit s).
Arguments qlit s%_string.

Definition unit_eqb (a b : code_unit) : bool := N.eqb a b.

Fixpoint str_eqb (a b : jsstring) : bool :=
  match a, b with
  | [], [] => true
  | x :: a', y :: b' => unit_eqb x y && str_eqb a' b'
  | _, _ => false
  end.

(** [WhiteSpace] and [LineTerminator] of ECMA-262, the code units removed by
    [String.prototype.trim]. *)
Definition is_trim_space (c : code_unit) : bool :=
  (N.eqb c 9 || N.eqb c 10 || N.eqb c 11 || N.eqb c 12 || N.eqb c 13
   || N.eqb c 32 || N.eqb c 160 || N.eqb c 5760
   || (N.leb 8192 c && N.leb c 8202)
   || N.eqb c 8232 || N.eqb c 8233 || N.eqb c 8239 || N.eqb c 8287
   || N.eqb c 12288 || N.eqb c 65279)%bool.

Fixpoint trim_start (s : jsstring) : jsstring :=
  match s with
  | c :: t => if is_trim_space c then trim_start t else s
  | [] => []
  end.

Definition trim_end (s : jsstring) : jsstring := rev (trim_start (rev s)).

(** [s.trim()] *)
Definition trim (s : jsstring) : jsstring := trim_end (trim_start s).

Fixpoint starts_with (p s : jsstring) : bool :=
  match p, s with
  | [], _ => true
  | x :: p', y :: s' => unit_eqb x y && starts_with p' s'
  | _ :: _, [] => false
  end.

(** Offset of the leftmost occurrence of [p] in [s]. *)
Fixpoint find_sub (p s : jsstring) : option nat :=
  if starts_with p s then Some 0%nat
  else match s with
       | [] => None
       | _ :: t => option_map S (find_sub p t)
       end.

(** Offset of the rightmost occurrence of [p] in [s]. *)
Fixpoint find_last (p s : jsstring) : option nat :=
  match s with
  | [] => if starts_with p [] then Some 0%nat else None
  | _ :: t =>
      match find_last p t with
      | Some i => Some (S i)
      | None => if starts_with p s then Some 0%nat else None
      end
  end.

(** [s.indexOf(p)] and [s.lastIndexOf(p)]: an index, or [-1]. *)
Definition indexOf (s p : jsstring) : Z :=
  match find_sub p s with Some i => Z.of_nat i | None => (-1)%Z end.

Definition lastIndexOf (s p : jsstring) : Z :=
  match find_last p s with Some i => Z.of_nat i | None => (-1)%Z end.

(** [s.slice(from, to)]: negative positions count from the end, positions are
    clamped to the string, and an empty range gives the empty string. *)
Definition clamp_pos (len i : Z) : Z :=
  if (i <? 0)%Z then Z.max (len + i) 0 else Z.min i len.

Definition slice (s : jsstring) (from to : Z) : jsstring :=
  let len := Z.of_nat (length s) in
  let a := clamp_pos len from in
  let b := clamp_pos len to in
  firstn (Z.to_nat (b - a)) (skipn (Z.to_nat a) s).

(** [parts.join(sep)] on strings. *)
Fixpoint join (sep : jsstring) (parts : list jsstring) : jsstring :=
  match parts with
  | [] => []
  | [p] => p
  | p :: rest => p ++ sep ++ join sep rest
  end.

(** Literals of prompt text: [^] stands for the quotation mark, [~] for the
    em dash U+2014, [#] for the en dash U+2013, [@] for the bullet U+2022
    and [|] for a line feed; none of the five occurs in the source text. *)
Definition txt_unit (c : code_unit) : code_unit :=
  if N.eqb c 94 then 34%N
  else if N.eqb c 126 then 8212%N
  else if N.eqb c 35 then 8211%N
  else if N.eqb c 64 then 8226%N
  else if N.eqb c 124 then 10%N
  else c.

Definition txt (s : string) : jsstring := map txt_unit (lit s).
Arguments txt s%_string.

(** Decimal text of a non-negative integer, as in [`${i + 1}`]. *)
Definition decimal (n : nat) : jsstring :=
  lit (NilZero.string_of_uint (N.to_uint (N.of_nat n))).

Definition is_empty (s : jsstring) : bool :=
  match s with [] => true | _ :: _ => false end.

(** [s || d] on strings. *)
Definition str_or (s d : jsstring) : jsstring := if is_empty s then d else s.

(** ** Global replacement with a regular expression

    [s.replace(re, f)] for a global [re] that never matches the empty string:
    the matcher [m] gives the length of the match of [re] anchored at the
    head of its argument; scanning goes left to right and resumes after each
    match.  [skip] counts the code units of the current match still to be
    passed over. *)
Fixpoint replace_all (m : jsstring -> option nat) (f : jsstring -> jsstring)
         (skip : nat) (s : jsstring) : jsstring :=
  match s with
  | [] => []
  | c :: t =>
      match skip with
      | S k => replace_all m f k t
      | O =>
          match m s with
          | Some (S n) => f (firstn (S n) s) ++ replace_all m f n t
          | _ => c :: replace_all m f 0 t
          end
      end
  end.

Definition fence : jsstring := lit "```".
Definition fence_json : jsstring := lit "```json".

(** Anchored match of [open[\s\S]*?```]: the literal [open], then the
    shortest run of arbitrary code units that is followed by a fence. *)
Definition match_fenced (open s : jsstring) : option nat :=
  if starts_with open s then
    match find_sub fence (skipn (length open) s) with
    | Some j => Some (length open + j + 3)%nat
    | None => None
    end
  else None.

(** Anchored match of an alternation of literals, tried in order. *)
Fixpoint match_literals (ps : list jsstring) (s : jsstring) : option nat :=
  match ps with
  | [] => None
  | p :: ps' => if starts_with p s then Some (length p) else match_literals ps' s
  end.

(** Anchored match of an alternation of matchers, tried in order. *)
Definition match_either (m1 m2 : jsstring -> option nat) (s : jsstring)
  : option nat :=
  match m1 s with Some n => Some n | None => m2 s end.

Definition erase (_ : jsstring) : jsstring := [].

(** The fence stripping of both [parseAlternatives]: first the regions
    opened by a fence tagged [json], then the regions between two fences,
    each replaced by its text without fence markers, trimmed; then the whole
    trimmed. *)
Definition strip_fences (raw : jsstring) : jsstring :=
  trim
    (replace_all (match_fenced fence)
       (fun s => trim (replace_all (match_literals [fence]) erase 0 s)) 0
       (replace_all (match_fenced fence_json)
          (fun s => trim (replace_all (match_literals [fence_json; fence]) erase 0 s))
          0 raw)).

(** Text without backticks, and matchers that can only succeed at one. *)
Definition no_tick (s : jsstring) : Prop := Forall (fun c => c <> 96%N) s.

Definition tick_led (m : jsstring -> option nat) : Prop :=
  forall c t, c <> 96%N -> m (c :: t) = None.

(** ** Exceptions *)

Inductive exn : Type :=
| TypeError
| SyntaxError
| Error (message : jsstring).

Inductive result (A : Type) : Type :=
| Ok (a : A)
| Throw (e : exn).
Arguments Ok {A} a.
Arguments Throw {A} e.

Definition bind {A B : Type} (r : result A) (k : A -> result B) : result B :=
  match r with
  | Ok a => k a
  | Throw e => Throw e
  end.

Notation "x <- r ;; k" := (bind r (fun x => k))
  (at level 61, r at next level, right associativity).

(** ** Values

    The values a handler can meet: [undefined], and what [JSON.parse]
    builds.  A number keeps the literal it was read from; an object keeps its
    own properties in insertion order, one binding per key. *)
Inductive value : Type :=
| VUndefined
| VNull
| VBool (b : bool)
| VNum (literal : jsstring)
| VStr (s : jsstring)
| VArr (items : list value)
| VObj (props : list (jsstring * value)).

(** Induction on values that reaches the items of arrays and the property
    values of objects. *)
Fixpoint value_nested_ind (P : value -> Prop)
    (Hundef : P VUndefined) (Hnull : P VNull)
    (Hbool : forall b, P (VBool b)) (Hnum : forall n, P (VNum n))
    (Hstr : forall s, P (VStr s))
    (Harr : forall items, Forall P items -> P (VArr items))
    (Hobj : forall props, Forall (fun kv => P (snd kv)) props -> P (VObj props))
    (v : value) {struct v} : P v :=
  match v with
  | VUndefined => Hundef
  | VNull => Hnull
  | VBool b => Hbool b
  | VNum n => Hnum n
  | VStr s => Hstr s
  | VArr items =>
      Harr items
        ((fix all (xs : list value) : Forall P xs :=
            match xs with
            | [] => Forall_nil P
            | x :: rest =>
                Forall_cons x
                  (value_nested_ind P Hundef Hnull Hbool Hnum Hstr Harr Hobj x)
                  (all rest)
            end) items)
  | VObj props =>
      Hobj props
        ((fix all (xs : list (jsstring * value))
            : Forall (fun kv => P (snd kv)) xs :=
            match xs with
            | [] => Forall_nil _
            | kv :: rest =>
                Forall_cons kv
                  (value_nested_ind P Hundef Hnull Hbool Hnum Hstr Harr Hobj (snd kv))
                  (all rest)
            end) props)
  end.

Fixpoint own_prop (props : list (jsstring * value)) (k : jsstring)
  : option value :=
  match props with
  | [] => None
  | (k', v) :: rest => if str_eqb k' k then Some v else own_prop rest k
  end.

(** [obj[k] = v]: an existing key keeps its place, a new key is appended. *)
Fixpoint set_prop (props : list (jsstring * value)) (k : jsstring) (v : value)
  : list (jsstring * value) :=
  match props with
  | [] => [(k, v)]
  | (k', v') :: rest =>
      if str_eqb k' k then (k', v) :: rest else (k', v') :: set_prop rest k v
  end.

(** [v.k] or [v[k]] for a property name [k] that no built-in prototype
    defines (all the names the handlers read from request bodies and model
    output are of this kind): reading from [undefined] or [null] throws, an
    object gives its own property, anything else gives [undefined]. *)
Definition get (v : value) (k : jsstring) : result value :=
  match v with
  | VUndefined | VNull => Throw TypeError
  | VObj props =>
      Ok (match own_prop props k with Some x => x | None => VUndefined end)
  | _ => Ok VUndefined
  end.

(** [a ?? b] *)
Definition nullish (v : value) : bool :=
  match v with VUndefined | VNull => true | _ => false end.

Definition coalesce (a b : value) : value := if nullish a then b else a.

(** Destructuring default [{ k = d } = body]: only [undefined] is replaced. *)
Definition default_to (d : value) (v : value) : value :=
  match v with VUndefined => d | _ => v end.

(** What is left to the host: of the Number type, the text of a number,
    whether it is [+0] or [-0], and the outcome of the comparison [v > 0]
    for a value that is not the length of an array or string; and whether
    [Object.prototype] still has its [__proto__] accessor (Deno removes it). *)
Class Host : Type := {
  number_to_string : jsstring -> jsstring;
  number_is_zero : jsstring -> bool;
  greater_than_zero : value -> result bool;
  has_proto_accessor : bool
}.

Section Coercions.
Context {host : Host}.

Definition ToBoolean (v : value) : bool :=
  match v with
  | VUndefined | VNull => false
  | VBool b => b
  | VNum n => negb (number_is_zero n)
  | VStr s => match s with [] => false | _ => true end
  | VArr _ | VObj _ => true
  end.

(** [a || b] *)
Definition or_else (a b : value) : value := if ToBoolean a then a else b.

(** [String(v)], a template literal hole, and string concatenation all
    convert alike on these values.  An array joins its elements with commas,
    [null] and [undefined] elements giving nothing; an ordinary object gives
    [[object Object]] unless it has an own [toString] property, which after
    [JSON.parse] is never callable, so that no primitive is obtained. *)
Fixpoint ToString (v : value) : result jsstring :=
  match v with
  | VUndefined => Ok (lit "undefined")
  | VNull => Ok (lit "null")
  | VBool true => Ok (lit "true")
  | VBool false => Ok (lit "false")
  | VNum n => Ok (number_to_string n)
  | VStr s => Ok s
  | VArr items =>
      parts <- (fix each (xs : list value) : result (list jsstring) :=
                  match xs with
                  | [] => Ok []
                  | x :: rest =>
                      s <- (if nullish x then Ok [] else ToString x) ;;
                      ss <- each rest ;;
                      Ok (s :: ss)
                  end) items ;;
      Ok (join (lit ",") parts)
  | VObj props =>
      match own_prop props (lit "toString") with
      | Some _ => Throw TypeError
      | None => Ok (lit "[object Object]")
      end
  end.

(** [xs.join(sep)] on an array of values. *)
Fixpoint join_values (xs : list value) : result (list jsstring) :=
  match xs with
  | [] => Ok []
  | x :: rest =>
      s <- (if nullish x then Ok [] else ToString x) ;;
      ss <- join_values rest ;;
      Ok (s :: ss)
  end.

Definition array_join (sep : jsstring) (xs : list value) : result jsstring :=
  parts <- join_values xs ;; Ok (join sep parts).

(** [v.trim()]: only strings have the method. *)
Definition call_trim (v : value) : result jsstring :=
  match v with
  | VStr s => Ok (trim s)
  | _ => Throw TypeError
  end.

End Coercions.

(** A host for closed examples: a number prints as it was written, it is
    zero when its literal has no digit other than zero, an own [length]
    never compares above zero, and [__proto__] is inherited.  The examples
    below depend on these choices in one place only, the truthiness of the
    number 5. *)
Definition sample_host : Host := {|
  number_to_string := fun n => n;
  number_is_zero := fun n => forallb (fun c => negb (N.leb 49 c && N.leb c 57)) n;
  greater_than_zero := fun _ => Ok false;
  has_proto_accessor := true
|}.

(** [v[0]]: the first element of an array, the first code unit of a string,
    the own property [0] of an object. *)
Definition get_first (v : value) : result value :=
  match v with
  | VUndefined | VNull => Throw TypeError
  | VArr (x :: _) => Ok x
  | VStr (c :: _) => Ok (VStr [c])
  | VObj props =>
      Ok (match own_prop props (lit "0") with Some x => x | None => VUndefined end)
  | _ => Ok VUndefined
  end.

(** [v?.[0]] and [v?.k] *)
Definition opt_first (v : value) : result value :=
  if nullish v then Ok VUndefined else get_first v.

Definition opt_get (v : value) (k : jsstring) : result value :=
  if nullish v then Ok VUndefined else get v k.

Definition is_array (v : value) : bool :=
  match v with VArr _ => true | _ => false end.

Definition is_string (v : value) : bool :=
  match v with VStr _ => true | _ => false end.

(** ** Object literals of strings

    A table written as an object literal inherits from [Object.prototype]:
    reading [table[k]] finds the own property [k], else the inherited member
    of that name, else nothing. *)
Definition object_prototype_functions : list (jsstring * jsstring) :=
  [ (lit "constructor", lit "Object");
    (lit "hasOwnProperty", lit "hasOwnProperty");
    (lit "isPrototypeOf", lit "isPrototypeOf");
    (lit "propertyIsEnumerable", lit "propertyIsEnumerable");
    (lit "toLocaleString", lit "toLocaleString");
    (lit "toString", lit "toString");
    (lit "valueOf", lit "valueOf");
    (lit "__defineGetter__", lit "__defineGetter__");
    (lit "__defineSetter__", lit "__defineSetter__");
    (lit "__lookupGetter__", lit "__lookupGetter__");
    (lit "__lookupSetter__", lit "__lookupSetter__") ].

Inductive member : Type :=
| Own (s : jsstring)             (* an entry of the table *)
| Builtin (name : jsstring)      (* an inherited built-in function *)
| Prototype                      (* [Object.prototype] itself *)
| Absent.                        (* [undefined] *)

Fixpoint assoc (table : list (jsstring * jsstring)) (k : jsstring)
  : option jsstring :=
  match table with
  | [] => None
  | (k', v) :: rest => if str_eqb k' k then Some v else assoc rest k
  end.

Definition lookup {host : Host} (table : list (jsstring * jsstring))
           (k : jsstring) : member :=
  match assoc table k with
  | Some s => Own s
  | None =>
      match assoc object_prototype_functions k with
      | Some name => Builtin name
      | None =>
          if (str_eqb k (lit "__proto__") && has_proto_accessor)%bool
          then Prototype else Absent
      end
  end.

(** Truthiness and text of a member.  A built-in function converts to its
    source text, which V8 (the engine of both the Deno and the edge runtime)
    renders as below. *)
Definition member_truthy (m : member) : bool :=
  match m with
  | Own s => negb (is_empty s)
  | Builtin _ | Prototype => true
  | Absent => false
  end.

Definition member_text (m : member) : jsstring :=
  match m with
  | Own s => s
  | Builtin name => lit "function " ++ name ++ lit "() { [native code] }"
  | Prototype => lit "[object Object]"
  | Absent => lit "undefined"
  end.

(** ** JSON.parse *)

Definition is_json_space (c : code_unit) : bool :=
  (N.eqb c 32 || N.eqb c 9 || N.eqb c 10 || N.eqb c 13)%bool.

Fixpoint skip_ws (s : jsstring) : jsstring :=
  match s with
  | c :: t => if is_json_space c then skip_ws t else s
  | [] => []
  end.

Definition is_digit (c : code_unit) : bool := (N.leb 48 c && N.leb c 57)%bool.

Definition hex_digit (c : code_unit) : option N :=
  if (N.leb 48 c && N.leb c 57)%bool then Some (c - 48)%N
  else if (N.leb 97 c && N.leb c 102)%bool then Some (c - 87)%N
  else if (N.leb 65 c && N.leb c 70)%bool then Some (c - 55)%N
  else None.

Definition hex4 (a b c d : code_unit) : option code_unit :=
  match hex_digit a, hex_digit b, hex_digit c, hex_digit d with
  | Some x, Some y, Some z, Some w => Some (((x * 16 + y) * 16 + z) * 16 + w)%N
  | _, _, _, _ => None
  end.

(** The single-character escapes after a backslash. *)
Definition simple_escape (c : code_unit) : option code_unit :=
  if N.eqb c 34 then Some 34%N            (* quotation mark *)
  else if N.eqb c 92 then Some 92%N       (* reverse solidus *)
  else if N.eqb c 47 then Some 47%N       (* solidus *)
  else if N.eqb c 98 then Some 8%N        (* b: backspace *)
  else if N.eqb c 102 then Some 12%N      (* f: form feed *)
  else if N.eqb c 110 then Some 10%N      (* n: line feed *)
  else if N.eqb c 114 then Some 13%N      (* r: carriage return *)
  else if N.eqb c 116 then Some 9%N       (* t: tab *)
  else None.

(** The rest of a string literal after its opening quote; [acc] holds the
    decoded code units so far, last first. *)
Fixpoint parse_string_body (acc s : jsstring) : option (jsstring * jsstring) :=
  match s with
  | [] => None
  | c :: r =>
      if N.eqb c 34 then Some (rev acc, r)
      else if N.eqb c 92 then
        match r with
        | [] => None
        | e :: r1 =>
            if N.eqb e 117 then
              match r1 with
              | h1 :: h2 :: h3 :: h4 :: r2 =>
                  match hex4 h1 h2 h3 h4 with
                  | Some u => parse_string_body (u :: acc) r2
                  | None => None
                  end
              | _ => None
              end
            else
              match simple_escape e with
              | Some u => parse_string_body (u :: acc) r1
              | None => None
              end
        end
      else if N.ltb c 32 then None
      else parse_string_body (c :: acc) r
  end.

Fixpoint take_digits (s : jsstring) : jsstring * jsstring :=
  match s with
  | c :: t =>
      if is_digit c then let (ds, r) := take_digits t in (c :: ds, r)
      else ([], s)
  | [] => ([], [])
  end.

(** A number token: an optional minus sign; an integer part that is a single
    zero or starts with a non-zero digit; an optional fraction, a point and
    at least one digit; an optional exponent, [e] or [E], an optional sign
    and at least one digit. *)
Definition parse_sign (s : jsstring) : jsstring * jsstring :=
  match s with
  | c :: r => if N.eqb c 45 then ([c], r) else ([], s)
  | [] => ([], [])
  end.

Definition parse_int (s : jsstring) : option (jsstring * jsstring) :=
  match s with
  | c :: r =>
      if N.eqb c 48 then Some ([c], r)
      else if is_digit c then Some (take_digits s)
      else None
  | [] => None
  end.

Definition parse_frac (s : jsstring) : option (jsstring * jsstring) :=
  match s with
  | c :: r =>
      if N.eqb c 46 then
        match take_digits r with
        | ([], _) => None
        | (ds, r') => Some (c :: ds, r')
        end
      else Some ([], s)
  | [] => Some ([], [])
  end.

Definition parse_exp (s : jsstring) : option (jsstring * jsstring) :=
  match s with
  | c :: r =>
      if (N.eqb c 101 || N.eqb c 69)%bool then
        let (sg, r1) :=
          match r with
          | d :: r0 => if (N.eqb d 43 || N.eqb d 45)%bool then ([d], r0) else ([], r)
          | [] => ([], [])
          end in
        match take_digits r1 with
        | ([], _) => None
        | (ds, r') => Some (c :: sg ++ ds, r')
        end
      else Some ([], s)
  | [] => Some ([], [])
  end.

Definition parse_number (s : jsstring) : option (jsstring * jsstring) :=
  let (sg, s1) := parse_sign s in
  match parse_int s1 with
  | None => None
  | Some (i, s2) =>
      match parse_frac s2 with
      | None => None
      | Some (f, s3) =>
          match parse_exp s3 with
          | None => None
          | Some (e, s4) => Some (sg ++ i ++ f ++ e, s4)
          end
      end
  end.

Inductive parsed (A : Type) : Type :=
| Parsed (a : A) (rest : jsstring)
| Malformed
| NoFuel.
Arguments Parsed {A} a rest.
Arguments Malformed {A}.
Arguments NoFuel {A}.

(** A parse step on [s] ran to its end and, where it read a value, left
    less text than it was given. *)
Definition consumed {A : Type} (s : jsstring) (p : parsed A) : Prop :=
  match p with
  | Parsed _ r => (length r < length s)%nat
  | Malformed => True
  | NoFuel => False
  end.

Definition parse_keyword (kw : jsstring) (v : value) (s : jsstring)
  : parsed value :=
  if starts_with kw s then Parsed v (skipn (length kw) s) else Malformed.

(** Recursive descent over the JSON grammar.  [fuel] bounds the number of
    nested calls; [parse_elements] and [parse_members] read the remainder of
    an array or object whose opening bracket has been consumed and that is
    known not to be empty. *)
Fixpoint parse_value (fuel : nat) (s : jsstring) {struct fuel} : parsed value :=
  match fuel with
  | O => NoFuel
  | S f =>
      match skip_ws s with
      | [] => Malformed
      | c :: r =>
          if N.eqb c 123 then
            match skip_ws r with
            | [] => Malformed
            | c2 :: r2 =>
                if N.eqb c2 125 then Parsed (VObj []) r2
                else parse_members f [] (c2 :: r2)
            end
          else if N.eqb c 91 then
            match skip_ws r with
            | [] => Malformed
            | c2 :: r2 =>
                if N.eqb c2 93 then Parsed (VArr []) r2
                else parse_elements f [] (c2 :: r2)
            end
          else if N.eqb c 34 then
            match parse_string_body [] r with
            | Some (str, r') => Parsed (VStr str) r'
            | None => Malformed
            end
          else if N.eqb c 116 then parse_keyword (lit "true") (VBool true) (c :: r)
          else if N.eqb c 102 then parse_keyword (lit "false") (VBool false) (c :: r)
          else if N.eqb c 110 then parse_keyword (lit "null") VNull (c :: r)
          else
            match parse_number (c :: r) with
            | Some (n, r') => Parsed (VNum n) r'
            | None => Malformed
            end
      end
  end

with parse_elements (fuel : nat) (acc : list value) (s : jsstring)
       {struct fuel} : parsed value :=
  match fuel with
  | O => NoFuel
  | S f =>
      match parse_value f s with
      | Parsed v r =>
          match skip_ws r with
          | [] => Malformed
          | c :: r' =>
              if N.eqb c 44 then parse_elements f (acc ++ [v]) r'
              else if N.eqb c 93 then Parsed (VArr (acc ++ [v])) r'
              else Malformed
          end
      | Malformed => Malformed
      | NoFuel => NoFuel
      end
  end

with parse_members (fuel : nat) (acc : list (jsstring * value)) (s : jsstring)
       {struct fuel} : parsed value :=
  match fuel with
  | O => NoFuel
  | S f =>
      match skip_ws s with
      | [] => Malformed
      | q :: r =>
          if N.eqb q 34 then
            match parse_string_body [] r with
            | None => Malformed
            | Some (k, r1) =>
                match skip_ws r1 with
                | [] => Malformed
                | c1 :: r2 =>
                    if N.eqb c1 58 then
                      match parse_value f r2 with
                      | Parsed v r3 =>
                          match skip_ws r3 with
                          | [] => Malformed
                          | c3 :: r4 =>
                              if N.eqb c3 44 then
                                parse_members f (set_prop acc k v) r4
                              else if N.eqb c3 125 then
                                Parsed (VObj (set_prop acc k v)) r4
                              else Malformed
                          end
                      | Malformed => Malformed
                      | NoFuel => NoFuel
                      end
                    else Malformed
                end
            end
          else Malformed
      end
  end.

(** Enough fuel for any text: see [parse_value_fuel]. *)
Definition parse_fuel (s : jsstring) : nat := (2 * length s + 3)%nat.

(** [JSON.parse(text)]: one value, then nothing but white space. *)
Definition JSON_parse (text : jsstring) : result value :=
  match parse_value (parse_fuel text) text with
  | Parsed v rest =>
      match skip_ws rest with
      | [] => Ok v
      | _ :: _ => Throw SyntaxError
      end
  | Malformed | NoFuel => Throw SyntaxError
  end.

End JS.

(* ====================================================================== *)
(** * What the endpoints exchange                                          *)
(* ====================================================================== *)

Module Edge.
Import JS.

(** An inbound request, as far as a handler looks at it: the method and the
    outcome of [await req.json()]. *)
Record Request : Type := {
  method : jsstring;
  json : result value
}.

(** The process environment: [ANTHROPIC_API_KEY], when it is set. *)
Record Env : Type := {
  ANTHROPIC_API_KEY : option jsstring
}.

(** [!apiKey] *)
Definition configured_key (env : Env) : option jsstring :=
  match ANTHROPIC_API_KEY env with
  | Some (c :: k) => Some (c :: k)
  | Some [] | None => None
  end.

(** The one call to the text generator: the fields of the body posted to
    [https://api.anthropic.com/v1/messages] and the key sent with it. *)
Record GenCall : Type := {
  api_key : jsstring;
  model : jsstring;
  max_tokens : Z;
  temperature : float;
  system : jsstring;
  user_content : jsstring
}.

(** What [fetch] gives back: a rejection, or a response with its [ok] flag,
    its status and the outcome of [await anthropicRes.json()]. *)
Inductive Reply : Type :=
| NetworkFailure
| HttpReply (ok : bool) (status : Z) (body : result value).

(** A handler run: it answers at once, or it issues one generation call and
    answers from the reply. *)
Inductive Prog (A : Type) : Type :=
| Done (answer : A)
| Generate (call : GenCall) (resume : Reply -> A).
Arguments Done {A} answer.
Arguments Generate {A} call resume.

(** [data.content?.[0]?.text] *)
Definition first_text (data : value) : result value :=
  content <- get data (lit "content") ;;
  first <- opt_first content ;;
  opt_get first (lit "text").

End Edge.

(* ====================================================================== *)
(** * src/supabase/functions/ai-edit/index.ts                              *)
(* ====================================================================== *)

Module Supabase.
Import JS Edge.

Definition MODEL : jsstring := lit "claude-sonnet-4-5-20251001".

Definition SCHEMA_3 : jsstring :=
  txt "Return ONLY valid JSON ~ no prose, no markdown fences.|" ++
  txt "Schema (exactly 3 alternatives):|" ++
  txt "{^alternatives^:[{^label^:^Option 1^,^text^:^...^}," ++
  txt "{^label^:^Option 2^,^text^:^...^},{^label^:^Option 3^,^text^:^...^}]}".

Definition SCHEMA_2 : jsstring :=
  txt "Return ONLY valid JSON ~ no prose, no markdown fences.|" ++
  txt "Schema (exactly 2 alternatives):|" ++
  txt "{^alternatives^:[{^label^:^Option 1^,^text^:^...^}," ++
  txt "{^label^:^Option 2^,^text^:^...^}]}".

Definition BASE_SYSTEM : jsstring :=
  txt "You are a world-class editor inside a writing app.|" ++
  txt "You will receive: note title, full note text, the exact selected text, and surrounding context.|" ++
  txt "Your job: produce alternative rewrites of ONLY the selected text.|" ++
  txt "Rules:|" ++
  txt "@ Do NOT edit anything outside the selection.|" ++
  txt "@ Keep consistent with the note's voice, terminology, and style.|" ++
  txt "@ Do NOT introduce new facts not already present in the note or selection.|" ++
  txt "@ Keep the same language as the selection (unless the action explicitly changes tone/style).|" ++
  txt "@ Keep roughly the same length unless the action calls for expansion or condensation.".

(** The own properties of [ACTION_INSTRUCTIONS]. *)
Definition ACTION_INSTRUCTIONS : list (jsstring * jsstring) :=
  [ (lit "rewrite",
      txt "ACTION ~ Rewrite: improve flow and readability. Keep meaning identical.|"
      ++ SCHEMA_3);
    (lit "shorter",
      txt "ACTION ~ Shorter: condense the selection, remove redundancy, preserve core meaning. "
      ++ txt "Trim without losing essential information.|" ++ SCHEMA_3);
    (lit "clearer",
      txt "ACTION ~ Clearer: simplify sentence structure, reduce jargon, improve comprehension. "
      ++ txt "Do not change meaning.|" ++ SCHEMA_3);
    (lit "fix",
      txt "ACTION ~ Fix: correct grammar, spelling, and punctuation. "
      ++ txt "Option 1 = minimal fix (change as little as possible). "
      ++ txt "Options 2#3 = slightly more polished but still fully faithful to original.|"
      ++ SCHEMA_3);
    (lit "expand",
      txt "ACTION ~ Expand: elaborate slightly using ONLY ideas already present in the selection "
      ++ txt "or note. Do NOT introduce new facts or examples not in the note.|" ++ SCHEMA_2);
    (lit "bullets",
      txt "ACTION ~ Bullets: convert the selection to a bullet list using ^@ ^ prefix for each "
      ++ txt "item. Preserve ALL content ~ just restructure.|" ++ SCHEMA_2);
    (lit "example",
      txt "ACTION ~ Example: add a short, generic illustrative example that does NOT introduce "
      ++ txt "unverifiable facts. If that is impossible, improve clarity instead.|" ++ SCHEMA_3) ].

Definition validActions : list jsstring :=
  [ lit "rewrite"; lit "shorter"; lit "clearer"; lit "fix";
    lit "tone"; lit "expand"; lit "bullets"; lit "example" ].

(** [validActions.includes(action)] *)
Definition includes (xs : list jsstring) (x : jsstring) : bool :=
  existsb (fun y => str_eqb y x) xs.

Record Alternative : Type := {
  label : jsstring;
  text : jsstring
}.

(** The argument of [buildUserMessage]. *)
Record Params : Type := {
  noteTitle : jsstring;
  noteContent : jsstring;
  selectedText : jsstring;
  before : jsstring;
  after : jsstring;
  action : jsstring;
  tone : value
}.

(** Response bodies, before [JSON.stringify]. *)
Inductive Payload : Type :=
| ErrorMessage (error : jsstring)      (* an object with the one key error *)
| ParseFailed (raw : value)            (* error parse_failed, and raw *)
| Alternatives (alternatives : list Alternative)
| Unhandled (err : exn)                (* error: String(err) *)
| PlainOk.                             (* the text ok of the preflight *)

Record Response : Type := {
  status : Z;
  payload : Payload
}.

Definition jsonRes (data : Payload) (status : Z) : Response :=
  {| status := status; payload := data |}.

(** The last-resort [catch] of the handler. *)
Definition unhandled (err : exn) : Response :=
  {| status := 500; payload := Unhandled err |}.

(** The local [clean] of [parseAlternatives]. *)
Definition clean (raw : jsstring) : jsstring := strip_fences raw.

Definition getTemperature (action : jsstring) : float :=
  if (str_eqb action (lit "tone") || str_eqb action (lit "rewrite")
      || str_eqb action (lit "example"))%bool
  then 0.3%float
  else 0.2%float.

Section WithHost.
Context {host : Host}.

Definition buildSystemPrompt (action : jsstring) (tone : value)
  : result jsstring :=
  if (str_eqb action (lit "tone") && ToBoolean tone)%bool then
    t <- ToString tone ;;
    Ok (BASE_SYSTEM ++
        txt "||ACTION ~ Tone (" ++ t ++ txt "): rewrite to match this tone: "
        ++ t ++ txt ". " ++
        txt "Keep meaning identical. Do not add new facts.|" ++ SCHEMA_3)
  else
    let instruction :=
      match lookup ACTION_INSTRUCTIONS action with
      | Absent => lookup ACTION_INSTRUCTIONS (lit "rewrite")
      | found => found
      end in
    Ok (BASE_SYSTEM ++ txt "||" ++ member_text instruction).

Definition buildUserMessage (params : Params) : result jsstring :=
  suffix <- (if ToBoolean (tone params)
             then t <- ToString (tone params) ;;
                  Ok (lit " (tone: " ++ t ++ lit ")")
             else Ok []) ;;
  Ok (join (txt "|")
        [ lit "TITLE:";
          str_or (noteTitle params) (lit "(untitled)");
          [];
          lit "FULL NOTE:";
          str_or (noteContent params) (lit "(empty)");
          [];
          lit "SELECTION:";
          selectedText params;
          [];
          lit "SURROUNDING CONTEXT:";
          lit "BEFORE:";
          str_or (before params) (lit "(start of note)");
          lit "AFTER:";
          str_or (after params) (lit "(end of note)");
          [];
          lit "ACTION:";
          action params ++ suffix ]).

Definition parseAlternatives (raw : value) : result value :=
  match raw with
  | VStr r =>
      let clean := clean r in
      let jsonStart := indexOf clean (lit "{") in
      let jsonEnd := lastIndexOf clean (lit "}") in
      if ((jsonStart <? 0) || (jsonEnd <? 0))%Z then
        Throw (Error (lit "No JSON object found in model response"))
      else JSON_parse (slice clean jsonStart (jsonEnd + 1))
  | _ => Throw TypeError      (* [raw.replace] is not a function *)
  end.

(** The [map] of the handler, entry [i] onwards. *)
Fixpoint normalise (i : nat) (alts : list value) : result (list Alternative) :=
  match alts with
  | [] => Ok []
  | alt :: rest =>
      l <- get alt (lit "label") ;;
      label <- ToString (coalesce l (VStr (lit "Option " ++ decimal (i + 1)))) ;;
      t <- get alt (lit "text") ;;
      text <- ToString (coalesce t (VStr [])) ;;
      others <- normalise (S i) rest ;;
      Ok ({| label := label; text := text |} :: others)
  end.

(** The predicate of the [filter]. *)
Definition has_text (alt : Alternative) : bool :=
  (0 <? Z.of_nat (length (trim (text alt))))%Z.

Definition items_of (v : value) : list value :=
  match v with VArr items => items | _ => [] end.

(** From the raw text of the model to the response: the section of the
    handler headed "Parse response", under the last-resort [catch]. *)
Definition recover (raw : value) : Response :=
  match parseAlternatives raw with
  | Throw parseErr => jsonRes (ParseFailed raw) 200
  | Ok parsed =>
      match
        (alts <- get parsed (lit "alternatives") ;;
         if (negb (ToBoolean alts) || negb (is_array alts))%bool then
           Ok (jsonRes (ErrorMessage (lit "bad_schema")) 200)
         else
           mapped <- normalise 0 (items_of alts) ;;
           let alternatives := filter has_text mapped in
           if Nat.eqb (length alternatives) 0 then
             Ok (jsonRes (ErrorMessage (lit "empty_alternatives")) 200)
           else Ok (jsonRes (Alternatives alternatives) 200))
      with
      | Ok response => response
      | Throw err => unhandled err
      end
  end.

(** What follows the [fetch]. *)
Definition answer (reply : Reply) : Response :=
  match reply with
  | NetworkFailure =>
      jsonRes (ErrorMessage (lit "Network error reaching AI")) 502
  | HttpReply false st _ =>
      jsonRes (ErrorMessage (lit "AI API error: " ++ decimal (Z.to_nat st))) 502
  | HttpReply true _ body =>
      match (responseData <- body ;;
             t <- first_text responseData ;;
             Ok (coalesce t (VStr [])))
      with
      | Ok raw => recover raw
      | Throw err => unhandled err
      end
  end.

Definition string_of (v : value) : jsstring :=
  match v with VStr s => s | _ => [] end.

(** Destructuring, validation and prompt building: either a response to
    return at once, or the generation call to make. *)
Definition prepare (apiKey : jsstring) (body : value)
  : result (Response + GenCall) :=
  action <- get body (lit "action") ;;
  tone <- get body (lit "tone") ;;
  let tone := default_to VNull tone in
  noteTitle <- get body (lit "noteTitle") ;;
  let noteTitle := default_to (VStr []) noteTitle in
  noteContent <- get body (lit "noteContent") ;;
  let noteContent := default_to (VStr []) noteContent in
  selectedText <- get body (lit "selectedText") ;;
  before <- get body (lit "before") ;;
  let before := default_to (VStr []) before in
  after <- get body (lit "after") ;;
  let after := default_to (VStr []) after in
  if (negb (ToBoolean action) || negb (is_string action))%bool then
    Ok (inl (jsonRes (ErrorMessage (txt "Missing or invalid ^action^")) 400))
  else
    let action := string_of action in
    selected <- ToString (coalesce selectedText (VStr [])) ;;
    let selectedTrimmed := trim selected in
    if is_empty selectedTrimmed then
      Ok (inl (jsonRes (ErrorMessage (txt "Missing or empty ^selectedText^")) 400))
    else if negb (includes validActions action) then
      Ok (inl (jsonRes (ErrorMessage (lit "Unknown action: " ++ action)) 400))
    else if (str_eqb action (lit "tone") && negb (ToBoolean tone))%bool then
      Ok (inl (jsonRes
                 (ErrorMessage (txt "^tone^ value is required when action is ^tone^"))
                 400))
    else
      systemPrompt <- buildSystemPrompt action tone ;;
      title <- ToString (or_else noteTitle (VStr [])) ;;
      content <- ToString (or_else noteContent (VStr [])) ;;
      bef <- ToString (or_else before (VStr [])) ;;
      aft <- ToString (or_else after (VStr [])) ;;
      userMessage <- buildUserMessage
                       {| noteTitle := title; noteContent := content;
                          selectedText := selectedTrimmed;
                          before := bef; after := aft;
                          action := action; tone := tone |} ;;
      Ok (inr {| api_key := apiKey; model := MODEL; max_tokens := 2000;
                 temperature := getTemperature action;
                 system := systemPrompt; user_content := userMessage |}).

Definition handler (env : Env) (req : Request) : Prog Response :=
  if str_eqb (method req) (lit "OPTIONS") then
    Done {| status := 200; payload := PlainOk |}
  else if negb (str_eqb (method req) (lit "POST")) then
    Done (jsonRes (ErrorMessage (lit "Method not allowed")) 405)
  else
    match configured_key env with
    | None => Done (jsonRes (ErrorMessage (lit "API key not configured")) 500)
    | Some apiKey =>
        match json req with
        | Throw _ => Done (jsonRes (ErrorMessage (lit "Invalid JSON body")) 400)
        | Ok body =>
            match prepare apiKey body with
            | Ok (inl response) => Done response
            | Ok (inr call) => Generate call answer
            | Throw err => Done (unhandled err)
            end
        end
    end.

End WithHost.
End Supabase.

(* ====================================================================== *)
(** * src/api/ai-edit.js                                                   *)
(* ====================================================================== *)

Module ApiAiEdit.
Import JS Edge.

Definition MODEL : jsstring := lit "claude-sonnet-4-6".

Definition SCHEMA_3 : jsstring :=
  txt "Return ONLY valid JSON ~ no prose, no markdown fences.|" ++
  txt "Schema (exactly 3 alternatives):|" ++
  txt "{^alternatives^:[" ++
  txt "{^label^:^Option 1^,^text^:^...^}," ++
  txt "{^label^:^Option 2^,^text^:^...^}," ++
  txt "{^label^:^Option 3^,^text^:^...^}" ++
  txt "]}".

Definition SCHEMA_2 : jsstring :=
  txt "Return ONLY valid JSON ~ no prose, no markdown fences.|" ++
  txt "Schema (exactly 2 alternatives):|" ++
  txt "{^alternatives^:[" ++
  txt "{^label^:^Option 1^,^text^:^...^}," ++
  txt "{^label^:^Option 2^,^text^:^...^}" ++
  txt "]}".

Definition BASE_SYSTEM : jsstring :=
  txt "You are a world-class editor inside a writing app.|" ++
  txt "You will receive: note title, full note text, the exact selected text, and surrounding context.|" ++
  txt "Your job: produce alternative rewrites of ONLY the selected text.|" ++
  txt "Rules:|" ++
  txt "@ Do NOT edit anything outside the selection.|" ++
  txt "@ Keep consistent with the note's voice, terminology, and style.|" ++
  txt "@ Do NOT introduce new facts not already present in the note or selection.|" ++
  txt "@ Keep the same language as the selection (unless the action changes tone/style).|" ++
  txt "@ Keep roughly the same length unless the action calls for expansion/condensation.".

(** The own properties of [ACTION_INSTRUCTIONS]; the entry of [tone] is the
    empty string. *)
Definition ACTION_INSTRUCTIONS : list (jsstring * jsstring) :=
  [ (lit "rewrite",
      txt "ACTION ~ Rewrite: improve flow and readability. "
      ++ txt "Keep meaning identical.|" ++ SCHEMA_3);
    (lit "shorter",
      txt "ACTION ~ Shorter: condense the selection, remove redundancy, keep core meaning. "
      ++ txt "Trim without losing essential information.|" ++ SCHEMA_3);
    (lit "clearer",
      txt "ACTION ~ Clearer: simplify sentence structure, reduce jargon, improve comprehension. "
      ++ txt "Do not change meaning.|" ++ SCHEMA_3);
    (lit "fix",
      txt "ACTION ~ Fix: correct grammar, spelling, and punctuation. "
      ++ txt "Option 1 = minimal fix (change as little as possible). "
      ++ txt "Options 2#3 = slightly more polished but still fully faithful to original.|"
      ++ SCHEMA_3);
    (lit "tone", []);
    (lit "expand",
      txt "ACTION ~ Expand: elaborate slightly using ONLY ideas already present in the selection or note. "
      ++ txt "Do NOT introduce new facts or examples not in the note.|" ++ SCHEMA_2);
    (lit "bullets",
      txt "ACTION ~ Bullets: convert the selection to a bullet list using ^@ ^ prefix for each item. "
      ++ txt "Preserve ALL content ~ just restructure.|" ++ SCHEMA_2);
    (lit "example",
      txt "ACTION ~ Example: add a short, generic illustrative example that does NOT introduce "
      ++ txt "unverifiable facts. If that is impossible, improve clarity instead.|" ++ SCHEMA_3) ].

Definition validActions : list jsstring :=
  [ lit "rewrite"; lit "shorter"; lit "clearer"; lit "fix"; lit "tone";
    lit "expand"; lit "bullets"; lit "example" ].

Definition includes (xs : list jsstring) (x : jsstring) : bool :=
  existsb (fun y => str_eqb y x) xs.

(** An entry of the normalised list: both fields are whatever values the
    model gave, there is no conversion to strings. *)
Record Alternative : Type := {
  label : value;
  text : value
}.

Definition to_object (alt : Alternative) : value :=
  VObj [ (lit "label", label alt); (lit "text", text alt) ].

(** The argument of [buildUserMessage]. *)
Record Params : Type := {
  noteTitle : value;
  noteContent : value;
  selectedText : jsstring;
  selectionContext : value;
  action : jsstring;
  tone : value
}.

(** Response bodies, before [JSON.stringify]. *)
Inductive Payload : Type :=
| ErrorMessage (error : jsstring)      (* an object with the one key error *)
| ParseFailed (raw : value)            (* error parse_failed, and raw *)
| Result (result : value).             (* the parsed object, normalised *)

Record Response : Type := {
  status : Z;
  payload : Payload
}.

Definition jsonError (message : jsstring) (status : Z) : Response :=
  {| status := status; payload := ErrorMessage message |}.

(** The local [clean] of [parseAlternatives]. *)
Definition clean (raw : jsstring) : jsstring := strip_fences raw.

Definition getTemperature (action : jsstring) : float :=
  if (str_eqb action (lit "tone") || str_eqb action (lit "rewrite")
      || str_eqb action (lit "example"))%bool
  then 0.3%float
  else 0.2%float.

Section WithHost.
Context {host : Host}.

(** One line of the author profile for a descriptor that is set. *)
Definition profile_line (heading : jsstring) (v : value)
  : result (list jsstring) :=
  if ToBoolean v then t <- ToString v ;; Ok [heading ++ t] else Ok [].

(** [languages.length > 0] for a truthy [languages]. *)
Definition has_length (v : value) : result bool :=
  match v with
  | VArr items => Ok (negb (Nat.eqb (length items) 0))
  | VStr s => Ok (negb (Nat.eqb (length s) 0))
  | VObj props =>
      match own_prop props (lit "length") with
      | Some n => greater_than_zero n
      | None => Ok false
      end
  | _ => Ok false
  end.

(** [languages.join(', ')]: only arrays have the method. *)
Definition call_join (sep : jsstring) (v : value) : result jsstring :=
  match v with
  | VArr items => array_join sep items
  | _ => Throw TypeError
  end.

Definition buildProfileContext (userProfile : value) : result jsstring :=
  if negb (ToBoolean userProfile) then Ok []
  else
    tone <- get userProfile (lit "tone") ;;
    l1 <- profile_line (txt "@ Preferred tone: ") tone ;;
    audience <- get userProfile (lit "audience") ;;
    l2 <- profile_line (txt "@ Target audience: ") audience ;;
    intent <- get userProfile (lit "intent") ;;
    l3 <- profile_line (txt "@ Writing intent: ") intent ;;
    languages <- get userProfile (lit "languages") ;;
    l4 <- (if ToBoolean languages then
             some <- has_length languages ;;
             if some then
               joined <- call_join (lit ", ") languages ;;
               Ok [txt "@ Languages: " ++ joined]
             else Ok []
           else Ok []) ;;
    style_notes <- get userProfile (lit "style_notes") ;;
    l5 <- (if ToBoolean style_notes then
             trimmed <- call_trim style_notes ;;
             if is_empty trimmed then Ok []
             else Ok [txt "@ Style notes: " ++ trimmed]
           else Ok []) ;;
    let lines := l1 ++ l2 ++ l3 ++ l4 ++ l5 in
    if Nat.eqb (length lines) 0 then Ok []
    else Ok (txt "||AUTHOR PROFILE (adapt your output to match these preferences):|"
             ++ join (txt "|") lines).

Definition buildSystemPrompt (action : jsstring) (tone userProfile : value)
  : result jsstring :=
  profileCtx <- buildProfileContext userProfile ;;
  if (str_eqb action (lit "tone") && ToBoolean tone)%bool then
    t <- ToString tone ;;
    Ok (BASE_SYSTEM ++ profileCtx ++ txt "||" ++
        txt "ACTION ~ Tone (" ++ t ++ txt "): rewrite to match this tone: "
        ++ t ++ txt ". " ++
        txt "Keep meaning identical. Do not add new facts.|" ++ SCHEMA_3)
  else
    let instruction :=
      if member_truthy (lookup ACTION_INSTRUCTIONS action)
      then lookup ACTION_INSTRUCTIONS action
      else lookup ACTION_INSTRUCTIONS (lit "rewrite") in
    Ok (BASE_SYSTEM ++ profileCtx ++ txt "||" ++ member_text instruction).

(** [(selectionContext && selectionContext.k) || ''] *)
Definition context_part (selectionContext : value) (k : jsstring)
  : result value :=
  if ToBoolean selectionContext then
    v <- get selectionContext k ;; Ok (or_else v (VStr []))
  else Ok (VStr []).

Definition buildUserMessage (params : Params) : result jsstring :=
  before <- context_part (selectionContext params) (lit "before") ;;
  after <- context_part (selectionContext params) (lit "after") ;;
  suffix <- (if ToBoolean (tone params)
             then t <- ToString (tone params) ;;
                  Ok (lit " (tone: " ++ t ++ lit ")")
             else Ok []) ;;
  array_join (txt "|")
    [ VStr (lit "TITLE:");
      or_else (noteTitle params) (VStr (lit "(untitled)"));
      VStr [];
      VStr (lit "FULL NOTE:");
      or_else (noteContent params) (VStr (lit "(empty)"));
      VStr [];
      VStr (lit "SELECTION:");
      VStr (selectedText params);
      VStr [];
      VStr (lit "SURROUNDING CONTEXT:");
      VStr (lit "BEFORE:");
      or_else before (VStr (lit "(start of note)"));
      VStr (lit "AFTER:");
      or_else after (VStr (lit "(end of note)"));
      VStr [];
      VStr (lit "ACTION:");
      VStr (action params ++ suffix) ].

Definition parseAlternatives (raw : value) : result value :=
  match raw with
  | VStr r =>
      let clean := clean r in
      let jsonStart := indexOf clean (lit "{") in
      let jsonEnd := lastIndexOf clean (lit "}") in
      if ((jsonStart <? 0) || (jsonEnd <? 0))%Z then
        Throw (Error (lit "No JSON object found"))
      else
        parsed <- JSON_parse (slice clean jsonStart (jsonEnd + 1)) ;;
        alts <- get parsed (lit "alternatives") ;;
        if (negb (ToBoolean alts) || negb (is_array alts))%bool then
          Throw (Error (lit "Missing alternatives array"))
        else Ok parsed
  | _ => Throw TypeError      (* [raw.replace] is not a function *)
  end.

(** The [map] of the handler, entry [i] onwards. *)
Fixpoint normalise (i : nat) (alts : list value) : result (list Alternative) :=
  match alts with
  | [] => Ok []
  | alt :: rest =>
      l <- get alt (lit "label") ;;
      t <- get alt (lit "text") ;;
      others <- normalise (S i) rest ;;
      Ok ({| label := or_else l (VStr (lit "Option " ++ decimal (i + 1)));
             text := or_else t (VStr []) |} :: others)
  end.

(** The [filter] of the handler: [alt.text.trim()] must be truthy. *)
Fixpoint keep_with_text (alts : list Alternative) : result (list Alternative) :=
  match alts with
  | [] => Ok []
  | alt :: rest =>
      trimmed <- call_trim (text alt) ;;
      others <- keep_with_text rest ;;
      Ok (if is_empty trimmed then others else alt :: others)
  end.

Definition items_of (v : value) : list value :=
  match v with VArr items => items | _ => [] end.

(** [result.alternatives = alts] *)
Definition with_alternatives (result : value) (alts : list Alternative) : value :=
  match result with
  | VObj props =>
      VObj (set_prop props (lit "alternatives") (VArr (map to_object alts)))
  | other => other
  end.

(** From the raw text of the model to the response: the section of the
    handler headed "Parse response" and what follows it.  An exception
    outside the [try] leaves the handler. *)
Definition recover (raw : value) : result Response :=
  match parseAlternatives raw with
  | Throw parseErr => Ok {| status := 200; payload := ParseFailed raw |}
  | Ok result =>
      alts <- get result (lit "alternatives") ;;
      mapped <- normalise 0 (items_of alts) ;;
      kept <- keep_with_text mapped ;;
      if Nat.eqb (length kept) 0 then
        Ok {| status := 200; payload := ErrorMessage (lit "bad_schema") |}
      else
        Ok {| status := 200; payload := Result (with_alternatives result kept) |}
  end.

(** What follows the [fetch]. *)
Definition answer (reply : Reply) : result Response :=
  match reply with
  | NetworkFailure => Ok (jsonError (lit "Network error reaching AI") 502)
  | HttpReply false st _ =>
      Ok (jsonError (lit "AI API error: " ++ decimal (Z.to_nat st)) 502)
  | HttpReply true _ body =>
      data <- body ;;
      t <- first_text data ;;
      recover (or_else t (VStr []))
  end.

Definition string_of (v : value) : jsstring :=
  match v with VStr s => s | _ => [] end.

(** Destructuring, validation and prompt building: either a response to
    return at once, or the generation call to make. *)
Definition prepare (apiKey : jsstring) (body : value)
  : result (Response + GenCall) :=
  action <- get body (lit "action") ;;
  tone <- get body (lit "tone") ;;
  let tone := default_to VNull tone in
  noteTitle <- get body (lit "noteTitle") ;;
  let noteTitle := default_to (VStr []) noteTitle in
  noteContent <- get body (lit "noteContent") ;;
  let noteContent := default_to (VStr []) noteContent in
  selectedText <- get body (lit "selectedText") ;;
  selectionContext <- get body (lit "selectionContext") ;;
  let selectionContext := default_to (VObj []) selectionContext in
  userProfile <- get body (lit "userProfile") ;;
  let userProfile := default_to VNull userProfile in
  if (negb (ToBoolean action) || negb (is_string action))%bool then
    Ok (inl (jsonError (txt "Missing or invalid ^action^") 400))
  else
    let action := string_of action in
    empty <- (if ToBoolean selectedText
              then t <- call_trim selectedText ;; Ok (is_empty t)
              else Ok true) ;;
    if (empty : bool) then
      Ok (inl (jsonError (txt "Missing or empty ^selectedText^") 400))
    else if negb (includes validActions action) then
      Ok (inl (jsonError (lit "Unknown action: " ++ action) 400))
    else if (str_eqb action (lit "tone") && negb (ToBoolean tone))%bool then
      Ok (inl (jsonError (txt "^tone^ value required when action is ^tone^") 400))
    else
      systemPrompt <- buildSystemPrompt action tone userProfile ;;
      selectedTrimmed <- call_trim selectedText ;;
      userMessage <- buildUserMessage
                       {| noteTitle := noteTitle; noteContent := noteContent;
                          selectedText := selectedTrimmed;
                          selectionContext := selectionContext;
                          action := action; tone := tone |} ;;
      Ok (inr {| api_key := apiKey; model := MODEL; max_tokens := 2000;
                 temperature := getTemperature action;
                 system := systemPrompt; user_content := userMessage |}).

Definition handler (env : Env) (req : Request) : Prog (result Response) :=
  if negb (str_eqb (method req) (lit "POST")) then
    Done (Ok (jsonError (lit "Method not allowed") 405))
  else
    match configured_key env with
    | None => Done (Ok (jsonError (lit "API key not configured") 500))
    | Some apiKey =>
        match json req with
        | Throw _ => Done (Ok (jsonError (lit "Invalid JSON body") 400))
        | Ok body =>
            match prepare apiKey body with
            | Ok (inl response) => Done (Ok response)
            | Ok (inr call) => Generate call answer
            | Throw err => Done (Throw err)
            end
        end
    end.

End WithHost.
End ApiAiEdit.

(* ====================================================================== *)
(** * src/api/edit.js                                                      *)
(* ====================================================================== *)

Module ApiEdit.
Import JS Edge.

Inductive Payload : Type :=
| ErrorMessage (error : jsstring)      (* an object with the one key error *)
| ParseFailed (raw : value)            (* error parse_failed, and raw *)
| Result (result : value).             (* the parsed value as it is *)

Record Response : Type := {
  status : Z;
  payload : Payload
}.

(** The local [clean] of the handler: one pattern with two alternatives, the
    tagged fence first. *)
Definition clean (raw : jsstring) : jsstring :=
  trim
    (replace_all
       (match_either (match_fenced fence_json) (match_fenced fence))
       (fun s => trim (replace_all (match_literals [fence_json; fence]) erase 0 s))
       0 raw).

(** The hint that closes every system prompt but two. *)
Definition SCHEMA_HINT : jsstring :=
  txt "Return ONLY valid JSON, no prose, no markdown fences.|" ++
  txt "Schema: {^alternatives^:[{^label^:^Option 1^,^text^:^...^},"
  ++ txt "{^label^:^Option 2^,^text^:^...^},{^label^:^Option 3^,^text^:^...^}]}".

(** The own properties of [SYSTEM_PROMPTS]. *)
Definition SYSTEM_PROMPTS : list (jsstring * jsstring) :=
  [ (lit "rewrite",
      txt "You are a professional editor.|"
      ++ txt "Rewrite the text to improve flow and readability.|"
      ++ txt "Keep meaning identical and language unchanged.|"
      ++ txt "Return 3 alternatives.|" ++ SCHEMA_HINT);
    (lit "shorter",
      txt "You are a professional editor.|"
      ++ txt "Condense the text while preserving meaning. Remove redundancy. Keep tone similar.|"
      ++ txt "Return 3 alternatives.|" ++ SCHEMA_HINT);
    (lit "clearer",
      txt "You are a professional editor.|"
      ++ txt "Improve clarity and structure. Prefer simpler sentence construction.|"
      ++ txt "Avoid jargon where possible without changing meaning.|"
      ++ txt "Return 3 alternatives.|" ++ SCHEMA_HINT);
    (lit "fix",
      txt "You are a copy editor.|"
      ++ txt "Fix grammar, spelling, punctuation, and small style issues.|"
      ++ txt "Do not change tone or meaning.|"
      ++ txt "Return 3 alternatives (Option 1 = minimal fix; Options 2#3 = slightly improved but still faithful).|"
      ++ SCHEMA_HINT);
    (lit "expand",
      txt "You are a professional editor.|"
      ++ txt "Add detail ONLY by elaborating existing ideas ~ do not introduce new facts.|"
      ++ txt "Return 2 alternatives.|"
      ++ txt "Return ONLY valid JSON, no prose, no markdown fences.|"
      ++ txt "Schema: {^alternatives^:[{^label^:^Option 1^,^text^:^...^},{^label^:^Option 2^,^text^:^...^}]}");
    (lit "bullets",
      txt "You are a professional editor.|"
      ++ txt "Preserve all content but format as a concise bullet list using ^@ ^ prefix for each item.|"
      ++ txt "Return 2 alternatives.|"
      ++ txt "Return ONLY valid JSON, no prose, no markdown fences.|"
      ++ txt "Schema: {^alternatives^:[{^label^:^Option 1^,^text^:^...^},{^label^:^Option 2^,^text^:^...^}]}") ].

(** The body posted to the generator.  [system] is whatever the lookup in
    [SYSTEM_PROMPTS] gave: [JSON.stringify] writes a string as it is, leaves
    out a key whose value is a function, and writes [Object.prototype] as an
    empty object. *)
Record Call : Type := {
  api_key : jsstring;
  model : jsstring;
  max_tokens : Z;
  temperature : float;
  system : member;
  user_content : jsstring
}.

(** What the handler returns: a response with a plain text, or one of the
    JSON responses of the recovery. *)
Inductive Outcome : Type :=
| Plain (code : Z) (body : jsstring)
| Json (response : Response).

(** A handler run: it returns (or throws) at once, or it issues one
    generation call and answers from the reply. *)
Inductive Run : Type :=
| Return (outcome : result Outcome)
| Fetch (call : Call) (resume : Reply -> result Outcome).

Section WithHost.
Context {host : Host}.

(** The body of the [try]: with no opening brace the whole cleaned text is
    handed to [JSON.parse]. *)
Definition parse (raw : value) : result value :=
  match raw with
  | VStr r =>
      let clean := clean r in
      let jsonStart := indexOf clean (lit "{") in
      let jsonEnd := lastIndexOf clean (lit "}") in
      JSON_parse (if (0 <=? jsonStart)%Z
                  then slice clean jsonStart (jsonEnd + 1)
                  else clean)
  | _ => Throw TypeError      (* [raw.replace] is not a function *)
  end.

(** From the raw text of the model to the response; an exception outside
    the [try] leaves the handler. *)
Definition recover (raw : value) : result Response :=
  match parse raw with
  | Throw parseErr => Ok {| status := 200; payload := ParseFailed raw |}
  | Ok result =>
      alts <- get result (lit "alternatives") ;;
      if (negb (ToBoolean alts) || negb (is_array alts))%bool then
        Ok {| status := 200; payload := ErrorMessage (lit "bad_schema") |}
      else Ok {| status := 200; payload := Result result |}
  end.

Definition tonePrompt (tone : value) : result jsstring :=
  t <- ToString tone ;;
  Ok (txt "You are a professional editor.|"
      ++ txt "Rewrite the text to match this tone: " ++ t ++ txt ".|"
      ++ txt "Keep meaning identical. Do not add new facts. Language stays the same.|"
      ++ txt "Return 3 alternatives.|" ++ SCHEMA_HINT).

(** [action === 'tone'] *)
Definition is_tone (action : value) : bool :=
  match action with VStr s => str_eqb s (lit "tone") | _ => false end.

(** [!action || !text || !text.trim()] *)
Definition missing (action text : value) : result bool :=
  if negb (ToBoolean action) then Ok true
  else if negb (ToBoolean text) then Ok true
  else t <- call_trim text ;; Ok (is_empty t).

(** The choice of the system prompt; the key of [SYSTEM_PROMPTS[action]] is
    the string that [action] converts to. *)
Definition choose (action tone : value) : result member :=
  if (is_tone action && ToBoolean tone)%bool then
    p <- tonePrompt tone ;; Ok (Own p)
  else
    key <- ToString action ;; Ok (lookup SYSTEM_PROMPTS key).

(** Destructuring inside the first [try], validation and the choice of the
    system prompt: either a response to return at once, or the generation
    call to make. *)
Definition prepare (apiKey : jsstring) (body : result value)
  : result (Outcome + Call) :=
  match (b <- body ;;
         action <- get b (lit "action") ;;
         tone <- get b (lit "tone") ;;
         text <- get b (lit "text") ;;
         Ok (action, tone, text))
  with
  | Throw _ => Ok (inl (Plain 400 (lit "Invalid JSON")))
  | Ok (action, tone, text) =>
      blank <- missing action text ;;
      if (blank : bool) then Ok (inl (Plain 400 (lit "Missing action or text")))
      else
        systemPrompt <- choose action tone ;;
        if negb (member_truthy systemPrompt) then
          Ok (inl (Plain 400 (lit "Unknown action")))
        else
          trimmed <- call_trim text ;;
          Ok (inr {| api_key := apiKey;
                     model := lit "claude-haiku-4-5-20251001";
                     max_tokens := 1200;
                     temperature := 0.2%float;
                     system := systemPrompt;
                     user_content := txt "Text to edit:|" ++ trimmed |})
  end.

(** What follows the [fetch]. *)
Definition answer (reply : Reply) : result Outcome :=
  match reply with
  | NetworkFailure => Ok (Plain 502 (lit "Network error reaching AI"))
  | HttpReply false _ _ => Ok (Plain 502 (lit "AI API error"))
  | HttpReply true _ body =>
      data <- body ;;
      t <- first_text data ;;
      response <- recover (or_else t (VStr [])) ;;
      Ok (Json response)
  end.

Definition handler (env : Env) (req : Request) : Run :=
  if negb (str_eqb (method req) (lit "POST")) then
    Return (Ok (Plain 405 (lit "Method not allowed")))
  else
    match configured_key env with
    | None => Return (Ok (Plain 500 (lit "API key not configured")))
    | Some apiKey =>
        match prepare apiKey (json req) with
        | Ok (inl outcome) => Return (Ok outcome)
        | Ok (inr call) => Fetch call answer
        | Throw err => Return (Throw err)
        end
    end.

End WithHost.
End ApiEdit.

(* ====================================================================== *)
(** * Shapes of requests and of model output, and the texts of the examples *)
(* ====================================================================== *)

Module Shapes.
Import JS Edge.

(** The property [k] of [v], [undefined] where there is none to read. *)
Definition field (v : value) (k : jsstring) : value :=
  match get v k with
  | Ok x => x
  | Throw _ => VUndefined
  end.

(** Absent, [null], or a primitive: what always converts to a string. *)
Definition plain_field (v : value) : bool :=
  match v with
  | VArr _ | VObj _ => false
  | _ => true
  end.

(** Absent, [null], or a string. *)
Definition opt_string (v : value) : bool :=
  match v with
  | VUndefined | VNull | VStr _ => true
  | _ => false
  end.

Definition is_object (v : value) : bool :=
  match v with VObj _ => true | _ => false end.

(** An entry of the model's [alternatives] that normalisation can read: not
    [null], with a plain [label] and [text]. *)
Definition plain_entry (alt : value) : bool :=
  (negb (nullish alt)
   && plain_field (field alt (lit "label"))
   && plain_field (field alt (lit "text")))%bool.

(** An entry that is a number, a string or a boolean. *)
Definition primitive_entry (alt : value) : bool :=
  match alt with
  | VBool _ | VNum _ | VStr _ => true
  | _ => false
  end.

(** The same for [src/api/ai-edit.js], which calls [trim] on the text it
    kept: a [text] that is falsy or a string. *)
Definition trimmable_entry {host : Host} (alt : value) : bool :=
  (negb (nullish alt)
   && (negb (ToBoolean (field alt (lit "text")))
       || is_string (field alt (lit "text"))))%bool.

Definition known_actions : list jsstring :=
  [ lit "rewrite"; lit "shorter"; lit "clearer"; lit "fix";
    lit "tone"; lit "expand"; lit "bullets"; lit "example" ].

Definition string_value (v : value) : jsstring :=
  match v with VStr s => s | _ => [] end.

(** The four reasons for which a request body is to be rejected: a missing
    or invalid action, a selection that is absent or empty once trimmed, an
    action outside the registry, the action [tone] without a tone value. *)
Definition action_invalid {host : Host} (body : value) : bool :=
  (negb (ToBoolean (field body (lit "action")))
   || negb (is_string (field body (lit "action"))))%bool.

Definition selection_empty (body : value) : bool :=
  match field body (lit "selectedText") with
  | VUndefined | VNull => true
  | VStr s => is_empty (trim s)
  | _ => false
  end.

Definition action_unknown (body : value) : bool :=
  negb (existsb (fun a => str_eqb a (string_value (field body (lit "action"))))
          known_actions).

Definition tone_missing {host : Host} (body : value) : bool :=
  (str_eqb (string_value (field body (lit "action"))) (lit "tone")
   && negb (ToBoolean (field body (lit "tone"))))%bool.

Definition must_reject {host : Host} (body : value) : bool :=
  (action_invalid body || selection_empty body
   || action_unknown body || tone_missing body)%bool.

(** A request body with the field types that the header of
    [index.ts] documents. *)
Definition typed_body (body : value) : bool :=
  (is_object body
   && opt_string (field body (lit "tone"))
   && opt_string (field body (lit "noteTitle"))
   && opt_string (field body (lit "noteContent"))
   && opt_string (field body (lit "selectedText"))
   && opt_string (field body (lit "before"))
   && opt_string (field body (lit "after")))%bool.

(** The fields that [src/api/ai-edit.js] reads besides: a selection context
    with string parts, and an author profile of strings and of a list of
    strings. *)
Definition typed_context (ctx : value) : bool :=
  match ctx with
  | VUndefined => true
  | VObj _ =>
      (opt_string (field ctx (lit "before"))
       && opt_string (field ctx (lit "after")))%bool
  | _ => false
  end.

Definition string_list (v : value) : bool :=
  match v with
  | VUndefined | VNull => true
  | VArr items => forallb is_string items
  | _ => false
  end.

Definition typed_profile (profile : value) : bool :=
  match profile with
  | VUndefined | VNull => true
  | VObj _ =>
      (opt_string (field profile (lit "tone"))
       && opt_string (field profile (lit "audience"))
       && opt_string (field profile (lit "intent"))
       && string_list (field profile (lit "languages"))
       && opt_string (field profile (lit "style_notes")))%bool
  | _ => false
  end.

Definition typed_api_body (body : value) : bool :=
  (is_object body
   && opt_string (field body (lit "tone"))
   && opt_string (field body (lit "noteTitle"))
   && opt_string (field body (lit "noteContent"))
   && opt_string (field body (lit "selectedText"))
   && typed_context (field body (lit "selectionContext"))
   && typed_profile (field body (lit "userProfile")))%bool.

(** [!selectedText || !selectedText.trim()] as [src/api/ai-edit.js]
    evaluates it. *)
Definition api_selection_check {host : Host} (sel : value) : result bool :=
  if ToBoolean sel then t <- call_trim sel ;; Ok (is_empty t) else Ok true.

(** What a prepared request hands to the generator besides the credential:
    system prompt, user message and temperature. *)
Definition prompts {A : Type} (r : result (A + GenCall))
  : option (jsstring * jsstring * float) :=
  match r with
  | Ok (inr call) => Some (system call, user_content call, temperature call)
  | _ => None
  end.

(** A property name that an object literal inherits. *)
Definition inherited_name (k : jsstring) : bool :=
  match assoc object_prototype_functions k with
  | Some _ => true
  | None => str_eqb k (lit "__proto__")
  end.

(** The process environments and requests of the examples. *)
Definition with_key : Env := {| ANTHROPIC_API_KEY := Some (lit "sk-ant-test") |}.
Definition without_key : Env := {| ANTHROPIC_API_KEY := None |}.

Definition post (body : result value) : Request :=
  {| method := lit "POST"; json := body |}.


Definition wrapped_empty_example : jsstring :=
  qlit "Sure! {'alternatives':[{'text':''}]} Hope that helps.".

Definition refusal_example : jsstring := lit "I cannot help with that.".

Definition labels_example : jsstring :=
  qlit "{'alternatives':[{'text':'A'},{'label':'Custom','text':'B'}]}".

Definition gap_example : jsstring :=
  qlit "{'alternatives':[{'text':''},{'text':'B'}]}".

Definition null_entry_example : jsstring := qlit "{'alternatives':[null]}".

Definition number_entry_example : jsstring := qlit "{'alternatives':[5]}".

Definition empty_label_example : jsstring :=
  qlit "{'alternatives':[{'label':'','text':'A'}]}".

(** Parsed values, request bodies and texts of the witnesses. *)
Definition gap_items : list value :=
  [ VObj [ (lit "text", VStr []) ]; VObj [ (lit "text", VStr (lit "B")) ] ].
Definition gap_parsed : value := VObj [ (lit "alternatives", VArr gap_items) ].
Definition labels_items : list value :=
  [ VObj [ (lit "text", VStr (lit "A")) ];
    VObj [ (lit "label", VStr (lit "Custom")); (lit "text", VStr (lit "B")) ] ].
Definition null_parsed : value := VObj [ (lit "alternatives", VArr [VNull]) ].
Definition empty_body : value := VObj [].
Definition fix_body : value :=
  VObj [ (lit "action", VStr (lit "fix"));
         (lit "selectedText", VStr (lit " teh cat ")) ].
Definition object_tone_body : value :=
  VObj [ (lit "action", VStr (lit "tone"));
         (lit "selectedText", VStr (lit "x"));
         (lit "tone", VObj [ (lit "toString", VNum (lit "1")) ]) ].
Definition number_selection_body : value :=
  VObj [ (lit "action", VStr (lit "tone"));
         (lit "selectedText", VNum (lit "5")) ].
Definition object_selection_body : value :=
  VObj [ (lit "action", VStr (lit "summarise"));
         (lit "selectedText", VObj [ (lit "toString", VNum (lit "1")) ]) ].
Definition wrapped_pre : jsstring := lit "Here you go: ".
Definition wrapped_body : jsstring :=
  txt "|" ++ qlit "{'alternatives':[{'label':'Option 1','text':'Hi'}]}" ++ txt "|".
Definition wrapped_post : jsstring := lit " Enjoy.".


(** The predicate of the [filter] of [src/api/ai-edit.js]: the text is a
    string that is not blank. *)
Definition api_has_text (alt : ApiAiEdit.Alternative) : bool :=
  match ApiAiEdit.text alt with
  | VStr s => negb (is_empty (trim s))
  | _ => false
  end.

(** The generator could not be reached, or answered with an error status. *)
Definition upstream_failed (reply : Reply) : bool :=
  match reply with
  | NetworkFailure => true
  | HttpReply ok _ _ => negb ok
  end.

(** [!action || !text || !text.trim()] for a [text] that is falsy or a
    string. *)
Definition edit_fields_missing {host : Host} (body : value) : bool :=
  (negb (ToBoolean (field body (lit "action")))
   || negb (ToBoolean (field body (lit "text")))
   || match field body (lit "text") with
      | VStr s => is_empty (trim s)
      | _ => false
      end)%bool.

(** The status of an outcome of [src/api/edit.js]. *)
Definition outcome_status (o : ApiEdit.Outcome) : Z :=
  match o with
  | ApiEdit.Plain code _ => code
  | ApiEdit.Json response => ApiEdit.status response
  end.

(** [s] ends with [suffix]. *)
Definition ends_with (suffix s : jsstring) : bool :=
  starts_with (rev suffix) (rev s).

(** The actions whose instruction asks for two alternatives. *)
Definition two_alternatives (action : jsstring) : bool :=
  (str_eqb action (lit "expand") || str_eqb action (lit "bullets"))%bool.

(** An author profile in which no descriptor is set. *)
Definition profile_unset (profile : value) : bool :=
  match profile with
  | VObj _ =>
      (is_empty (string_value (field profile (lit "tone")))
       && is_empty (string_value (field profile (lit "audience")))
       && is_empty (string_value (field profile (lit "intent")))
       && match field profile (lit "languages") with
          | VArr (_ :: _) => false
          | _ => true
          end
       && is_empty (trim (string_value (field profile (lit "style_notes")))))%bool
  | _ => true
  end.

(** Texts, values and requests of the examples that follow. *)
Definition labels_alternatives : list Supabase.Alternative :=
  [ {| Supabase.label := lit "Option 1"; Supabase.text := lit "A" |};
    {| Supabase.label := lit "Custom"; Supabase.text := lit "B" |} ].

Definition labels_kept : list ApiAiEdit.Alternative :=
  [ {| ApiAiEdit.label := VStr (lit "Option 1"); ApiAiEdit.text := VStr (lit "A") |};
    {| ApiAiEdit.label := VStr (lit "Custom"); ApiAiEdit.text := VStr (lit "B") |} ].

Definition labels_result : value :=
  VObj [ (lit "alternatives", VArr (map ApiAiEdit.to_object labels_kept)) ].

Definition other_key_example : jsstring := qlit "{'items':[]}".
Definition other_key_parsed : value := VObj [ (lit "items", VArr []) ].

Definition prose_pre : jsstring := lit "Sure! ".
Definition prose_mid : jsstring := qlit "'alternatives':[{'text':''}]".
Definition prose_post : jsstring := lit " Hope that helps.".

Definition empty_reply : value := VObj [].

Definition null_entry_reply : Reply :=
  HttpReply true 200
    (Ok (VObj [ (lit "content",
                 VArr [ VObj [ (lit "type", VStr (lit "text"));
                               (lit "text", VStr null_entry_example) ] ]) ])).

Definition number_body : value := VNum (lit "7").

Definition unknown_action_body : value :=
  VObj [ (lit "action", VStr (lit "summarise"));
         (lit "selectedText", VStr (lit "x"));
         (lit "text", VStr (lit "x")) ].

Definition tone_without_value_body : value :=
  VObj [ (lit "action", VStr (lit "tone"));
         (lit "selectedText", VStr (lit "x")) ].

Definition blank_selection_body : value :=
  VObj [ (lit "action", VStr (lit "summarise"));
         (lit "selectedText", VStr (lit "  ")) ].

Definition warm_profile : value := VObj [ (lit "tone", VStr (lit "Warm")) ].
Definition idle_profile : value :=
  VObj [ (lit "languages", VArr []); (lit "style_notes", VStr (lit "  ")) ].

Definition string_languages_body : value :=
  VObj [ (lit "action", VStr (lit "fix"));
         (lit "selectedText", VStr (lit "x"));
         (lit "userProfile", VObj [ (lit "languages", VStr (lit "en")) ]) ].

Definition array_action_body : value :=
  VObj [ (lit "action", VArr [ VStr (lit "fix") ]);
         (lit "text", VStr (lit " teh cat ")) ].

Definition number_text_body : value :=
  VObj [ (lit "action", VStr (lit "fix")); (lit "text", VNum (lit "5")) ].

Definition constructor_body : value :=
  VObj [ (lit "action", VStr (lit "constructor"));
         (lit "selectedText", VStr (lit "x"));
         (lit "text", VStr (lit "x")) ].

Definition trimmed_fix_body : value :=
  VObj [ (lit "action", VStr (lit "fix"));
         (lit "selectedText", VStr (lit "teh cat")) ].

Definition noted_example : jsstring :=
  qlit "{'note':'done','alternatives':[{'text':'A'}]}".
Definition noted_result : value :=
  VObj [ (lit "note", VStr (lit "done"));
         (lit "alternatives",
          VArr [ VObj [ (lit "label", VStr (lit "Option 1"));
                        (lit "text", VStr (lit "A")) ] ]) ].

End Shapes.

(* ====================================================================== *)
(** * Facts about the host                                                 *)
(* ====================================================================== *)

Module JSFacts.
Import JS Shapes.

Lemma unit_eqb_eq (a b : code_unit) : unit_eqb a b = true <-> a = b.
Proof. apply N.eqb_eq. Qed.

Lemma str_eqb_eq (a b : jsstring) : str_eqb a b = true <-> a = b.
Proof.
  revert b; induction a as [|x a IH]; intros [|y b]; simpl; split;
    try congruence; try reflexivity.
  - intros H. apply andb_true_iff in H as [H1 H2].
    apply unit_eqb_eq in H1. apply IH in H2. congruence.
  - intros H. injection H as -> ->. apply andb_true_iff. split.
    + now apply unit_eqb_eq.
    + now apply IH.
Qed.

Lemma str_eqb_refl (a : jsstring) : str_eqb a a = true.
Proof. now apply str_eqb_eq. Qed.

(** *** Searching for a single code unit *)

Lemma find_sub_unit_none (c : code_unit) (s : jsstring) :
  find_sub [c] s = None <-> ~ In c s.
Proof.
  induction s as [|x s IH]; simpl.
  - tauto.
  - rewrite andb_true_r. destruct (unit_eqb c x) eqn:E.
    + apply unit_eqb_eq in E. subst. split; [discriminate | intros H; exfalso; auto].
    + assert (c <> x) by (intros ->; unfold unit_eqb in E; rewrite N.eqb_refl in E; discriminate).
      destruct (find_sub [c] s) eqn:F; simpl.
      * split; [discriminate|]. intros H1. exfalso. apply H1. right.
        destruct (in_dec N.eq_dec c s) as [Hin|Hout]; [assumption|].
        apply IH in Hout. discriminate.
      * split; [|reflexivity]. intros _ [->|H1]; [congruence|].
        now apply (proj1 IH).
Qed.

Lemma find_last_unit_none (c : code_unit) (s : jsstring) :
  find_last [c] s = None <-> ~ In c s.
Proof.
  induction s as [|x s IH]; simpl.
  - tauto.
  - rewrite andb_true_r. destruct (find_last [c] s) eqn:F.
    + split; [discriminate|]. intros H. exfalso. apply H. right.
      destruct (in_dec N.eq_dec c s) as [Hin|Hout]; [assumption|].
      apply IH in Hout. discriminate.
    + destruct (unit_eqb c x) eqn:E.
      * apply unit_eqb_eq in E. subst. split; [discriminate | intros H; exfalso; auto].
      * split; [|reflexivity]. intros _ [->|H1].
        -- unfold unit_eqb in E. rewrite N.eqb_refl in E. discriminate.
        -- now apply (proj1 IH).
Qed.

(** [indexOf] is negative exactly when the code unit does not occur. *)
Lemma indexOf_unit_neg (c : code_unit) (s : jsstring) :
  (indexOf s [c] < 0)%Z <-> ~ In c s.
Proof.
  unfold indexOf. rewrite <- find_sub_unit_none.
  destruct (find_sub [c] s); split; intros H; try lia; try discriminate; reflexivity.
Qed.

Lemma lastIndexOf_unit_neg (c : code_unit) (s : jsstring) :
  (lastIndexOf s [c] < 0)%Z <-> ~ In c s.
Proof.
  unfold lastIndexOf. rewrite <- find_last_unit_none.
  destruct (find_last [c] s); split; intros H; try lia; try discriminate; reflexivity.
Qed.

Lemma lastIndexOf_ge_minus_one (s p : jsstring) : (-1 <= lastIndexOf s p)%Z.
Proof. unfold lastIndexOf. destruct (find_last p s); lia. Qed.

(** An empty range: [s.slice(from, 0)] with [from] not negative. *)
Lemma slice_to_zero (s : jsstring) (from : Z) :
  (0 <= from)%Z -> slice s from 0 = [].
Proof.
  intros H. unfold slice.
  assert (E : (clamp_pos (Z.of_nat (length s)) 0
               - clamp_pos (Z.of_nat (length s)) from <= 0)%Z).
  { unfold clamp_pos. destruct (from <? 0)%Z eqn:F; [apply Z.ltb_lt in F; lia|].
    change (0 <? 0)%Z with false. cbv iota. lia. }
  destruct (Z.to_nat _) eqn:G; [reflexivity | lia].
Qed.

(** *** Trimming *)



(** *** Text without backticks *)

Lemma starts_with_tick_head (p t : jsstring) (c : code_unit) :
  c <> 96%N -> starts_with (96%N :: p) (c :: t) = false.
Proof.
  intros H. cbn [starts_with]. destruct (unit_eqb 96%N c) eqn:E; [|reflexivity].
  apply unit_eqb_eq in E. congruence.
Qed.

Lemma match_fenced_fence_led : tick_led (match_fenced fence).
Proof.
  intros c t H. unfold match_fenced.
  change fence with (96%N :: [96%N; 96%N]).
  now rewrite starts_with_tick_head.
Qed.

Lemma match_fenced_json_led : tick_led (match_fenced fence_json).
Proof.
  intros c t H. unfold match_fenced.
  change fence_json with (96%N :: [96%N; 96%N; 106%N; 115%N; 111%N; 110%N]).
  now rewrite starts_with_tick_head.
Qed.

Lemma match_literals_led (ps : list jsstring) :
  Forall (fun p => exists q, p = 96%N :: q) ps -> tick_led (match_literals ps).
Proof.
  intros Hps c t H. induction Hps as [|p ps [q ->] _ IH];
    cbn [match_literals starts_with]; [reflexivity|].
  destruct (unit_eqb 96%N c) eqn:E; [|exact IH].
  apply unit_eqb_eq in E. congruence.
Qed.

Lemma replace_all_pass (m : jsstring -> option nat) (f : jsstring -> jsstring)
      (pre rest : jsstring) :
  tick_led m -> no_tick pre ->
  replace_all m f 0 (pre ++ rest) = pre ++ replace_all m f 0 rest.
Proof.
  intros Hm. induction 1 as [|c pre Hc _ IH]; [reflexivity|].
  cbn [app replace_all]. rewrite (Hm c (pre ++ rest) Hc). now rewrite IH.
Qed.

Lemma replace_all_id (m : jsstring -> option nat) (f : jsstring -> jsstring)
      (s : jsstring) :
  tick_led m -> no_tick s -> replace_all m f 0 s = s.
Proof.
  intros Hm Hs. rewrite <- (app_nil_r s) at 1.
  rewrite replace_all_pass by assumption. cbn [replace_all]. apply app_nil_r.
Qed.

Lemma replace_all_skip (m : jsstring -> option nat) (f : jsstring -> jsstring)
      (x y : jsstring) :
  replace_all m f (length x) (x ++ y) = replace_all m f 0 y.
Proof. induction x as [|c x IH]; [reflexivity | exact IH]. Qed.

Lemma starts_with_app (p s : jsstring) : starts_with p (p ++ s) = true.
Proof.
  induction p as [|c p IH]; [reflexivity|]. cbn [app starts_with].
  unfold unit_eqb. rewrite N.eqb_refl. exact IH.
Qed.

(** The first fence after text without backticks is right behind it. *)
Lemma find_fence_after (body post : jsstring) :
  no_tick body -> find_sub fence (body ++ fence ++ post) = Some (length body).
Proof.
  induction 1 as [|c body Hc _ IH].
  - cbn [app length]. pose proof (starts_with_app fence post) as E.
    destruct (fence ++ post); cbn [find_sub]; now rewrite E.
  - cbn [app find_sub]. change fence with (96%N :: [96%N; 96%N]) at 1.
    rewrite starts_with_tick_head by assumption.
    cbn [length]. now rewrite IH.
Qed.


Lemma firstn_app_exact {A : Type} (x y : list A) :
  firstn (length x) (x ++ y) = x.
Proof. induction x as [|a x IH]; [reflexivity | simpl; now rewrite IH]. Qed.

Lemma skipn_app_exact {A : Type} (x y : list A) :
  skipn (length x) (x ++ y) = y.
Proof. induction x as [|a x IH]; [reflexivity | exact IH]. Qed.

Lemma literals_led_both : tick_led (match_literals [fence_json; fence]).
Proof.
  apply match_literals_led. repeat constructor; eexists; reflexivity.
Qed.


Lemma replace_all_hit (m : jsstring -> option nat) (f : jsstring -> jsstring)
      (x y : jsstring) :
  x <> [] -> m (x ++ y) = Some (length x) ->
  replace_all m f 0 (x ++ y) = f x ++ replace_all m f 0 y.
Proof.
  destruct x as [|c x]; [congruence|]. intros _ H.
  cbn [app replace_all]. cbn [app length] in H. rewrite H.
  change (c :: x ++ y) with ((c :: x) ++ y).
  change (S (length x)) with (length (c :: x)).
  now rewrite firstn_app_exact, replace_all_skip.
Qed.


(** Erasing the markers of one fenced region leaves its inner text. *)
Lemma erase_tagged (body : jsstring) :
  no_tick body ->
  replace_all (match_literals [fence_json; fence]) erase 0
    (fence_json ++ body ++ fence) = body.
Proof.
  intros Hb.
  rewrite replace_all_hit; [| discriminate | cbn [match_literals]; now rewrite starts_with_app].
  cbn [erase app].
  rewrite replace_all_pass by (auto using literals_led_both).
  rewrite <- (app_nil_r body) at 2. f_equal.
Qed.


Lemma match_fenced_hit (open body post : jsstring) :
  no_tick body ->
  match_fenced open (open ++ body ++ fence ++ post)
  = Some (length (open ++ body ++ fence)).
Proof.
  intros Hb. unfold match_fenced.
  rewrite starts_with_app, skipn_app_exact, find_fence_after by assumption.
  f_equal. rewrite !length_app. change (length fence) with 3%nat. lia.
Qed.





Lemma starts_with_json_app (body rest : jsstring) :
  starts_with (lit "json") body = false ->
  starts_with (lit "json") (body ++ 96%N :: rest) = false.
Proof.
  intros H.
  destruct body as [|a [|b [|c [|d body]]]]; cbn in H |- *;
    repeat match goal with
           | |- context [N.eqb ?x ?y] => destruct (N.eqb x y); cbn in H |- *
           | |- context [match ?x with _ => _ end] => destruct x; cbn in H |- *
           end; congruence.
Qed.


Lemma starts_json_false_none (t : jsstring) :
  starts_with fence_json t = false -> match_fenced fence_json t = None.
Proof. intros H. unfold match_fenced. now rewrite H. Qed.





(** *** JSON.parse terminates within its fuel *)

Lemma skip_ws_length (s : jsstring) : (length (skip_ws s) <= length s)%nat.
Proof.
  induction s as [|c s IH]; simpl; [lia|].
  destruct (is_json_space c); simpl; lia.
Qed.

Lemma skip_ws_cons (s r : jsstring) (c : code_unit) :
  skip_ws s = c :: r -> (length r < length s)%nat.
Proof.
  intros H. pose proof (skip_ws_length s) as L. rewrite H in L. simpl in L. lia.
Qed.

Lemma parse_string_body_length (s acc str r : jsstring) :
  parse_string_body acc s = Some (str, r) -> (length r < length s)%nat.
Proof.
  remember (length s) as n eqn:Hn. revert s acc Hn.
  induction n as [n IH] using lt_wf_ind. intros s acc Hn H.
  destruct s as [|c s]; [discriminate|]. cbn [parse_string_body] in H.
  cbn [length] in Hn.
  destruct (N.eqb c 34); [injection H as _ <-; simpl; lia|].
  destruct (N.eqb c 92).
  - destruct s as [|e s1]; [discriminate|].
    destruct (N.eqb e 117).
    + destruct s1 as [|h1 [|h2 [|h3 [|h4 r2]]]]; try discriminate.
      destruct (hex4 h1 h2 h3 h4); [|discriminate].
      apply (IH (length r2)) in H; simpl in *; try lia.
    + destruct (simple_escape e); [|discriminate].
      apply (IH (length s1)) in H; simpl in *; try lia.
  - destruct (N.ltb c 32); [discriminate|].
    apply (IH (length s)) in H; simpl in *; try lia.
Qed.

Lemma take_digits_length (s ds r : jsstring) :
  take_digits s = (ds, r) -> (length r <= length s)%nat.
Proof.
  revert ds r. induction s as [|c s IH]; intros ds r H; simpl in H.
  - injection H as _ <-. simpl. lia.
  - destruct (is_digit c).
    + destruct (take_digits s) as [ds' r'] eqn:E. injection H as _ <-.
      specialize (IH _ _ eq_refl). simpl. lia.
    + injection H as _ <-. simpl. lia.
Qed.

Lemma parse_number_length (s n r : jsstring) :
  parse_number s = Some (n, r) -> (length r < length s)%nat.
Proof.
  unfold parse_number. destruct (parse_sign s) as [sg s1] eqn:Es.
  assert (L1 : (length s1 <= length s)%nat).
  { unfold parse_sign in Es. destruct s as [|c t]; [injection Es as _ <-; simpl; lia|].
    destruct (N.eqb c 45); injection Es as _ <-; simpl; lia. }
  destruct (parse_int s1) as [[i s2]|] eqn:Ei; [|discriminate].
  assert (L2 : (length s2 < length s1)%nat).
  { unfold parse_int in Ei. destruct s1 as [|c t]; [discriminate|].
    destruct (N.eqb c 48); [injection Ei as _ <-; simpl; lia|].
    destruct (is_digit c) eqn:D; [|discriminate].
    injection Ei as Ei. cbn [take_digits] in Ei. rewrite D in Ei.
    destruct (take_digits t) as [ds r'] eqn:T. injection Ei as _ <-.
    apply take_digits_length in T. simpl. lia. }
  destruct (parse_frac s2) as [[f s3]|] eqn:Ef; [|discriminate].
  assert (L3 : (length s3 <= length s2)%nat).
  { unfold parse_frac in Ef. destruct s2 as [|c t]; [injection Ef as _ <-; simpl; lia|].
    destruct (N.eqb c 46).
    - destruct (take_digits t) as [ds r'] eqn:T. apply take_digits_length in T.
      destruct ds; [discriminate|]. injection Ef as _ <-. simpl. lia.
    - injection Ef as _ <-. simpl. lia. }
  destruct (parse_exp s3) as [[e s4]|] eqn:Ee; [|discriminate].
  assert (L4 : (length s4 <= length s3)%nat).
  { unfold parse_exp in Ee. destruct s3 as [|c t]; [injection Ee as _ <-; simpl; lia|].
    destruct (N.eqb c 101 || N.eqb c 69)%bool.
    - destruct t as [|d r0].
      + cbn in Ee. discriminate.
      + destruct (N.eqb d 43 || N.eqb d 45)%bool.
        * destruct (take_digits r0) as [ds r'] eqn:T. apply take_digits_length in T.
          destruct ds; [discriminate|]. injection Ee as _ <-. simpl. lia.
        * destruct (take_digits (d :: r0)) as [ds r'] eqn:T. apply take_digits_length in T.
          destruct ds; [discriminate|]. injection Ee as _ <-. simpl in *. lia.
    - injection Ee as _ <-. simpl. lia. }
  intros H. injection H as _ <-. lia.
Qed.

Lemma parse_keyword_consumed (kw : jsstring) (v : value) (s : jsstring) :
  kw <> [] -> consumed s (parse_keyword kw v s).
Proof.
  intros Hk. unfold parse_keyword. destruct (starts_with kw s) eqn:E; [|exact I].
  simpl. destruct kw as [|k kw]; [congruence|]. destruct s as [|c s]; [discriminate|].
  cbn [skipn length]. pose proof (length_skipn (length kw) s). lia.
Qed.

Lemma parse_consumed (fuel : nat) :
  (forall s, (2 * length s + 2 <= fuel)%nat -> consumed s (parse_value fuel s))
  /\ (forall acc s, (2 * length s + 3 <= fuel)%nat ->
                    consumed s (parse_elements fuel acc s))
  /\ (forall acc s, (2 * length s + 3 <= fuel)%nat ->
                    consumed s (parse_members fuel acc s)).
Proof.
  induction fuel as [|f [IHv [IHe IHm]]].
  - repeat split; intros; lia.
  - repeat split.
    + intros s Hf. cbn [parse_value].
      destruct (skip_ws s) as [|c r] eqn:Es; [exact I|].
      apply skip_ws_cons in Es.
      destruct (N.eqb c 123).
      { destruct (skip_ws r) as [|c2 r2] eqn:Er; [exact I|].
        pose proof (skip_ws_length r) as Lr. rewrite Er in Lr. cbn [length] in Lr.
        destruct (N.eqb c2 125); [simpl; lia|].
        specialize (IHm [] (c2 :: r2)).
        destruct (parse_members f [] (c2 :: r2)); cbn [consumed length] in *; lia. }
      destruct (N.eqb c 91).
      { destruct (skip_ws r) as [|c2 r2] eqn:Er; [exact I|].
        pose proof (skip_ws_length r) as Lr. rewrite Er in Lr. cbn [length] in Lr.
        destruct (N.eqb c2 93); [simpl; lia|].
        specialize (IHe [] (c2 :: r2)).
        destruct (parse_elements f [] (c2 :: r2)); cbn [consumed length] in *; lia. }
      destruct (N.eqb c 34).
      { destruct (parse_string_body [] r) as [[str r']|] eqn:Eb; [|exact I].
        apply parse_string_body_length in Eb. simpl. lia. }
      assert (K : forall kw v, kw <> [] -> consumed s (parse_keyword kw v (c :: r))).
      { intros kw v Hk. pose proof (parse_keyword_consumed kw v (c :: r) Hk) as P.
        destruct (parse_keyword kw v (c :: r)); cbn [consumed length] in *; lia. }
      destruct (N.eqb c 116); [apply K; discriminate|].
      destruct (N.eqb c 102); [apply K; discriminate|].
      destruct (N.eqb c 110); [apply K; discriminate|].
      destruct (parse_number (c :: r)) as [[n r']|] eqn:En; [|exact I].
      apply parse_number_length in En. cbn [consumed length] in *. lia.
    + intros acc s Hf. cbn [parse_elements].
      specialize (IHv s). destruct (parse_value f s) as [v r| |]; cbn [consumed] in *;
        [|exact I|lia].
      assert (Lr : (length r < length s)%nat) by (apply IHv; lia).
      destruct (skip_ws r) as [|c r'] eqn:Er; [exact I|].
      apply skip_ws_cons in Er.
      destruct (N.eqb c 44).
      { specialize (IHe (acc ++ [v]) r').
        destruct (parse_elements f (acc ++ [v]) r'); cbn [consumed] in *; lia. }
      destruct (N.eqb c 93); [simpl; lia | exact I].
    + intros acc s Hf. cbn [parse_members].
      destruct (skip_ws s) as [|q r] eqn:Es; [exact I|].
      apply skip_ws_cons in Es.
      destruct (N.eqb q 34); [|exact I].
      destruct (parse_string_body [] r) as [[k r1]|] eqn:Eb; [|exact I].
      apply parse_string_body_length in Eb.
      destruct (skip_ws r1) as [|c1 r2] eqn:E1; [exact I|].
      apply skip_ws_cons in E1.
      destruct (N.eqb c1 58); [|exact I].
      specialize (IHv r2). destruct (parse_value f r2) as [v r3| |]; cbn [consumed] in *;
        [|exact I|lia].
      assert (L3 : (length r3 < length r2)%nat) by (apply IHv; lia).
      destruct (skip_ws r3) as [|c3 r4] eqn:E3; [exact I|].
      apply skip_ws_cons in E3.
      destruct (N.eqb c3 44).
      { specialize (IHm (set_prop acc k v) r4).
        destruct (parse_members f (set_prop acc k v) r4); cbn [consumed] in *; lia. }
      destruct (N.eqb c3 125); [simpl; lia | exact I].
Qed.

(** [JSON_parse] never runs out of fuel. *)
Lemma parse_value_fuel (text : jsstring) :
  parse_value (parse_fuel text) text <> NoFuel.
Proof.
  pose proof (proj1 (parse_consumed (parse_fuel text)) text) as H.
  unfold parse_fuel in *. intros E. rewrite E in H. apply H. lia.
Qed.

(** *** Conversions *)

Section Conversions.
Context {host : Host}.

Lemma ToString_array (items : list value) :
  ToString (VArr items) = array_join (lit ",") items.
Proof.
  reflexivity.
Qed.

(** Conversions and property reads throw nothing but a [TypeError]. *)
Lemma join_values_throws (xs : list value) (e : exn) :
  Forall (fun v => forall e, ToString v = Throw e -> e = TypeError) xs ->
  join_values xs = Throw e -> e = TypeError.
Proof.
  induction 1 as [|x rest Hx _ IH]; cbn [join_values]; [discriminate|].
  destruct (nullish x).
  - cbn [bind]. destruct (join_values rest); cbn [bind]; [discriminate|].
    intros H. injection H as <-. now apply IH.
  - destruct (ToString x) eqn:E; cbn [bind].
    + destruct (join_values rest); cbn [bind]; [discriminate|].
      intros H. injection H as <-. now apply IH.
    + intros H. injection H as <-. now apply Hx.
Qed.

Lemma ToString_throws (v : value) (e : exn) :
  ToString v = Throw e -> e = TypeError.
Proof.
  revert e. induction v using value_nested_ind; intros e;
    try (cbn; discriminate).
  - destruct b; cbn; discriminate.
  - rewrite ToString_array. unfold array_join.
    destruct (join_values items) eqn:E; cbn [bind]; [discriminate|].
    intros Hx. injection Hx as <-. now apply (join_values_throws items).
  - cbn [ToString]. destruct (own_prop props (lit "toString")); [|discriminate].
    intros E. now injection E as <-.
Qed.

Lemma get_throws (v : value) (k : jsstring) (e : exn) :
  get v k = Throw e -> e = TypeError.
Proof.
  destruct v; cbn [get]; try discriminate; intros E; now injection E as <-.
Qed.

Lemma get_null (k : jsstring) : get VNull k = Throw TypeError.
Proof. reflexivity. Qed.

Lemma get_field (v : value) (k : jsstring) :
  nullish v = false -> get v k = Ok (field v k).
Proof. unfold field. destruct v; cbn; try discriminate; reflexivity. Qed.

Lemma ToString_plain (v : value) :
  plain_field v = true -> exists s, ToString v = Ok s.
Proof.
  destruct v as [| |b|n|s|items|props]; cbn; try discriminate; eauto.
  destruct b; eauto.
Qed.

Lemma coalesce_plain (v : value) (d : jsstring) :
  plain_field v = true -> exists s, ToString (coalesce v (VStr d)) = Ok s.
Proof.
  intros H. unfold coalesce. destruct (nullish v); [cbn; eauto|].
  now apply ToString_plain.
Qed.

End Conversions.

(** *** Checks on concrete text *)

Lemma no_tick_check (s : jsstring) :
  forallb (fun c => negb (N.eqb c 96)) s = true -> no_tick s.
Proof.
  intros H. apply Forall_forall. intros c Hc ->.
  rewrite forallb_forall in H. specialize (H _ Hc). discriminate H.
Qed.

Lemma unit_absent_check (c : code_unit) (s : jsstring) :
  existsb (N.eqb c) s = false -> ~ In c s.
Proof.
  intros H Hin. assert (E : existsb (N.eqb c) s = true).
  { apply existsb_exists. exists c. split; [assumption | apply N.eqb_refl]. }
  congruence.
Qed.

End JSFacts.

(* ====================================================================== *)
(** * Facts about the handlers                                             *)
(* ====================================================================== *)

Module HandlerFacts.
Import JS Edge Shapes JSFacts.

Section Recovery.
Context {host : Host}.

Lemma supabase_missing_brace (raw : jsstring) :
  ~ In 123%N (Supabase.clean raw) \/ ~ In 125%N (Supabase.clean raw) ->
  Supabase.recover (VStr raw)
  = Supabase.jsonRes (Supabase.ParseFailed (VStr raw)) 200.
Proof.
  intros H. unfold Supabase.recover, Supabase.parseAlternatives.
  assert (E : ((indexOf (Supabase.clean raw) (lit "{") <? 0)
               || (lastIndexOf (Supabase.clean raw) (lit "}") <? 0))%Z = true).
  { apply orb_true_iff. destruct H as [H|H]; [left|right]; apply Z.ltb_lt.
    - now apply (indexOf_unit_neg 123).
    - now apply (lastIndexOf_unit_neg 125). }
  now rewrite E.
Qed.

Lemma edit_missing_brace (raw : jsstring) (e : exn) :
  (In 123%N (ApiEdit.clean raw) /\ ~ In 125%N (ApiEdit.clean raw))
  \/ (~ In 123%N (ApiEdit.clean raw) /\ JSON_parse (ApiEdit.clean raw) = Throw e) ->
  ApiEdit.recover (VStr raw)
  = Ok {| ApiEdit.status := 200; ApiEdit.payload := ApiEdit.ParseFailed (VStr raw) |}.
Proof.
  intros H. unfold ApiEdit.recover, ApiEdit.parse.
  destruct H as [[H1 H2]|[H1 H2]].
  - assert (E1 : (0 <= indexOf (ApiEdit.clean raw) (lit "{"))%Z).
    { destruct (Z.lt_ge_cases (indexOf (ApiEdit.clean raw) (lit "{")) 0) as [L|L];
        [|assumption]. apply (indexOf_unit_neg 123) in L. contradiction. }
    assert (E2 : lastIndexOf (ApiEdit.clean raw) (lit "}") = (-1)%Z).
    { apply (lastIndexOf_unit_neg 125) in H2.
      pose proof (lastIndexOf_ge_minus_one (ApiEdit.clean raw) (lit "}")).
      change (lit "}") with [125%N] in *. lia. }
    apply Z.leb_le in E1. rewrite E1, E2. change (-1 + 1)%Z with 0%Z.
    rewrite slice_to_zero by (now apply Z.leb_le). reflexivity.
  - apply (indexOf_unit_neg 123) in H1.
    assert (E1 : (0 <=? indexOf (ApiEdit.clean raw) (lit "{"))%Z = false).
    { apply Z.leb_gt. exact H1. }
    rewrite E1, H2. reflexivity.
Qed.

End Recovery.


Section SupabaseNormalise.
Context {host : Host}.
Import Supabase.

Lemma supabase_normalise_length (items : list value) :
  forall i mapped, normalise i items = Ok mapped -> length mapped = length items.
Proof.
  induction items as [|alt rest IH]; intros i mapped; cbn [normalise].
  - now intros [= <-].
  - destruct (get alt (lit "label")); cbn [bind]; [|discriminate].
    destruct (ToString _); cbn [bind]; [|discriminate].
    destruct (get alt (lit "text")); cbn [bind]; [|discriminate].
    destruct (ToString _); cbn [bind]; [|discriminate].
    destruct (normalise (S i) rest) eqn:E; cbn [bind]; [|discriminate].
    intros [= <-]. cbn [length]. f_equal. now apply (IH (S i)).
Qed.

Lemma supabase_normalise_throws (items : list value) :
  forall i e, normalise i items = Throw e -> e = TypeError.
Proof.
  induction items as [|alt rest IH]; intros i e; cbn [normalise]; [discriminate|].
  destruct (get alt (lit "label")) as [l|] eqn:E1; cbn [bind];
    [|intros Hx; inversion Hx; subst; now apply get_throws in E1].
  destruct (ToString (coalesce l _)) eqn:E2; cbn [bind];
    [|intros Hx; inversion Hx; subst; now apply ToString_throws in E2].
  destruct (get alt (lit "text")) as [t|] eqn:E3; cbn [bind];
    [|intros Hx; inversion Hx; subst; now apply get_throws in E3].
  destruct (ToString (coalesce t _)) eqn:E4; cbn [bind];
    [|intros Hx; inversion Hx; subst; now apply ToString_throws in E4].
  destruct (normalise (S i) rest) eqn:E5; cbn [bind]; [discriminate|].
  intros Hx; inversion Hx; subst. now apply (IH (S i)).
Qed.

(** A [null] entry makes the whole [map] throw. *)
Lemma supabase_normalise_null (items : list value) :
  In VNull items -> forall i, normalise i items = Throw TypeError.
Proof.
  induction items as [|alt rest IH]; intros Hin i; [contradiction|].
  destruct (normalise i (alt :: rest)) as [mapped|e] eqn:E.
  - exfalso. destruct Hin as [->|Hin]; [cbn in E; discriminate|].
    cbn [normalise] in E.
    destruct (get alt (lit "label")); cbn [bind] in E; [|discriminate].
    destruct (ToString _); cbn [bind] in E; [|discriminate].
    destruct (get alt (lit "text")); cbn [bind] in E; [|discriminate].
    destruct (ToString _); cbn [bind] in E; [|discriminate].
    rewrite (IH Hin (S i)) in E. discriminate.
  - f_equal. now apply supabase_normalise_throws in E.
Qed.

(** Plain entries are all read. *)
Lemma supabase_normalise_plain (items : list value) :
  forallb plain_entry items = true ->
  forall i, exists mapped, normalise i items = Ok mapped.
Proof.
  induction items as [|alt rest IH]; intros Hp i; [now exists []|].
  cbn [forallb] in Hp. apply andb_true_iff in Hp as [Ha Hr].
  unfold plain_entry in Ha. apply andb_true_iff in Ha as [Ha Ht].
  apply andb_true_iff in Ha as [Hn Hl]. apply negb_true_iff in Hn.
  cbn [normalise]. rewrite !(get_field alt) by assumption. cbn [bind].
  destruct (coalesce_plain _ (lit "Option " ++ decimal (i + 1)) Hl) as [l ->].
  destruct (coalesce_plain _ [] Ht) as [t ->]. cbn [bind].
  destruct (IH Hr (S i)) as [others ->]. cbn [bind]. eauto.
Qed.

(** The entry at position [n] of the parsed array is the entry at position
    [n] of the mapped list, and its fields are converted as follows. *)
Lemma supabase_normalise_nth (items : list value) :
  forall i mapped n alt,
    normalise i items = Ok mapped -> nth_error items n = Some alt ->
    exists a,
      nth_error mapped n = Some a
      /\ ToString (coalesce (field alt (lit "label"))
                     (VStr (lit "Option " ++ decimal (i + n + 1))))
         = Ok (label a)
      /\ ToString (coalesce (field alt (lit "text")) (VStr [])) = Ok (text a).
Proof.
  induction items as [|x rest IH]; intros i mapped n alt Hm Hn.
  - destruct n; discriminate.
  - cbn [normalise] in Hm.
    destruct (get x (lit "label")) as [l|] eqn:E1; cbn [bind] in Hm; [|discriminate].
    destruct (ToString (coalesce l _)) as [ls|] eqn:E2; cbn [bind] in Hm; [|discriminate].
    destruct (get x (lit "text")) as [t|] eqn:E3; cbn [bind] in Hm; [|discriminate].
    destruct (ToString (coalesce t _)) as [ts|] eqn:E4; cbn [bind] in Hm; [|discriminate].
    destruct (normalise (S i) rest) as [others|] eqn:E5; cbn [bind] in Hm; [|discriminate].
    injection Hm as <-.
    destruct n as [|n]; cbn [nth_error] in *.
    + injection Hn as <-. eexists. split; [reflexivity|].
      unfold field. rewrite E1, E3. cbn [label text].
      replace (i + 0 + 1)%nat with (i + 1)%nat by lia. now split.
    + destruct (IH (S i) others n alt E5 Hn) as [a [H1 [H2 H3]]].
      exists a. split; [assumption|]. split; [|assumption].
      replace (i + S n + 1)%nat with (S i + n + 1)%nat by lia. assumption.
Qed.

Lemma supabase_recover_array (raw parsed : value) (items : list value) :
  parseAlternatives raw = Ok parsed ->
  get parsed (lit "alternatives") = Ok (VArr items) ->
  recover raw
  = match normalise 0 items with
    | Ok mapped =>
        if Nat.eqb (length (filter has_text mapped)) 0
        then jsonRes (ErrorMessage (lit "empty_alternatives")) 200
        else jsonRes (Alternatives (filter has_text mapped)) 200
    | Throw err => unhandled err
    end.
Proof.
  intros Hp Hg. unfold recover. rewrite Hp, Hg. cbn [bind ToBoolean is_array negb orb items_of].
  destruct (normalise 0 items); cbn [bind]; [|reflexivity].
  now destruct (Nat.eqb _ 0).
Qed.

End SupabaseNormalise.

Section ApiNormalise.
Context {host : Host}.
Import ApiAiEdit.

Lemma api_normalise_throws (items : list value) :
  forall i e, normalise i items = Throw e -> e = TypeError.
Proof.
  induction items as [|alt rest IH]; intros i e; cbn [normalise]; [discriminate|].
  destruct (get alt (lit "label")) as [l|] eqn:E1; cbn [bind];
    [|intros Hx; inversion Hx; subst; now apply get_throws in E1].
  destruct (get alt (lit "text")) as [t|] eqn:E3; cbn [bind];
    [|intros Hx; inversion Hx; subst; now apply get_throws in E3].
  destruct (normalise (S i) rest) eqn:E5; cbn [bind]; [discriminate|].
  intros Hx; inversion Hx; subst. now apply (IH (S i)).
Qed.

Lemma api_normalise_null (items : list value) :
  In VNull items -> forall i, normalise i items = Throw TypeError.
Proof.
  induction items as [|alt rest IH]; intros Hin i; [contradiction|].
  destruct (normalise i (alt :: rest)) as [mapped|e] eqn:E.
  - exfalso. destruct Hin as [->|Hin]; [cbn in E; discriminate|].
    cbn [normalise] in E.
    destruct (get alt (lit "label")); cbn [bind] in E; [|discriminate].
    destruct (get alt (lit "text")); cbn [bind] in E; [|discriminate].
    rewrite (IH Hin (S i)) in E. discriminate.
  - f_equal. now apply api_normalise_throws in E.
Qed.

Lemma api_normalise_nth (items : list value) :
  forall i mapped n alt,
    normalise i items = Ok mapped -> nth_error items n = Some alt ->
    exists a,
      nth_error mapped n = Some a
      /\ label a = or_else (field alt (lit "label"))
                     (VStr (lit "Option " ++ decimal (i + n + 1)))
      /\ text a = or_else (field alt (lit "text")) (VStr []).
Proof.
  induction items as [|x rest IH]; intros i mapped n alt Hm Hn.
  - destruct n; discriminate.
  - cbn [normalise] in Hm.
    destruct (get x (lit "label")) as [l|] eqn:E1; cbn [bind] in Hm; [|discriminate].
    destruct (get x (lit "text")) as [t|] eqn:E3; cbn [bind] in Hm; [|discriminate].
    destruct (normalise (S i) rest) as [others|] eqn:E5; cbn [bind] in Hm; [|discriminate].
    injection Hm as <-.
    destruct n as [|n]; cbn [nth_error] in *.
    + injection Hn as <-. eexists. split; [reflexivity|].
      unfold field. rewrite E1, E3. cbn [label text].
      replace (i + 0 + 1)%nat with (i + 1)%nat by lia. now split.
    + destruct (IH (S i) others n alt E5 Hn) as [a [H1 [H2 H3]]].
      exists a. split; [assumption|]. split; [|assumption].
      replace (i + S n + 1)%nat with (S i + n + 1)%nat by lia. assumption.
Qed.

Lemma api_recover_array (raw parsed : value) (items : list value) :
  parseAlternatives raw = Ok parsed ->
  get parsed (lit "alternatives") = Ok (VArr items) ->
  recover raw
  = (mapped <- normalise 0 items ;;
     kept <- keep_with_text mapped ;;
     if Nat.eqb (length kept) 0 then
       Ok {| status := 200; payload := ErrorMessage (lit "bad_schema") |}
     else
       Ok {| status := 200; payload := Result (with_alternatives parsed kept) |}).
Proof.
  intros Hp Hg. unfold recover. rewrite Hp, Hg. reflexivity.
Qed.

End ApiNormalise.

Section Validation.
Context {host : Host}.

Lemma ToBoolean_default_null (v : value) :
  ToBoolean (default_to VNull v) = ToBoolean v.
Proof. now destruct v. Qed.

Lemma is_string_value (v : value) :
  is_string v = true -> v = VStr (string_value v).
Proof. destruct v; cbn; try discriminate; reflexivity. Qed.

(** What [prepare] computes once the body is known not to be [null]. *)
Lemma supabase_prepare_fields (apiKey : jsstring) (body : value) :
  nullish body = false ->
  Supabase.prepare apiKey body
  = let tone := default_to VNull (field body (lit "tone")) in
    let action := field body (lit "action") in
    if (negb (ToBoolean action) || negb (is_string action))%bool then
      Ok (inl (Supabase.jsonRes
                 (Supabase.ErrorMessage (txt "Missing or invalid ^action^")) 400))
    else
      selected <- ToString (coalesce (field body (lit "selectedText")) (VStr [])) ;;
      if is_empty (trim selected) then
        Ok (inl (Supabase.jsonRes
                   (Supabase.ErrorMessage (txt "Missing or empty ^selectedText^")) 400))
      else if negb (Supabase.includes Supabase.validActions (Supabase.string_of action)) then
        Ok (inl (Supabase.jsonRes
                   (Supabase.ErrorMessage
                      (lit "Unknown action: " ++ Supabase.string_of action)) 400))
      else if (str_eqb (Supabase.string_of action) (lit "tone")
               && negb (ToBoolean tone))%bool then
        Ok (inl (Supabase.jsonRes
                   (Supabase.ErrorMessage
                      (txt "^tone^ value is required when action is ^tone^")) 400))
      else
        systemPrompt <- Supabase.buildSystemPrompt (Supabase.string_of action) tone ;;
        title <- ToString (or_else (default_to (VStr []) (field body (lit "noteTitle")))
                             (VStr [])) ;;
        content <- ToString (or_else (default_to (VStr []) (field body (lit "noteContent")))
                               (VStr [])) ;;
        bef <- ToString (or_else (default_to (VStr []) (field body (lit "before")))
                           (VStr [])) ;;
        aft <- ToString (or_else (default_to (VStr []) (field body (lit "after")))
                           (VStr [])) ;;
        userMessage <- Supabase.buildUserMessage
                         {| Supabase.noteTitle := title;
                            Supabase.noteContent := content;
                            Supabase.selectedText := trim selected;
                            Supabase.before := bef; Supabase.after := aft;
                            Supabase.action := Supabase.string_of action;
                            Supabase.tone := tone |} ;;
        Ok (inr {| api_key := apiKey; model := Supabase.MODEL; max_tokens := 2000;
                   temperature := Supabase.getTemperature (Supabase.string_of action);
                   system := systemPrompt; user_content := userMessage |}).
Proof.
  intros Hn. unfold Supabase.prepare. rewrite !(get_field body) by assumption.
  reflexivity.
Qed.

(** One of the four guards of the handler fires on a body that must be
    rejected. *)
Lemma supabase_guard_fires (body : value) (selected : jsstring) :
  must_reject body = true ->
  ToString (coalesce (field body (lit "selectedText")) (VStr [])) = Ok selected ->
  ((negb (ToBoolean (field body (lit "action")))
    || negb (is_string (field body (lit "action"))))
   || is_empty (trim selected)
   || negb (Supabase.includes Supabase.validActions
              (Supabase.string_of (field body (lit "action"))))
   || (str_eqb (Supabase.string_of (field body (lit "action"))) (lit "tone")
       && negb (ToBoolean (default_to VNull (field body (lit "tone"))))))%bool
  = true.
Proof.
  intros Hr Es. unfold must_reject in Hr.
  rewrite ToBoolean_default_null.
  change (negb (Supabase.includes Supabase.validActions
                  (Supabase.string_of (field body (lit "action")))))
    with (action_unknown body).
  change (str_eqb (Supabase.string_of (field body (lit "action"))) (lit "tone")
          && negb (ToBoolean (field body (lit "tone"))))%bool
    with (tone_missing body).
  change (negb (ToBoolean (field body (lit "action")))
          || negb (is_string (field body (lit "action"))))%bool
    with (action_invalid body).
  assert (Et : selection_empty body = true -> is_empty (trim selected) = true).
  { unfold selection_empty.
    destruct (field body (lit "selectedText")); try discriminate;
      cbn in Es; injection Es as <-; intros Hs; [reflexivity | reflexivity | exact Hs]. }
  destruct (action_invalid body); [reflexivity|].
  destruct (selection_empty body); [now rewrite Et|].
  destruct (is_empty (trim selected)); [reflexivity|].
  destruct (action_unknown body); [reflexivity|].
  exact Hr.
Qed.

(** A body that must be rejected never reaches the generation call. *)
Lemma supabase_prepare_rejects (apiKey : jsstring) (body : value) (call : GenCall) :
  must_reject body = true -> Supabase.prepare apiKey body <> Ok (inr call).
Proof.
  intros Hr. destruct (nullish body) eqn:Hn.
  { destruct body; try discriminate; cbn; discriminate. }
  rewrite supabase_prepare_fields by assumption. cbv zeta.
  destruct (ToString (coalesce (field body (lit "selectedText")) (VStr [])))
    as [selected|] eqn:Es; cbn [bind].
  - pose proof (supabase_guard_fires body selected Hr Es) as G.
    destruct (negb _ || negb _)%bool; [discriminate|].
    destruct (is_empty _); [discriminate|].
    destruct (negb (Supabase.includes _ _)); [discriminate|].
    destruct (_ && _)%bool; [discriminate|]. discriminate G.
  - destruct (negb _ || negb _)%bool; discriminate.
Qed.

(** With a selection that converts to a string, the rejection is a 400. *)
Lemma supabase_prepare_400 (apiKey : jsstring) (body : value) :
  must_reject body = true -> nullish body = false ->
  plain_field (field body (lit "selectedText")) = true ->
  exists response,
    Supabase.prepare apiKey body = Ok (inl response)
    /\ Supabase.status response = 400%Z.
Proof.
  intros Hr Hn Hp.
  rewrite supabase_prepare_fields by assumption. cbv zeta.
  destruct (coalesce_plain _ [] Hp) as [selected Es]. rewrite Es. cbn [bind].
  pose proof (supabase_guard_fires body selected Hr Es) as G.
  destruct (negb _ || negb _)%bool; [eexists; split; reflexivity|].
  destruct (is_empty _); [eexists; split; reflexivity|].
  destruct (negb (Supabase.includes _ _)); [eexists; split; reflexivity|].
  destruct (_ && _)%bool; [eexists; split; reflexivity|]. discriminate G.
Qed.


Lemma api_prepare_fields (apiKey : jsstring) (body : value) :
  nullish body = false ->
  ApiAiEdit.prepare apiKey body
  = let tone := default_to VNull (field body (lit "tone")) in
    let action := field body (lit "action") in
    let selectedText := field body (lit "selectedText") in
    if (negb (ToBoolean action) || negb (is_string action))%bool then
      Ok (inl (ApiAiEdit.jsonError (txt "Missing or invalid ^action^") 400))
    else
      empty <- api_selection_check selectedText ;;
      if (empty : bool) then
        Ok (inl (ApiAiEdit.jsonError (txt "Missing or empty ^selectedText^") 400))
      else if negb (ApiAiEdit.includes ApiAiEdit.validActions
                      (ApiAiEdit.string_of action)) then
        Ok (inl (ApiAiEdit.jsonError
                   (lit "Unknown action: " ++ ApiAiEdit.string_of action) 400))
      else if (str_eqb (ApiAiEdit.string_of action) (lit "tone")
               && negb (ToBoolean tone))%bool then
        Ok (inl (ApiAiEdit.jsonError
                   (txt "^tone^ value required when action is ^tone^") 400))
      else
        systemPrompt <- ApiAiEdit.buildSystemPrompt (ApiAiEdit.string_of action) tone
                          (default_to VNull (field body (lit "userProfile"))) ;;
        selectedTrimmed <- call_trim selectedText ;;
        userMessage <- ApiAiEdit.buildUserMessage
                         {| ApiAiEdit.noteTitle :=
                              default_to (VStr []) (field body (lit "noteTitle"));
                            ApiAiEdit.noteContent :=
                              default_to (VStr []) (field body (lit "noteContent"));
                            ApiAiEdit.selectedText := selectedTrimmed;
                            ApiAiEdit.selectionContext :=
                              default_to (VObj []) (field body (lit "selectionContext"));
                            ApiAiEdit.action := ApiAiEdit.string_of action;
                            ApiAiEdit.tone := tone |} ;;
        Ok (inr {| api_key := apiKey; model := ApiAiEdit.MODEL; max_tokens := 2000;
                   temperature := ApiAiEdit.getTemperature (ApiAiEdit.string_of action);
                   system := systemPrompt; user_content := userMessage |}).
Proof.
  intros Hn. unfold ApiAiEdit.prepare. rewrite !(get_field body) by assumption.
  reflexivity.
Qed.

Lemma api_guard_fires (body : value) (empty : bool) :
  must_reject body = true ->
  api_selection_check (field body (lit "selectedText")) = Ok empty ->
  ((negb (ToBoolean (field body (lit "action")))
    || negb (is_string (field body (lit "action"))))
   || empty
   || negb (ApiAiEdit.includes ApiAiEdit.validActions
              (ApiAiEdit.string_of (field body (lit "action"))))
   || (str_eqb (ApiAiEdit.string_of (field body (lit "action"))) (lit "tone")
       && negb (ToBoolean (default_to VNull (field body (lit "tone"))))))%bool
  = true.
Proof.
  intros Hr Es. unfold must_reject in Hr.
  rewrite ToBoolean_default_null.
  change (negb (ApiAiEdit.includes ApiAiEdit.validActions
                  (ApiAiEdit.string_of (field body (lit "action")))))
    with (action_unknown body).
  change (str_eqb (ApiAiEdit.string_of (field body (lit "action"))) (lit "tone")
          && negb (ToBoolean (field body (lit "tone"))))%bool
    with (tone_missing body).
  change (negb (ToBoolean (field body (lit "action")))
          || negb (is_string (field body (lit "action"))))%bool
    with (action_invalid body).
  assert (Et : selection_empty body = true -> empty = true).
  { unfold selection_empty, api_selection_check in *.
    destruct (field body (lit "selectedText")) as [| |b|n|s|items|props];
      try discriminate; cbn in Es.
    - now injection Es as <-.
    - now injection Es as <-.
    - intros Hs. destruct s; cbn in Es; [now injection Es as <-|].
      injection Es as <-. exact Hs. }
  destruct (action_invalid body); [reflexivity|].
  destruct (selection_empty body); [now rewrite Et|].
  destruct empty; [reflexivity|].
  destruct (action_unknown body); [reflexivity|].
  exact Hr.
Qed.

Lemma api_prepare_rejects (apiKey : jsstring) (body : value) (call : GenCall) :
  must_reject body = true -> ApiAiEdit.prepare apiKey body <> Ok (inr call).
Proof.
  intros Hr. destruct (nullish body) eqn:Hn.
  { destruct body; try discriminate; cbn; discriminate. }
  rewrite api_prepare_fields by assumption. cbv zeta.
  destruct (api_selection_check (field body (lit "selectedText")))
    as [empty|] eqn:Es; cbn [bind].
  - pose proof (api_guard_fires body empty Hr Es) as G.
    destruct (negb _ || negb _)%bool; [discriminate|].
    destruct empty; [discriminate|].
    destruct (negb (ApiAiEdit.includes _ _)); [discriminate|].
    destruct (_ && _)%bool; [discriminate|]. discriminate G.
  - destruct (negb _ || negb _)%bool; discriminate.
Qed.

Lemma api_selection_check_total (sel : value) :
  (negb (ToBoolean sel) || is_string sel)%bool = true ->
  exists empty, api_selection_check sel = Ok empty.
Proof.
  unfold api_selection_check. intros H. destruct (ToBoolean sel); [|eauto].
  cbn in H. destruct sel; try discriminate. cbn. eauto.
Qed.

Lemma api_prepare_400 (apiKey : jsstring) (body : value) :
  must_reject body = true -> nullish body = false ->
  (negb (ToBoolean (field body (lit "selectedText")))
   || is_string (field body (lit "selectedText")))%bool = true ->
  exists response,
    ApiAiEdit.prepare apiKey body = Ok (inl response)
    /\ ApiAiEdit.status response = 400%Z.
Proof.
  intros Hr Hn Hp.
  rewrite api_prepare_fields by assumption. cbv zeta.
  destruct (api_selection_check_total _ Hp) as [empty Es]. rewrite Es. cbn [bind].
  pose proof (api_guard_fires body empty Hr Es) as G.
  destruct (negb _ || negb _)%bool; [eexists; split; reflexivity|].
  destruct empty; [eexists; split; reflexivity|].
  destruct (negb (ApiAiEdit.includes _ _)); [eexists; split; reflexivity|].
  destruct (_ && _)%bool; [eexists; split; reflexivity|]. discriminate G.
Qed.


(** *** Prompt building on typed requests *)

Lemma opt_string_or (v : value) (d : jsstring) :
  opt_string v = true -> exists s, or_else v (VStr d) = VStr s.
Proof.
  unfold or_else. destruct v; try discriminate; cbn; eauto.
  destruct s; eauto.
Qed.

Lemma opt_string_default_or (v : value) (d : jsstring) :
  opt_string v = true ->
  exists s, or_else (default_to (VStr []) v) (VStr d) = VStr s.
Proof.
  unfold or_else. destruct v; try discriminate; cbn; eauto.
  destruct s; eauto.
Qed.

Lemma opt_string_tone (v : value) :
  opt_string v = true -> exists s, ToString (default_to VNull v) = Ok s.
Proof. destruct v; try discriminate; cbn; eauto. Qed.

Lemma supabase_system_total (action : jsstring) (tone : value) :
  (exists s, ToString tone = Ok s) ->
  exists sys, Supabase.buildSystemPrompt action tone = Ok sys.
Proof.
  intros [s Hs]. unfold Supabase.buildSystemPrompt. rewrite Hs. cbn [bind].
  destruct (_ && _)%bool; eauto.
Qed.

Lemma supabase_user_total (params : Supabase.Params) :
  (exists s, ToString (Supabase.tone params) = Ok s) ->
  exists msg, Supabase.buildUserMessage params = Ok msg.
Proof.
  intros [s Hs]. unfold Supabase.buildUserMessage. rewrite Hs. cbn [bind].
  destruct (ToBoolean _); cbn [bind]; eauto.
Qed.

Lemma typed_body_fields (body : value) :
  typed_body body = true ->
  nullish body = false
  /\ opt_string (field body (lit "tone")) = true
  /\ opt_string (field body (lit "noteTitle")) = true
  /\ opt_string (field body (lit "noteContent")) = true
  /\ opt_string (field body (lit "selectedText")) = true
  /\ opt_string (field body (lit "before")) = true
  /\ opt_string (field body (lit "after")) = true.
Proof.
  unfold typed_body. intros H.
  repeat (apply andb_true_iff in H as [H ?]).
  repeat split; try assumption. now destruct body.
Qed.

(** On a typed body that need not be rejected the selection is a string
    with text in it, and none of the guards fires. *)
Lemma accepted_fields (body : value) :
  must_reject body = false ->
  opt_string (field body (lit "selectedText")) = true ->
  (negb (ToBoolean (field body (lit "action")))
   || negb (is_string (field body (lit "action"))))%bool = false
  /\ (exists s, field body (lit "selectedText") = VStr s
                /\ is_empty (trim s) = false /\ s <> [])
  /\ existsb (fun a => str_eqb a (string_value (field body (lit "action"))))
       known_actions = true
  /\ (str_eqb (string_value (field body (lit "action"))) (lit "tone")
      && negb (ToBoolean (default_to VNull (field body (lit "tone")))))%bool = false.
Proof.
  unfold must_reject. intros H Ho.
  apply orb_false_iff in H as [H H4]. apply orb_false_iff in H as [H H3].
  apply orb_false_iff in H as [H1 H2].
  split; [exact H1|]. split.
  - unfold selection_empty in H2.
    destruct (field body (lit "selectedText")); try discriminate.
    eexists. split; [reflexivity|]. split; [exact H2|].
    intros ->. discriminate H2.
  - split; [now apply negb_false_iff in H3|].
    rewrite ToBoolean_default_null. exact H4.
Qed.

Lemma supabase_prepare_total (apiKey : jsstring) (body : value) :
  typed_body body = true -> must_reject body = false ->
  exists call, Supabase.prepare apiKey body = Ok (inr call).
Proof.
  intros Ht Hr.
  destruct (typed_body_fields body Ht) as (Hn & Htone & Htitle & Hcontent & Hsel & Hbef & Haft).
  destruct (accepted_fields body Hr Hsel) as (G1 & (s & Es & Hs & _) & G3 & G4).
  rewrite supabase_prepare_fields by assumption. cbv zeta.
  rewrite G1, Es. cbn [coalesce nullish ToString bind]. rewrite Hs.
  change (Supabase.includes Supabase.validActions (Supabase.string_of ?v))
    with (existsb (fun a => str_eqb a (string_value v)) known_actions).
  rewrite G3. cbn [negb].
  change (Supabase.string_of ?v) with (string_value v). rewrite G4.
  destruct (supabase_system_total (string_value (field body (lit "action")))
              _ (opt_string_tone _ Htone)) as [sys ->]. cbn [bind].
  destruct (opt_string_default_or _ [] Htitle) as [t ->].
  destruct (opt_string_default_or _ [] Hcontent) as [c ->].
  destruct (opt_string_default_or _ [] Hbef) as [b ->].
  destruct (opt_string_default_or _ [] Haft) as [a ->].
  cbn [ToString bind].
  match goal with
  | |- context [Supabase.buildUserMessage ?p] =>
      destruct (supabase_user_total p (opt_string_tone _ Htone)) as [msg ->]
  end.
  cbn [bind]. eauto.
Qed.


Lemma join_values_strings (items : list value) :
  forallb is_string items = true -> exists parts, join_values items = Ok parts.
Proof.
  induction items as [|x rest IH]; cbn [forallb join_values]; [eauto|].
  intros H. apply andb_true_iff in H as [Hx Hr].
  destruct x; try discriminate. cbn [nullish ToString bind].
  destruct (IH Hr) as [parts ->]. cbn [bind]. eauto.
Qed.

Lemma profile_line_total (heading : jsstring) (v : value) :
  opt_string v = true -> exists l, ApiAiEdit.profile_line heading v = Ok l.
Proof.
  unfold ApiAiEdit.profile_line. destruct v; try discriminate; cbn; eauto.
  destruct s; cbn; eauto.
Qed.

Lemma api_profile_total (profile : value) :
  typed_profile profile = true ->
  exists ctx, ApiAiEdit.buildProfileContext (default_to VNull profile) = Ok ctx.
Proof.
  unfold typed_profile.
  destruct profile as [| |b|n|s|items|props]; try discriminate;
    try (intros _; cbn; eauto; fail).
  intros H.
  apply andb_true_iff in H as [H Hnotes]. apply andb_true_iff in H as [H Hlangs].
  apply andb_true_iff in H as [H Hintent]. apply andb_true_iff in H as [Htone Haud].
  unfold ApiAiEdit.buildProfileContext. cbn [default_to ToBoolean negb].
  rewrite !(get_field (VObj props)) by reflexivity. cbn [bind].
  destruct (profile_line_total (txt "@ Preferred tone: ") _ Htone) as [l1 ->].
  destruct (profile_line_total (txt "@ Target audience: ") _ Haud) as [l2 ->].
  destruct (profile_line_total (txt "@ Writing intent: ") _ Hintent) as [l3 ->].
  cbn [bind].
  assert (Hl : exists l4,
             (if ToBoolean (field (VObj props) (lit "languages")) then
                some <- ApiAiEdit.has_length (field (VObj props) (lit "languages")) ;;
                if some then
                  joined <- ApiAiEdit.call_join (lit ", ")
                              (field (VObj props) (lit "languages")) ;;
                  Ok [txt "@ Languages: " ++ joined]
                else Ok []
              else Ok []) = Ok l4).
  { destruct (field (VObj props) (lit "languages")) as [| |b|n|s|items|ps];
      try discriminate; cbn [ToBoolean]; eauto.
    cbn [ApiAiEdit.has_length bind]. destruct (negb _); eauto.
    unfold ApiAiEdit.call_join, array_join.
    destruct (join_values_strings items Hlangs) as [parts ->]. cbn [bind]. eauto. }
  destruct Hl as [l4 ->]. cbn [bind].
  assert (Hs : exists l5,
             (if ToBoolean (field (VObj props) (lit "style_notes")) then
                trimmed <- call_trim (field (VObj props) (lit "style_notes")) ;;
                if is_empty trimmed then Ok []
                else Ok [txt "@ Style notes: " ++ trimmed]
              else Ok []) = Ok l5).
  { destruct (field (VObj props) (lit "style_notes")) as [| |b|n|s|items|ps];
      try discriminate; cbn [ToBoolean]; eauto.
    destruct s; eauto. cbn [call_trim bind]. destruct (is_empty _); eauto. }
  destruct Hs as [l5 ->]. cbn [bind].
  destruct (Nat.eqb _ 0); eauto.
Qed.

Lemma api_system_total (action : jsstring) (tone profile : value) :
  (exists s, ToString tone = Ok s) ->
  (exists ctx, ApiAiEdit.buildProfileContext profile = Ok ctx) ->
  exists sys, ApiAiEdit.buildSystemPrompt action tone profile = Ok sys.
Proof.
  intros [s Hs] [ctx Hc]. unfold ApiAiEdit.buildSystemPrompt.
  rewrite Hc, Hs. cbn [bind]. destruct (_ && _)%bool; eauto.
Qed.

Lemma api_context_total (ctx : value) (k : jsstring) :
  k = lit "before" \/ k = lit "after" ->
  typed_context ctx = true ->
  exists s, ApiAiEdit.context_part (default_to (VObj []) ctx) k = Ok (VStr s).
Proof.
  intros Hk. unfold typed_context, ApiAiEdit.context_part.
  destruct ctx as [| |b|n|s|items|props]; try discriminate.
  - intros _. cbn. destruct Hk as [-> | ->]; cbn; eauto.
  - intros H. apply andb_true_iff in H as [Hb Ha].
    cbn [default_to ToBoolean].
    rewrite (get_field (VObj props)) by reflexivity. cbn [bind].
    destruct Hk as [-> | ->].
    + destruct (opt_string_or _ [] Hb) as [s ->]. eauto.
    + destruct (opt_string_or _ [] Ha) as [s ->]. eauto.
Qed.

Lemma api_user_total (params : ApiAiEdit.Params) :
  (exists s, ToString (ApiAiEdit.tone params) = Ok s) ->
  (exists s, or_else (ApiAiEdit.noteTitle params) (VStr (lit "(untitled)")) = VStr s) ->
  (exists s, or_else (ApiAiEdit.noteContent params) (VStr (lit "(empty)")) = VStr s) ->
  (exists s, ApiAiEdit.context_part (ApiAiEdit.selectionContext params) (lit "before")
             = Ok (VStr s)) ->
  (exists s, ApiAiEdit.context_part (ApiAiEdit.selectionContext params) (lit "after")
             = Ok (VStr s)) ->
  exists msg, ApiAiEdit.buildUserMessage params = Ok msg.
Proof.
  intros [t Ht] [title Htitle] [content Hcontent] [b Hb] [a Ha].
  unfold ApiAiEdit.buildUserMessage. rewrite Hb, Ha, Ht, Htitle, Hcontent.
  cbn [bind].
  assert (Hb' : exists s, or_else (VStr b) (VStr (lit "(start of note)")) = VStr s)
    by (apply opt_string_or; reflexivity).
  assert (Ha' : exists s, or_else (VStr a) (VStr (lit "(end of note)")) = VStr s)
    by (apply opt_string_or; reflexivity).
  destruct Hb' as [b' ->]. destruct Ha' as [a' ->].
  destruct (ToBoolean _); cbn [bind]; unfold array_join;
    cbn [join_values nullish ToString bind]; eauto.
Qed.

Lemma typed_api_body_fields (body : value) :
  typed_api_body body = true ->
  nullish body = false
  /\ opt_string (field body (lit "tone")) = true
  /\ opt_string (field body (lit "noteTitle")) = true
  /\ opt_string (field body (lit "noteContent")) = true
  /\ opt_string (field body (lit "selectedText")) = true
  /\ typed_context (field body (lit "selectionContext")) = true
  /\ typed_profile (field body (lit "userProfile")) = true.
Proof.
  unfold typed_api_body. intros H.
  repeat (apply andb_true_iff in H as [H ?]).
  repeat split; try assumption. now destruct body.
Qed.

Lemma api_prepare_total (apiKey : jsstring) (body : value) :
  typed_api_body body = true -> must_reject body = false ->
  exists call, ApiAiEdit.prepare apiKey body = Ok (inr call).
Proof.
  intros Ht Hr.
  destruct (typed_api_body_fields body Ht)
    as (Hn & Htone & Htitle & Hcontent & Hsel & Hctx & Hprof).
  destruct (accepted_fields body Hr Hsel) as (G1 & (s & Es & Hs & Hne) & G3 & G4).
  rewrite api_prepare_fields by assumption. cbv zeta.
  rewrite G1, Es. unfold api_selection_check.
  destruct s as [|c s]; [congruence|]. cbn [ToBoolean call_trim bind]. rewrite Hs.
  change (ApiAiEdit.includes ApiAiEdit.validActions (ApiAiEdit.string_of ?v))
    with (existsb (fun a => str_eqb a (string_value v)) known_actions).
  rewrite G3. cbn [negb].
  change (ApiAiEdit.string_of ?v) with (string_value v). rewrite G4.
  destruct (api_system_total (string_value (field body (lit "action"))) _ _
              (opt_string_tone _ Htone) (api_profile_total _ Hprof)) as [sys ->].
  cbn [bind].
  match goal with
  | |- context [ApiAiEdit.buildUserMessage ?p] =>
      destruct (api_user_total p) as [msg ->]
  end; cbn [ApiAiEdit.tone ApiAiEdit.noteTitle ApiAiEdit.noteContent
            ApiAiEdit.selectionContext].
  - now apply opt_string_tone.
  - now apply opt_string_default_or.
  - now apply opt_string_default_or.
  - apply api_context_total; auto.
  - apply api_context_total; auto.
  - cbn [bind]. eauto.
Qed.


(** *** The fallback of the registry lookup *)

Lemma lookup_absent (table : list (jsstring * jsstring)) (k : jsstring) :
  assoc table k = None -> inherited_name k = false -> lookup table k = Absent.
Proof.
  unfold lookup, inherited_name. intros -> H.
  destruct (assoc object_prototype_functions k); [discriminate|].
  now rewrite H.
Qed.

Lemma supabase_fallback (action : jsstring) (tone : value) :
  assoc Supabase.ACTION_INSTRUCTIONS action = None ->
  inherited_name action = false ->
  (str_eqb action (lit "tone") && ToBoolean tone)%bool = false ->
  Supabase.buildSystemPrompt action tone
  = Ok (Supabase.BASE_SYSTEM ++ txt "||"
        ++ txt "ACTION ~ Rewrite: improve flow and readability. Keep meaning identical.|"
        ++ Supabase.SCHEMA_3).
Proof.
  intros Ha Hi Ht. unfold Supabase.buildSystemPrompt. rewrite Ht.
  rewrite (lookup_absent _ _ Ha Hi). reflexivity.
Qed.

Lemma api_fallback (action : jsstring) (tone profile : value) (ctx : jsstring) :
  assoc ApiAiEdit.ACTION_INSTRUCTIONS action = None ->
  inherited_name action = false ->
  (str_eqb action (lit "tone") && ToBoolean tone)%bool = false ->
  ApiAiEdit.buildProfileContext profile = Ok ctx ->
  ApiAiEdit.buildSystemPrompt action tone profile
  = Ok (ApiAiEdit.BASE_SYSTEM ++ ctx ++ txt "||"
        ++ txt "ACTION ~ Rewrite: improve flow and readability. Keep meaning identical.|"
        ++ ApiAiEdit.SCHEMA_3).
Proof.
  intros Ha Hi Ht Hc. unfold ApiAiEdit.buildSystemPrompt. rewrite Hc, Ht.
  cbn [bind]. rewrite (lookup_absent _ _ Ha Hi). reflexivity.
Qed.

(** *** The prompts do not depend on the credential *)

Lemma supabase_prompts_key (key1 key2 : jsstring) (body : value) :
  prompts (Supabase.prepare key1 body) = prompts (Supabase.prepare key2 body).
Proof.
  unfold Supabase.prepare.
  repeat match goal with
         | |- context [bind ?r _] =>
             lazymatch r with
             | context [bind _ _] => fail
             | _ => destruct r; cbn [bind]; try reflexivity
             end
         | |- context [if ?c then _ else _] =>
             lazymatch c with
             | context [bind _ _] => fail
             | _ => destruct c; try reflexivity
             end
         end.
Qed.

Lemma api_prompts_key (key1 key2 : jsstring) (body : value) :
  prompts (ApiAiEdit.prepare key1 body) = prompts (ApiAiEdit.prepare key2 body).
Proof.
  unfold ApiAiEdit.prepare.
  repeat match goal with
         | |- context [bind ?r _] =>
             lazymatch r with
             | context [bind _ _] => fail
             | _ => destruct r; cbn [bind]; try reflexivity
             end
         | |- context [if ?c then _ else _] =>
             lazymatch c with
             | context [bind _ _] => fail
             | _ => destruct c; try reflexivity
             end
         end.
Qed.

End Validation.

Section ApiPipeline.
Context {host : Host}.

(** Entries that [src/api/ai-edit.js] can read and trim are all read and
    filtered. *)
Lemma api_pipeline_total (items : list value) :
  forallb trimmable_entry items = true ->
  forall i, exists mapped kept,
    ApiAiEdit.normalise i items = Ok mapped
    /\ ApiAiEdit.keep_with_text mapped = Ok kept.
Proof.
  induction items as [|alt rest IH]; intros Hp i.
  - exists [], []. split; reflexivity.
  - cbn [forallb] in Hp. apply andb_true_iff in Hp as [Ha Hr].
    unfold trimmable_entry in Ha. apply andb_true_iff in Ha as [Hn Ht].
    apply negb_true_iff in Hn.
    destruct (IH Hr (S i)) as (mapped & kept & Hm & Hk).
    cbn [ApiAiEdit.normalise]. rewrite !(get_field alt) by assumption.
    cbn [bind]. rewrite Hm. cbn [bind].
    assert (Htrim : exists t, call_trim (or_else (field alt (lit "text")) (VStr [])) = Ok t).
    { unfold or_else. destruct (ToBoolean (field alt (lit "text"))) eqn:E.
      + cbn [negb orb] in Ht.
        destruct (field alt (lit "text")); try discriminate Ht.
        cbn [call_trim]. eauto.
      + cbn [call_trim]. eauto. }
    destruct Htrim as [t Htr].
    eexists. eexists. split; [reflexivity|].
    cbn [ApiAiEdit.keep_with_text ApiAiEdit.text]. rewrite Htr. cbn [bind].
    rewrite Hk. cbn [bind]. reflexivity.
Qed.

End ApiPipeline.

End HandlerFacts.

(* ====================================================================== *)
(** * The claims                                                           *)
(* ====================================================================== *)

Import JS Edge Shapes JSFacts HandlerFacts.

Section Claims.
Context {host : Host}.

(** C1 (amended).  In the Supabase handler, for every parsed value whose
    [alternatives] is an array of entries that are not [null] and whose
    [label] and [text] are absent, [null] or primitive, normalisation reads
    every entry, drops those whose trimmed text is empty, and then: with no
    entry left the response is [empty_alternatives] with status 200; with at
    least one left, all of them are returned as success, however few.  In
    [src/api/ai-edit.js], for entries that are not [null] and whose [text] is
    falsy or a string, no entry left is answered with status 200 and an
    error payload, and at least one left is returned as success.  The
    wrapped text with one empty alternative gives [empty_alternatives] in
    the first, and status 200 with an error payload in the second. *)
Theorem C1_normalisation_outcomes (raw parsed : value) (items : list value) :
  get parsed (lit "alternatives") = Ok (VArr items) ->
  (Supabase.parseAlternatives raw = Ok parsed ->
   forallb plain_entry items = true ->
   exists mapped,
     Supabase.normalise 0 items = Ok mapped
     /\ length mapped = length items
     /\ (filter Supabase.has_text mapped = [] ->
         Supabase.recover raw
         = Supabase.jsonRes (Supabase.ErrorMessage (lit "empty_alternatives")) 200)
     /\ (filter Supabase.has_text mapped <> [] ->
         Supabase.recover raw
         = Supabase.jsonRes
             (Supabase.Alternatives (filter Supabase.has_text mapped)) 200))
  /\ (ApiAiEdit.parseAlternatives raw = Ok parsed ->
      forallb trimmable_entry items = true ->
      exists mapped kept,
        ApiAiEdit.normalise 0 items = Ok mapped
        /\ ApiAiEdit.keep_with_text mapped = Ok kept
        /\ (kept = [] ->
            exists error,
              ApiAiEdit.recover raw
              = Ok {| ApiAiEdit.status := 200;
                      ApiAiEdit.payload := ApiAiEdit.ErrorMessage error |})
        /\ (kept <> [] ->
            ApiAiEdit.recover raw
            = Ok {| ApiAiEdit.status := 200;
                    ApiAiEdit.payload :=
                      ApiAiEdit.Result (ApiAiEdit.with_alternatives parsed kept) |}))
  /\ Supabase.recover (VStr wrapped_empty_example)
     = Supabase.jsonRes (Supabase.ErrorMessage (lit "empty_alternatives")) 200
  /\ (exists error,
         ApiAiEdit.recover (VStr wrapped_empty_example)
         = Ok {| ApiAiEdit.status := 200;
                 ApiAiEdit.payload := ApiAiEdit.ErrorMessage error |}).
Proof.
  intros Hg. split; [|split; [|split]].
  - intros Hp Hplain.
    destruct (supabase_normalise_plain items Hplain 0) as [mapped Hm].
    exists mapped. split; [assumption|].
    split; [now apply supabase_normalise_length in Hm|].
    rewrite (supabase_recover_array raw parsed items Hp Hg), Hm.
    split; intros H.
    + now rewrite H.
    + destruct (filter Supabase.has_text mapped); [congruence | reflexivity].
  - intros Hp Htrim.
    destruct (api_pipeline_total items Htrim 0) as (mapped & kept & Hm & Hk).
    exists mapped, kept. split; [assumption|]. split; [assumption|].
    rewrite (api_recover_array raw parsed items Hp Hg), Hm. cbn [bind].
    rewrite Hk. cbn [bind]. split; intros H.
    + rewrite H. eexists. reflexivity.
    + destruct kept; [congruence | reflexivity].
  - vm_compute. reflexivity.
  - eexists. vm_compute. reflexivity.
Qed.

(** C2 (amended).  In the Supabase handler, every raw text whose
    fence-stripped form lacks the opening or the closing brace yields the
    response [parse_failed] carrying the raw text unmodified.  In
    [src/api/edit.js] this holds when the closing brace is absent and the
    opening one present, and when the opening brace is absent and the
    fence-stripped text is not itself JSON (that handler then parses the
    whole text).  The refusal text yields [parse_failed] in both. *)
Theorem C2_missing_brace_is_parse_failure (raw : jsstring) (e : exn) :
  (~ In 123%N (Supabase.clean raw) \/ ~ In 125%N (Supabase.clean raw) ->
   Supabase.recover (VStr raw)
   = Supabase.jsonRes (Supabase.ParseFailed (VStr raw)) 200)
  /\ ((In 123%N (ApiEdit.clean raw) /\ ~ In 125%N (ApiEdit.clean raw))
      \/ (~ In 123%N (ApiEdit.clean raw)
          /\ JSON_parse (ApiEdit.clean raw) = Throw e) ->
      ApiEdit.recover (VStr raw)
      = Ok {| ApiEdit.status := 200;
              ApiEdit.payload := ApiEdit.ParseFailed (VStr raw) |})
  /\ Supabase.recover (VStr refusal_example)
     = Supabase.jsonRes (Supabase.ParseFailed (VStr refusal_example)) 200
  /\ ApiEdit.recover (VStr refusal_example)
     = Ok {| ApiEdit.status := 200;
             ApiEdit.payload := ApiEdit.ParseFailed (VStr refusal_example) |}.
Proof.
  split; [apply supabase_missing_brace|].
  split; [apply edit_missing_brace|].
  split; vm_compute; reflexivity.
Qed.


(** C4 (amended).  In normalisation every alternative whose label is
    absent or [null] receives the placeholder [Option N], with [N] its
    position, counted from one, in the parsed array, and every alternative
    with a present label that is a non-empty string keeps it verbatim, in
    both handlers.  The example with one missing label normalises to
    [Option 1] with [A] and [Custom] with [B]. *)
Theorem C4_placeholder_labels (items : list value) (n : nat) (alt : value) :
  nth_error items n = Some alt ->
  (forall mapped,
      Supabase.normalise 0 items = Ok mapped ->
      exists a,
        nth_error mapped n = Some a
        /\ (nullish (field alt (lit "label")) = true ->
            Supabase.label a = lit "Option " ++ decimal (n + 1))
        /\ (forall c s, field alt (lit "label") = VStr (c :: s) ->
                        Supabase.label a = c :: s))
  /\ (forall mapped,
         ApiAiEdit.normalise 0 items = Ok mapped ->
         exists a,
           nth_error mapped n = Some a
           /\ (nullish (field alt (lit "label")) = true ->
               ApiAiEdit.label a = VStr (lit "Option " ++ decimal (n + 1)))
           /\ (forall c s, field alt (lit "label") = VStr (c :: s) ->
                           ApiAiEdit.label a = VStr (c :: s)))
  /\ Supabase.recover (VStr labels_example)
     = Supabase.jsonRes
         (Supabase.Alternatives
            [ {| Supabase.label := lit "Option 1"; Supabase.text := lit "A" |};
              {| Supabase.label := lit "Custom"; Supabase.text := lit "B" |} ])
         200
  /\ ApiAiEdit.recover (VStr labels_example)
     = Ok {| ApiAiEdit.status := 200;
             ApiAiEdit.payload :=
               ApiAiEdit.Result
                 (VObj [ (lit "alternatives",
                          VArr [ VObj [ (lit "label", VStr (lit "Option 1"));
                                        (lit "text", VStr (lit "A")) ];
                                 VObj [ (lit "label", VStr (lit "Custom"));
                                        (lit "text", VStr (lit "B")) ] ]) ]) |}.
Proof.
  intros Hn. split; [|split; [|split; vm_compute; reflexivity]].
  - intros mapped Hm.
    destruct (supabase_normalise_nth items 0 mapped n alt Hm Hn) as (a & Ha & Hl & _).
    exists a. split; [assumption|]. cbn [Nat.add] in Hl. split.
    + intros Hnull. unfold coalesce in Hl. rewrite Hnull in Hl.
      cbn [ToString] in Hl. now injection Hl as <-.
    + intros c s Hs. rewrite Hs in Hl. cbn [coalesce nullish ToString] in Hl.
      now injection Hl as <-.
  - intros mapped Hm.
    destruct (api_normalise_nth items 0 mapped n alt Hm Hn) as (a & Ha & Hl & _).
    exists a. split; [assumption|]. cbn [Nat.add] in Hl. unfold or_else in Hl.
    split.
    + intros Hnull. destruct (field alt (lit "label")); try discriminate Hnull;
        exact Hl.
    + intros c s Hs. rewrite Hs in Hl. exact Hl.
Qed.

(** C5 (amended).  For every inbound request whose body has a missing or
    invalid action, an absent or (after trimming) empty selection, an action
    outside the registry, or the action [tone] without a tone value, both
    handlers answer without issuing a generation call.  When the method is
    [POST], the credential is configured and the body is not [null], the
    answer is a 400: in the Supabase handler if the selection is absent,
    [null] or primitive, in [src/api/ai-edit.js] if it is falsy or a
    string. *)
Theorem C5_rejected_before_generation (env : Env) (req : Request) (body : value) :
  json req = Ok body -> must_reject body = true ->
  (exists response, Supabase.handler env req = Done response)
  /\ (exists outcome, ApiAiEdit.handler env req = Done outcome)
  /\ (method req = lit "POST" -> configured_key env <> None ->
      nullish body = false ->
      (plain_field (field body (lit "selectedText")) = true ->
       exists response,
         Supabase.handler env req = Done response
         /\ Supabase.status response = 400%Z)
      /\ ((negb (ToBoolean (field body (lit "selectedText")))
           || is_string (field body (lit "selectedText")))%bool = true ->
          exists response,
            ApiAiEdit.handler env req = Done (Ok response)
            /\ ApiAiEdit.status response = 400%Z)).
Proof.
  intros Hj Hr. split; [|split].
  - unfold Supabase.handler. rewrite Hj.
    destruct (str_eqb (method req) (lit "OPTIONS")); [eauto|].
    destruct (negb _); [eauto|].
    destruct (configured_key env) as [apiKey|]; [|eauto].
    pose proof (fun call => supabase_prepare_rejects apiKey body call Hr) as Hno.
    destruct (Supabase.prepare apiKey body) as [[response|call]|err]; eauto.
    now contradiction (Hno call).
  - unfold ApiAiEdit.handler. rewrite Hj.
    destruct (negb _); [eauto|].
    destruct (configured_key env) as [apiKey|]; [|eauto].
    pose proof (fun call => api_prepare_rejects apiKey body call Hr) as Hno.
    destruct (ApiAiEdit.prepare apiKey body) as [[response|call]|err]; eauto.
    now contradiction (Hno call).
  - intros Hm Hk Hn. split; intros Hs.
    + unfold Supabase.handler. rewrite Hj, Hm.
      change (str_eqb (lit "POST") (lit "OPTIONS")) with false.
      change (negb (str_eqb (lit "POST") (lit "POST"))) with false. cbv iota.
      destruct (configured_key env) as [apiKey|]; [|congruence].
      destruct (supabase_prepare_400 apiKey body Hr Hn Hs) as (response & -> & H4).
      eauto.
    + unfold ApiAiEdit.handler. rewrite Hj, Hm.
      change (negb (str_eqb (lit "POST") (lit "POST"))) with false. cbv iota.
      destruct (configured_key env) as [apiKey|]; [|congruence].
      destruct (api_prepare_400 apiKey body Hr Hn Hs) as (response & -> & H4).
      eauto.
Qed.

(** C6.  The temperature of every creative action (tone, rewrite, example)
    is strictly above the temperature of every corrective action (shorter,
    clearer, fix, expand, bullets), in both [getTemperature]. *)
Theorem C6_creative_above_corrective (creative corrective : jsstring) :
  In creative [lit "tone"; lit "rewrite"; lit "example"] ->
  In corrective
     [lit "shorter"; lit "clearer"; lit "fix"; lit "expand"; lit "bullets"] ->
  PrimFloat.ltb (Supabase.getTemperature corrective)
                (Supabase.getTemperature creative) = true
  /\ PrimFloat.ltb (ApiAiEdit.getTemperature corrective)
                   (ApiAiEdit.getTemperature creative) = true.
Proof.
  intros Hc Hk. cbn [In] in Hc, Hk.
  repeat match goal with
         | H : _ \/ _ |- _ => destruct H as [H|H]
         | H : False |- _ => contradiction
         end; subst; split; vm_compute; reflexivity.
Qed.

(** C7 (amended).  Prompt compilation is total on validated requests whose
    fields have their documented types: such a request, sent with [POST]
    where the credential is configured, reaches the generation call, so
    that neither the system prompt nor the user message failed to build.
    Any action identifier that is neither a key of the registry nor the name
    of a member inherited from [Object.prototype] is compiled with the
    [rewrite] template instead of producing an error. *)
Theorem C7_compilation_total (env : Env) (req : Request) (body : value)
        (action : jsstring) (tone profile : value) (ctx : jsstring) :
  (method req = lit "POST" -> configured_key env <> None -> json req = Ok body ->
   must_reject body = false ->
   (typed_body body = true ->
    exists call, Supabase.handler env req = Generate call Supabase.answer)
   /\ (typed_api_body body = true ->
       exists call, ApiAiEdit.handler env req = Generate call ApiAiEdit.answer))
  /\ (inherited_name action = false ->
      (str_eqb action (lit "tone") && ToBoolean tone)%bool = false ->
      (assoc Supabase.ACTION_INSTRUCTIONS action = None ->
       Supabase.buildSystemPrompt action tone
       = Ok (Supabase.BASE_SYSTEM ++ txt "||"
             ++ txt "ACTION ~ Rewrite: improve flow and readability. Keep meaning identical.|"
             ++ Supabase.SCHEMA_3))
      /\ (assoc ApiAiEdit.ACTION_INSTRUCTIONS action = None ->
          ApiAiEdit.buildProfileContext profile = Ok ctx ->
          ApiAiEdit.buildSystemPrompt action tone profile
          = Ok (ApiAiEdit.BASE_SYSTEM ++ ctx ++ txt "||"
                ++ txt "ACTION ~ Rewrite: improve flow and readability. Keep meaning identical.|"
                ++ ApiAiEdit.SCHEMA_3))).
Proof.
  split.
  - intros Hm Hk Hj Hr. split; intros Ht.
    + unfold Supabase.handler. rewrite Hj, Hm.
      change (str_eqb (lit "POST") (lit "OPTIONS")) with false.
      change (negb (str_eqb (lit "POST") (lit "POST"))) with false. cbv iota.
      destruct (configured_key env) as [apiKey|]; [|congruence].
      destruct (supabase_prepare_total apiKey body Ht Hr) as [call ->]. eauto.
    + unfold ApiAiEdit.handler. rewrite Hj, Hm.
      change (negb (str_eqb (lit "POST") (lit "POST"))) with false. cbv iota.
      destruct (configured_key env) as [apiKey|]; [|congruence].
      destruct (api_prepare_total apiKey body Ht Hr) as [call ->]. eauto.
  - intros Hi Ht. split.
    + intros Ha. now apply supabase_fallback.
    + intros Ha Hc. now apply api_fallback.
Qed.

(** C9.  The [Option N] placeholder counts positions in the parsed array,
    before entries without text are dropped: the array of an entry with
    empty text followed by an entry with text [B] yields, in both handlers,
    the single alternative labelled [Option 2], and no [Option 1]. *)
Theorem C9_placeholder_gap :
  Supabase.recover (VStr gap_example)
  = Supabase.jsonRes
      (Supabase.Alternatives
         [ {| Supabase.label := lit "Option 2"; Supabase.text := lit "B" |} ])
      200
  /\ ApiAiEdit.recover (VStr gap_example)
     = Ok {| ApiAiEdit.status := 200;
             ApiAiEdit.payload :=
               ApiAiEdit.Result
                 (VObj [ (lit "alternatives",
                          VArr [ VObj [ (lit "label", VStr (lit "Option 2"));
                                        (lit "text", VStr (lit "B")) ] ]) ]) |}.
Proof. split; vm_compute; reflexivity. Qed.

(** C10 (amended).  If the [alternatives] array of the parsed value contains
    [null], normalisation throws while it reads the label of that entry, and
    none of the 200 outcomes is produced: the last-resort catch of the
    Supabase handler answers 500, and in [src/api/ai-edit.js] the exception
    leaves the handler.  So it is for the reply of the generator whose text
    is the example with a [null] entry.  An entry that is a number, a string
    or a boolean does not throw: its label and text read as [undefined], it
    gets the placeholder label and the empty text, which the filter drops. *)
Theorem C10_null_entry_throws (raw parsed : value) (items : list value) :
  In VNull items -> get parsed (lit "alternatives") = Ok (VArr items) ->
  (Supabase.parseAlternatives raw = Ok parsed ->
   Supabase.recover raw
   = {| Supabase.status := 500; Supabase.payload := Supabase.Unhandled TypeError |})
  /\ (ApiAiEdit.parseAlternatives raw = Ok parsed ->
      ApiAiEdit.recover raw = Throw TypeError)
  /\ Supabase.answer
       (HttpReply true 200
          (Ok (VObj [ (lit "content",
                       VArr [ VObj [ (lit "type", VStr (lit "text"));
                                     (lit "text", VStr null_entry_example) ] ]) ])))
     = {| Supabase.status := 500; Supabase.payload := Supabase.Unhandled TypeError |}
  /\ ApiAiEdit.answer
       (HttpReply true 200
          (Ok (VObj [ (lit "content",
                       VArr [ VObj [ (lit "type", VStr (lit "text"));
                                     (lit "text", VStr null_entry_example) ] ]) ])))
     = Throw TypeError
  /\ (forall i v,
         primitive_entry v = true ->
         Supabase.normalise i [v]
         = Ok [ {| Supabase.label := lit "Option " ++ decimal (i + 1);
                   Supabase.text := [] |} ]
         /\ Supabase.has_text
              {| Supabase.label := lit "Option " ++ decimal (i + 1);
                 Supabase.text := [] |} = false
         /\ ApiAiEdit.normalise i [v]
            = Ok [ {| ApiAiEdit.label := VStr (lit "Option " ++ decimal (i + 1));
                      ApiAiEdit.text := VStr [] |} ]
         /\ ApiAiEdit.keep_with_text
              [ {| ApiAiEdit.label := VStr (lit "Option " ++ decimal (i + 1));
                   ApiAiEdit.text := VStr [] |} ] = Ok []).
Proof.
  intros Hin Hg.
  split; [|split; [|split; [|split; [|]]]].
  - intros Hp. rewrite (supabase_recover_array raw parsed items Hp Hg).
    now rewrite (supabase_normalise_null items Hin 0).
  - intros Hp. rewrite (api_recover_array raw parsed items Hp Hg).
    now rewrite (api_normalise_null items Hin 0).
  - vm_compute. reflexivity.
  - vm_compute. reflexivity.
  - intros i v Hv. destruct v; try discriminate Hv; repeat split; reflexivity.
Qed.

End Claims.


(** ** Counterexamples and witnesses *)

(** C1 fails as stated.  The text with a [null] entry parses to a value whose
    [alternatives] is an array, and the Supabase handler answers 500, which
    is neither the empty result nor a success; and [src/api/ai-edit.js]
    reports the example of the claim as [bad_schema]. *)
Lemma C1_counterexample :
  Supabase.parseAlternatives (VStr null_entry_example) = Ok null_parsed
  /\ get null_parsed (lit "alternatives") = Ok (VArr [VNull])
  /\ Supabase.recover (host := sample_host) (VStr null_entry_example)
     = {| Supabase.status := 500; Supabase.payload := Supabase.Unhandled TypeError |}
  /\ ApiAiEdit.recover (host := sample_host) (VStr wrapped_empty_example)
     = Ok {| ApiAiEdit.status := 200;
             ApiAiEdit.payload := ApiAiEdit.ErrorMessage (lit "bad_schema") |}.
Proof. repeat split; vm_compute; reflexivity. Qed.

(** C1 at the array of an entry without text and an entry with text [B]. *)
Lemma C1_witness :
  get gap_parsed (lit "alternatives") = Ok (VArr gap_items)
  /\ Supabase.parseAlternatives (VStr gap_example) = Ok gap_parsed
  /\ forallb plain_entry gap_items = true
  /\ exists mapped,
      Supabase.normalise (host := sample_host) 0 gap_items = Ok mapped
      /\ length mapped = length gap_items
      /\ (filter Supabase.has_text mapped = [] ->
          Supabase.recover (host := sample_host) (VStr gap_example)
          = Supabase.jsonRes (Supabase.ErrorMessage (lit "empty_alternatives")) 200)
      /\ (filter Supabase.has_text mapped <> [] ->
          Supabase.recover (host := sample_host) (VStr gap_example)
          = Supabase.jsonRes
              (Supabase.Alternatives (filter Supabase.has_text mapped)) 200).
Proof.
  split; [reflexivity|]. split; [vm_compute; reflexivity|].
  split; [reflexivity|].
  apply (proj1 (@C1_normalisation_outcomes sample_host (VStr gap_example)
                  gap_parsed gap_items eq_refl)).
  - vm_compute; reflexivity.
  - reflexivity.
Defined.

(** C2 fails as stated in [src/api/edit.js]: the raw text of an empty array
    has no brace, parses, and is answered [bad_schema]. *)
Lemma C2_counterexample :
  ~ In 123%N (ApiEdit.clean (lit "[]"))
  /\ ApiEdit.recover (host := sample_host) (VStr (lit "[]"))
     = Ok {| ApiEdit.status := 200;
             ApiEdit.payload := ApiEdit.ErrorMessage (lit "bad_schema") |}.
Proof.
  split; [apply unit_absent_check; reflexivity | vm_compute; reflexivity].
Qed.

(** C2 at the refusal text, which has no brace and is not JSON. *)
Lemma C2_witness :
  ~ In 123%N (Supabase.clean refusal_example)
  /\ Supabase.recover (host := sample_host) (VStr refusal_example)
     = Supabase.jsonRes (Supabase.ParseFailed (VStr refusal_example)) 200
  /\ JSON_parse (ApiEdit.clean refusal_example) = Throw SyntaxError
  /\ ApiEdit.recover (host := sample_host) (VStr refusal_example)
     = Ok {| ApiEdit.status := 200;
             ApiEdit.payload := ApiEdit.ParseFailed (VStr refusal_example) |}.
Proof.
  assert (H : ~ In 123%N (Supabase.clean refusal_example))
    by (apply unit_absent_check; reflexivity).
  assert (H' : ~ In 123%N (ApiEdit.clean refusal_example))
    by (apply unit_absent_check; reflexivity).
  assert (J : JSON_parse (ApiEdit.clean refusal_example) = Throw SyntaxError)
    by (vm_compute; reflexivity).
  split; [exact H|]. split.
  - apply (proj1 (@C2_missing_brace_is_parse_failure sample_host
                    refusal_example SyntaxError)). now left.
  - split; [exact J|].
    apply (proj1 (proj2 (@C2_missing_brace_is_parse_failure sample_host
                           refusal_example SyntaxError))).
    right. now split.
Defined.



(** C4 fails as stated: a present label that is the empty string becomes
    [Option 1] in [src/api/ai-edit.js]; the Supabase handler keeps it. *)
Lemma C4_counterexample :
  ApiAiEdit.recover (host := sample_host) (VStr empty_label_example)
  = Ok {| ApiAiEdit.status := 200;
          ApiAiEdit.payload :=
            ApiAiEdit.Result
              (VObj [ (lit "alternatives",
                       VArr [ VObj [ (lit "label", VStr (lit "Option 1"));
                                     (lit "text", VStr (lit "A")) ] ]) ]) |}
  /\ Supabase.recover (host := sample_host) (VStr empty_label_example)
     = Supabase.jsonRes
         (Supabase.Alternatives
            [ {| Supabase.label := []; Supabase.text := lit "A" |} ])
         200.
Proof. split; vm_compute; reflexivity. Qed.

(** C4 at the second entry of the example, whose label is [Custom]. *)
Lemma C4_witness :
  nth_error labels_items 1 = Some (VObj [ (lit "label", VStr (lit "Custom"));
                                          (lit "text", VStr (lit "B")) ])
  /\ (forall mapped,
         Supabase.normalise (host := sample_host) 0 labels_items = Ok mapped ->
         exists a, nth_error mapped 1 = Some a /\ Supabase.label a = lit "Custom")
  /\ Supabase.normalise (host := sample_host) 0 labels_items
     = Ok [ {| Supabase.label := lit "Option 1"; Supabase.text := lit "A" |};
            {| Supabase.label := lit "Custom"; Supabase.text := lit "B" |} ].
Proof.
  split; [reflexivity|]. split; [|vm_compute; reflexivity].
  intros mapped Hm.
  destruct (proj1 (@C4_placeholder_labels sample_host labels_items 1 _ eq_refl)
              mapped Hm) as (a & Ha & _ & Hs).
  exists a. split; [assumption|]. now apply (Hs 67%N (lit "ustom")).
Defined.

(** C5 fails as stated.  Bodies that must be rejected are answered 500 when
    the credential is missing, 200 when the method is [OPTIONS], 500 when
    the body is [null] or the selection an object that does not convert to
    a string (Supabase), and with an uncaught [TypeError] when the selection
    is a number ([src/api/ai-edit.js]). *)
Lemma C5_counterexample :
  must_reject (host := sample_host) empty_body = true
  /\ Supabase.handler (host := sample_host) without_key (post (Ok empty_body))
     = Done (Supabase.jsonRes (Supabase.ErrorMessage (lit "API key not configured")) 500)
  /\ Supabase.handler (host := sample_host) with_key
       {| method := lit "OPTIONS"; json := Ok empty_body |}
     = Done {| Supabase.status := 200; Supabase.payload := Supabase.PlainOk |}
  /\ must_reject (host := sample_host) VNull = true
  /\ Supabase.handler (host := sample_host) with_key (post (Ok VNull))
     = Done {| Supabase.status := 500; Supabase.payload := Supabase.Unhandled TypeError |}
  /\ must_reject (host := sample_host) object_selection_body = true
  /\ Supabase.handler (host := sample_host) with_key (post (Ok object_selection_body))
     = Done {| Supabase.status := 500; Supabase.payload := Supabase.Unhandled TypeError |}
  /\ must_reject (host := sample_host) number_selection_body = true
  /\ ApiAiEdit.handler (host := sample_host) with_key (post (Ok number_selection_body))
     = Done (Throw TypeError).
Proof. repeat split; vm_compute; reflexivity. Qed.

(** C5 at the empty body, which has no action. *)
Lemma C5_witness :
  json (post (Ok empty_body)) = Ok empty_body
  /\ must_reject (host := sample_host) empty_body = true
  /\ (exists response,
         Supabase.handler (host := sample_host) with_key (post (Ok empty_body))
         = Done response
         /\ Supabase.status response = 400%Z)
  /\ (exists response,
         ApiAiEdit.handler (host := sample_host) with_key (post (Ok empty_body))
         = Done (Ok response)
         /\ ApiAiEdit.status response = 400%Z).
Proof.
  split; [reflexivity|]. split; [reflexivity|].
  assert (K : configured_key with_key <> None) by discriminate.
  destruct (proj2 (proj2 (@C5_rejected_before_generation sample_host with_key
                            (post (Ok empty_body)) empty_body eq_refl eq_refl))
              eq_refl K eq_refl) as [S A].
  split; [apply S | apply A]; reflexivity.
Defined.

(** C6 at [tone] against [fix]. *)
Lemma C6_witness :
  PrimFloat.ltb (Supabase.getTemperature (lit "fix"))
                (Supabase.getTemperature (lit "tone")) = true
  /\ PrimFloat.ltb (ApiAiEdit.getTemperature (lit "fix"))
                   (ApiAiEdit.getTemperature (lit "tone")) = true.
Proof.
  apply (C6_creative_above_corrective (lit "tone") (lit "fix")).
  - left. reflexivity.
  - right. right. left. reflexivity.
Defined.

(** C7 fails as stated.  [constructor] is no key of either registry, yet both
    system prompts embed the text of the inherited function, which does not
    begin like an instruction; and a body that passes validation with an
    object for its tone makes prompt building throw. *)
Lemma C7_counterexample :
  assoc Supabase.ACTION_INSTRUCTIONS (lit "constructor") = None
  /\ Supabase.buildSystemPrompt (host := sample_host) (lit "constructor") VNull
     = Ok (Supabase.BASE_SYSTEM ++ txt "||"
           ++ lit "function Object() { [native code] }")
  /\ assoc ApiAiEdit.ACTION_INSTRUCTIONS (lit "constructor") = None
  /\ ApiAiEdit.buildSystemPrompt (host := sample_host) (lit "constructor") VNull VNull
     = Ok (ApiAiEdit.BASE_SYSTEM ++ txt "||"
           ++ lit "function Object() { [native code] }")
  /\ starts_with (lit "ACTION") (lit "function Object() { [native code] }") = false
  /\ must_reject (host := sample_host) object_tone_body = false
  /\ Supabase.prepare (host := sample_host) (lit "sk-ant-test") object_tone_body
     = Throw TypeError
  /\ ApiAiEdit.prepare (host := sample_host) (lit "sk-ant-test") object_tone_body
     = Throw TypeError.
Proof. repeat split; vm_compute; reflexivity. Qed.

(** C7 at a request to fix a selection, and at the unknown action
    [summarise]. *)
Lemma C7_witness :
  must_reject (host := sample_host) fix_body = false
  /\ typed_body fix_body = true
  /\ typed_api_body fix_body = true
  /\ (exists call,
         Supabase.handler (host := sample_host) with_key (post (Ok fix_body))
         = Generate call (Supabase.answer (host := sample_host)))
  /\ (exists call,
         ApiAiEdit.handler (host := sample_host) with_key (post (Ok fix_body))
         = Generate call (ApiAiEdit.answer (host := sample_host)))
  /\ Supabase.buildSystemPrompt (host := sample_host) (lit "summarise") VNull
     = Ok (Supabase.BASE_SYSTEM ++ txt "||"
           ++ txt "ACTION ~ Rewrite: improve flow and readability. Keep meaning identical.|"
           ++ Supabase.SCHEMA_3).
Proof.
  split; [reflexivity|]. split; [reflexivity|]. split; [reflexivity|].
  assert (K : configured_key with_key <> None) by discriminate.
  pose proof (@C7_compilation_total sample_host with_key (post (Ok fix_body))
                fix_body (lit "summarise") VNull VNull []) as [T F].
  destruct (T eq_refl K eq_refl eq_refl) as [S A].
  split; [apply S; reflexivity|]. split; [apply A; reflexivity|].
  apply (proj1 (F eq_refl eq_refl)). reflexivity.
Defined.

(** C10 fails as stated: the entry 5 is not an object and nothing throws;
    the answers are the 200 reports of an empty result. *)
Lemma C10_counterexample :
  Supabase.recover (host := sample_host) (VStr number_entry_example)
  = Supabase.jsonRes (Supabase.ErrorMessage (lit "empty_alternatives")) 200
  /\ ApiAiEdit.recover (host := sample_host) (VStr number_entry_example)
     = Ok {| ApiAiEdit.status := 200;
             ApiAiEdit.payload := ApiAiEdit.ErrorMessage (lit "bad_schema") |}.
Proof. split; vm_compute; reflexivity. Qed.

(** C10 at the array whose only entry is [null]. *)
Lemma C10_witness :
  In VNull [VNull]
  /\ get null_parsed (lit "alternatives") = Ok (VArr [VNull])
  /\ Supabase.parseAlternatives (VStr null_entry_example) = Ok null_parsed
  /\ ApiAiEdit.parseAlternatives (host := sample_host) (VStr null_entry_example)
     = Ok null_parsed
  /\ Supabase.recover (host := sample_host) (VStr null_entry_example)
     = {| Supabase.status := 500; Supabase.payload := Supabase.Unhandled TypeError |}
  /\ ApiAiEdit.recover (host := sample_host) (VStr null_entry_example)
     = Throw TypeError.
Proof.
  assert (I : In VNull [VNull]) by (left; reflexivity).
  assert (P : Supabase.parseAlternatives (VStr null_entry_example) = Ok null_parsed)
    by (vm_compute; reflexivity).
  assert (Q : ApiAiEdit.parseAlternatives (host := sample_host)
                (VStr null_entry_example) = Ok null_parsed)
    by (vm_compute; reflexivity).
  destruct (@C10_null_entry_throws sample_host (VStr null_entry_example)
              null_parsed [VNull] I eq_refl) as (S & A & _).
  split; [exact I|]. split; [reflexivity|]. split; [exact P|]. split; [exact Q|].
  split; [exact (S P) | exact (A Q)].
Defined.

(* ====================================================================== *)
(** * Further facts about recovery, extraction and the handlers            *)
(* ====================================================================== *)

Module RecoveryFacts.
Import JS Edge Shapes JSFacts HandlerFacts.

Section WithHost.
Context {host : Host}.

Lemma has_text_trim (a : Supabase.Alternative) :
  Supabase.has_text a = true -> trim (Supabase.text a) <> [].
Proof.
  unfold Supabase.has_text. intros H E. rewrite E in H. discriminate.
Qed.

Lemma filter_empty_length {A : Type} (f : A -> bool) (xs : list A) :
  Nat.eqb (length (filter f xs)) 0 = false -> filter f xs <> [].
Proof. destruct (filter f xs); [discriminate | discriminate]. Qed.

(** What the response of the Supabase recovery is made of when it lists
    alternatives. *)
Lemma supabase_recover_alternatives (raw : value) (st : Z)
      (alts : list Supabase.Alternative) :
  Supabase.recover raw
  = {| Supabase.status := st; Supabase.payload := Supabase.Alternatives alts |} ->
  exists parsed items mapped,
    Supabase.parseAlternatives raw = Ok parsed
    /\ get parsed (lit "alternatives") = Ok (VArr items)
    /\ Supabase.normalise 0 items = Ok mapped
    /\ alts = filter Supabase.has_text mapped
    /\ alts <> [] /\ st = 200%Z.
Proof.
  unfold Supabase.recover.
  destruct (Supabase.parseAlternatives raw) as [parsed|e] eqn:Hp; [|discriminate].
  destruct (get parsed (lit "alternatives")) as [alts0|e] eqn:Hg; cbn [bind];
    [|discriminate].
  destruct (negb (ToBoolean alts0) || negb (is_array alts0))%bool eqn:G;
    [discriminate|].
  apply orb_false_iff in G as [_ G]. apply negb_false_iff in G.
  destruct alts0 as [| | | | |items|]; try discriminate G. cbn [Supabase.items_of].
  destruct (Supabase.normalise 0 items) as [mapped|e] eqn:Hm; cbn [bind];
    [|discriminate].
  destruct (Nat.eqb (length (filter Supabase.has_text mapped)) 0) eqn:L;
    [discriminate|].
  intros H. injection H as <- <-.
  exists parsed, items, mapped.
  split; [reflexivity|]. split; [assumption|]. split; [assumption|].
  split; [reflexivity|]. split; [now apply filter_empty_length | reflexivity].
Qed.

Lemma filter_length_le {A : Type} (f : A -> bool) (xs : list A) :
  (length (filter f xs) <= length xs)%nat.
Proof.
  induction xs as [|x xs IH]; cbn; [lia|]. destruct (f x); cbn; lia.
Qed.

(** The [filter] of [src/api/ai-edit.js] keeps the entries with text, when
    it does not throw. *)
Lemma keep_with_text_filter (mapped : list ApiAiEdit.Alternative) :
  forall kept, ApiAiEdit.keep_with_text mapped = Ok kept ->
               kept = filter api_has_text mapped.
Proof.
  induction mapped as [|a rest IH]; intros kept; cbn [ApiAiEdit.keep_with_text].
  - now intros [= <-].
  - cbn [filter]. unfold api_has_text at 1.
    destruct (ApiAiEdit.text a) eqn:T; cbn [call_trim bind]; try discriminate.
    destruct (ApiAiEdit.keep_with_text rest) as [others|]; cbn [bind];
      [|discriminate].
    intros [= <-]. rewrite (IH others eq_refl).
    now destruct (is_empty (trim s)).
Qed.

Lemma api_normalise_labels (items : list value) :
  forall i mapped, ApiAiEdit.normalise i items = Ok mapped ->
    Forall (fun a => ToBoolean (ApiAiEdit.label a) = true) mapped.
Proof.
  induction items as [|x rest IH]; intros i mapped; cbn [ApiAiEdit.normalise].
  - intros [= <-]. constructor.
  - destruct (get x (lit "label")) as [l|]; cbn [bind]; [|discriminate].
    destruct (get x (lit "text")) as [t|]; cbn [bind]; [|discriminate].
    destruct (ApiAiEdit.normalise (S i) rest) as [others|] eqn:E; cbn [bind];
      [|discriminate].
    intros [= <-]. constructor; [|now apply (IH (S i))].
    cbn [ApiAiEdit.label]. unfold or_else.
    destruct (ToBoolean l) eqn:B; [assumption|]. reflexivity.
Qed.

Lemma own_prop_set_prop (props : list (jsstring * value)) (k : jsstring) (v : value) :
  own_prop (set_prop props k v) k = Some v.
Proof.
  induction props as [|[k' v'] rest IH]; cbn [set_prop own_prop].
  - now rewrite str_eqb_refl.
  - destruct (str_eqb k' k) eqn:E; cbn [own_prop]; now rewrite E.
Qed.

Lemma own_prop_set_prop_other (props : list (jsstring * value)) (k0 k : jsstring)
      (v : value) :
  k <> k0 -> own_prop (set_prop props k0 v) k = own_prop props k.
Proof.
  intros Hk. induction props as [|[k' v'] rest IH]; cbn [set_prop own_prop].
  - destruct (str_eqb k0 k) eqn:E; [|reflexivity].
    apply str_eqb_eq in E. congruence.
  - destruct (str_eqb k' k0) eqn:E0; cbn [own_prop].
    + apply str_eqb_eq in E0. subst k'.
      destruct (str_eqb k0 k) eqn:E; [|reflexivity].
      apply str_eqb_eq in E. congruence.
    + destruct (str_eqb k' k); [reflexivity | exact IH].
Qed.

(** A parse accepted by [src/api/ai-edit.js] has an array of alternatives. *)
Lemma api_parse_schema (raw parsed : value) :
  ApiAiEdit.parseAlternatives raw = Ok parsed ->
  exists items, get parsed (lit "alternatives") = Ok (VArr items).
Proof.
  unfold ApiAiEdit.parseAlternatives. destruct raw as [| | | |r| |]; try discriminate.
  destruct (_ || _)%bool; [discriminate|].
  destruct (JSON_parse _) as [p|]; cbn [bind]; [|discriminate].
  destruct (get p (lit "alternatives")) as [alts|] eqn:G; cbn [bind]; [|discriminate].
  destruct (negb (ToBoolean alts) || negb (is_array alts))%bool eqn:C; [discriminate|].
  intros [= <-]. apply orb_false_iff in C as [_ C]. apply negb_false_iff in C.
  destruct alts; try discriminate C. eauto.
Qed.

(** The parse of [src/api/ai-edit.js] is the parse of [index.ts] followed
    by the schema check. *)
Lemma api_parse_of_supabase (raw parsed : value) :
  Supabase.parseAlternatives raw = Ok parsed ->
  ApiAiEdit.parseAlternatives raw
  = (alts <- get parsed (lit "alternatives") ;;
     if (negb (ToBoolean alts) || negb (is_array alts))%bool
     then Throw (Error (lit "Missing alternatives array"))
     else Ok parsed).
Proof.
  unfold Supabase.parseAlternatives, ApiAiEdit.parseAlternatives.
  destruct raw as [| | | |r| |]; try discriminate.
  unfold Supabase.clean, ApiAiEdit.clean.
  destruct (_ || _)%bool; [discriminate|]. intros ->. reflexivity.
Qed.

(** What the response of [src/api/ai-edit.js] is made of. *)
Lemma api_recover_cases (raw : value) (response : ApiAiEdit.Response) :
  ApiAiEdit.recover raw = Ok response ->
  (response = {| ApiAiEdit.status := 200; ApiAiEdit.payload := ApiAiEdit.ParseFailed raw |}
   /\ exists e, ApiAiEdit.parseAlternatives raw = Throw e)
  \/ exists parsed items mapped,
       ApiAiEdit.parseAlternatives raw = Ok parsed
       /\ get parsed (lit "alternatives") = Ok (VArr items)
       /\ ApiAiEdit.normalise 0 items = Ok mapped
       /\ ApiAiEdit.keep_with_text mapped = Ok (filter api_has_text mapped)
       /\ response
          = if Nat.eqb (length (filter api_has_text mapped)) 0
            then {| ApiAiEdit.status := 200;
                    ApiAiEdit.payload := ApiAiEdit.ErrorMessage (lit "bad_schema") |}
            else {| ApiAiEdit.status := 200;
                    ApiAiEdit.payload :=
                      ApiAiEdit.Result
                        (ApiAiEdit.with_alternatives parsed
                           (filter api_has_text mapped)) |}.
Proof.
  destruct (ApiAiEdit.parseAlternatives raw) as [parsed|e] eqn:Hp.
  - destruct (api_parse_schema raw parsed Hp) as [items Hg].
    rewrite (api_recover_array raw parsed items Hp Hg).
    destruct (ApiAiEdit.normalise 0 items) as [mapped|] eqn:Hm; cbn [bind];
      [|discriminate].
    destruct (ApiAiEdit.keep_with_text mapped) as [kept|] eqn:Hk; cbn [bind];
      [|discriminate].
    pose proof (keep_with_text_filter mapped kept Hk) as ->.
    intros H. right. exists parsed, items, mapped.
    repeat (split; [first [reflexivity | assumption]|]).
    destruct (Nat.eqb _ 0); now injection H as <-.
  - unfold ApiAiEdit.recover. rewrite Hp. intros [= <-]. left. eauto.
Qed.

(** *** Parsing from the first brace gives an object *)

Lemma parse_members_object (fuel : nat) :
  forall acc s v r, parse_members fuel acc s = Parsed v r -> is_object v = true.
Proof.
  induction fuel as [|f IH]; intros acc s v r; [discriminate|].
  cbn [parse_members].
  destruct (skip_ws s) as [|q r0]; [discriminate|].
  destruct (N.eqb q 34); [|discriminate].
  destruct (parse_string_body [] r0) as [[k r1]|]; [|discriminate].
  destruct (skip_ws r1) as [|c1 r2]; [discriminate|].
  destruct (N.eqb c1 58); [|discriminate].
  destruct (parse_value f r2) as [v0 r3| |]; try discriminate.
  destruct (skip_ws r3) as [|c3 r4]; [discriminate|].
  destruct (N.eqb c3 44); [apply IH|].
  destruct (N.eqb c3 125); [|discriminate].
  now intros [= <- _].
Qed.

Lemma parse_brace_object (text : jsstring) (v : value) :
  JSON_parse (123%N :: text) = Ok v -> is_object v = true.
Proof.
  unfold JSON_parse. generalize (parse_fuel (123%N :: text)). intros [|f];
    [discriminate|].
  cbn [parse_value skip_ws is_json_space N.eqb Pos.eqb orb].
  destruct (skip_ws text) as [|c2 r2].
  - discriminate.
  - destruct (N.eqb c2 125).
    + destruct (skip_ws r2); [|discriminate]. now intros [= <-].
    + destruct (parse_members f [] (c2 :: r2)) as [v0 r| |] eqn:E; try discriminate.
      destruct (skip_ws r); [|discriminate]. intros [= <-].
      now apply parse_members_object in E.
Qed.

(** The text handed to [JSON.parse] begins at the first opening brace. *)
Lemma find_sub_head (c : code_unit) (s : jsstring) (i : nat) :
  find_sub [c] s = Some i -> exists t, skipn i s = c :: t.
Proof.
  revert i. induction s as [|x s IH]; intros i; cbn [find_sub starts_with].
  - discriminate.
  - rewrite andb_true_r. destruct (unit_eqb c x) eqn:E.
    + intros [= <-]. apply unit_eqb_eq in E. subst. cbn. eauto.
    + destruct (find_sub [c] s) as [j|]; cbn [option_map]; [|discriminate].
      intros [= <-]. cbn [skipn]. now apply IH.
Qed.

Lemma slice_from_index (s : jsstring) (c : code_unit) (to : Z) :
  (0 <= indexOf s [c])%Z ->
  slice s (indexOf s [c]) to = []
  \/ exists t, slice s (indexOf s [c]) to = c :: t.
Proof.
  unfold indexOf. destruct (find_sub [c] s) as [i|] eqn:F; [|lia]. intros _.
  destruct (find_sub_head c s i F) as [t Ht].
  unfold slice.
  assert (Hi : (i < length s)%nat).
  { destruct (Nat.lt_ge_cases i (length s)) as [L|L]; [assumption|].
    rewrite skipn_all2 in Ht by assumption. discriminate. }
  assert (Ha : clamp_pos (Z.of_nat (length s)) (Z.of_nat i) = Z.of_nat i).
  { unfold clamp_pos. destruct (Z.of_nat i <? 0)%Z eqn:N0; [apply Z.ltb_lt in N0; lia|].
    lia. }
  rewrite Ha, Nat2Z.id, Ht.
  destruct (Z.to_nat _); cbn [firstn]; eauto.
Qed.

Lemma supabase_parse_object (raw parsed : value) :
  Supabase.parseAlternatives raw = Ok parsed -> is_object parsed = true.
Proof.
  unfold Supabase.parseAlternatives. destruct raw as [| | | |r| |]; try discriminate.
  destruct (_ || _)%bool eqn:C; [discriminate|].
  apply orb_false_iff in C as [C _]. apply Z.ltb_ge in C.
  change (lit "{") with [123%N] in *.
  destruct (slice_from_index (Supabase.clean r) 123 (lastIndexOf (Supabase.clean r) (lit "}") + 1) C)
    as [->|[t ->]].
  - discriminate.
  - apply parse_brace_object.
Qed.

Lemma keep_with_text_throws (mapped : list ApiAiEdit.Alternative) (e : exn) :
  ApiAiEdit.keep_with_text mapped = Throw e -> e = TypeError.
Proof.
  induction mapped as [|a rest IH]; cbn [ApiAiEdit.keep_with_text]; [discriminate|].
  destruct (ApiAiEdit.text a); cbn [call_trim bind];
    try (now intros [= <-]).
  destruct (ApiAiEdit.keep_with_text rest); cbn [bind]; [discriminate|].
  intros [= <-]. now apply IH.
Qed.

Lemma call_trim_throws (v : value) (e : exn) :
  call_trim v = Throw e -> e = TypeError.
Proof. destruct v; cbn [call_trim]; try discriminate; now intros [= <-]. Qed.

(** An entry whose text is truthy and no string stops the [filter]. *)
Lemma api_untrimmable_throws (items : list value) :
  forallb trimmable_entry items = false ->
  forall i mapped,
    ApiAiEdit.normalise i items = Ok mapped ->
    ApiAiEdit.keep_with_text mapped = Throw TypeError.
Proof.
  induction items as [|x rest IH]; intros Hf i mapped; [discriminate Hf|].
  cbn [ApiAiEdit.normalise].
  destruct (get x (lit "label")) as [l|] eqn:E1; cbn [bind]; [|discriminate].
  destruct (get x (lit "text")) as [t|] eqn:E3; cbn [bind]; [|discriminate].
  destruct (ApiAiEdit.normalise (S i) rest) as [others|] eqn:E5; cbn [bind];
    [|discriminate].
  intros [= <-]. cbn [ApiAiEdit.keep_with_text ApiAiEdit.text].
  cbn [forallb] in Hf. destruct (trimmable_entry x) eqn:T.
  - cbn [andb] in Hf. rewrite (IH Hf (S i) others E5).
    destruct (call_trim (or_else t (VStr []))) eqn:C; cbn [bind]; [reflexivity|].
    f_equal. now apply call_trim_throws in C.
  - unfold trimmable_entry, field in T. rewrite E3 in T.
    assert (Hn : nullish x = false) by (destruct x; try reflexivity; discriminate E1).
    rewrite Hn in T. cbn [negb andb] in T. apply orb_false_iff in T as [T1 T2].
    apply negb_false_iff in T1. unfold or_else. rewrite T1.
    destruct t; try discriminate T2; reflexivity.
Qed.

Lemma edit_parse_object (r : jsstring) (parsed : value) :
  ApiEdit.parse (VStr r) = Ok parsed -> In 123%N (ApiEdit.clean r) ->
  is_object parsed = true.
Proof.
  unfold ApiEdit.parse. intros H Hin.
  assert (C : (0 <= indexOf (ApiEdit.clean r) (lit "{"))%Z).
  { destruct (Z.lt_ge_cases (indexOf (ApiEdit.clean r) (lit "{")) 0) as [L|L];
      [|assumption]. apply (indexOf_unit_neg 123) in L. contradiction. }
  pose proof C as C'. apply Z.leb_le in C'. rewrite C' in H.
  change (lit "{") with [123%N] in *.
  destruct (slice_from_index (ApiEdit.clean r) 123
              (lastIndexOf (ApiEdit.clean r) (lit "}") + 1) C) as [E|[t E]];
    rewrite E in H.
  - discriminate.
  - now apply parse_brace_object in H.
Qed.

End WithHost.
End RecoveryFacts.

Module ExtractionFacts.
Import JS Edge Shapes JSFacts HandlerFacts RecoveryFacts.

Lemma trim_start_app_solid (a b : jsstring) (c : code_unit) :
  is_trim_space c = false -> trim_start (a ++ c :: b) = trim_start a ++ c :: b.
Proof.
  intros Hc. induction a as [|x a IH]; cbn [app trim_start].
  - now rewrite Hc.
  - destruct (is_trim_space x); [exact IH | reflexivity].
Qed.

Lemma trim_end_app_solid (a b : jsstring) (c : code_unit) :
  is_trim_space c = false -> trim_end (a ++ c :: b) = a ++ c :: trim_end b.
Proof.
  intros Hc. unfold trim_end.
  rewrite rev_app_distr. cbn [rev]. rewrite <- app_assoc. cbn [app].
  rewrite trim_start_app_solid by assumption.
  rewrite rev_app_distr. cbn [rev]. rewrite rev_involutive, <- app_assoc.
  reflexivity.
Qed.

Lemma trim_end_In (c : code_unit) (s : jsstring) : In c (trim_end s) -> In c s.
Proof.
  unfold trim_end. intros H. apply in_rev in H.
  assert (K : forall t, In c (trim_start t) -> In c t).
  { induction t as [|x t IH]; cbn [trim_start]; [tauto|].
    destruct (is_trim_space x); [intros; right; auto | tauto]. }
  apply K in H. now apply in_rev in H.
Qed.

Lemma trim_start_In (c : code_unit) (s : jsstring) : In c (trim_start s) -> In c s.
Proof.
  induction s as [|x t IH]; cbn [trim_start]; [tauto|].
  destruct (is_trim_space x); [intros; right; auto | tauto].
Qed.

(** Trimming a text that holds a braced part reaches neither brace. *)
Lemma trim_braced (pre mid post : jsstring) :
  trim (pre ++ 123%N :: mid ++ 125%N :: post)
  = trim_start pre ++ 123%N :: mid ++ 125%N :: trim_end post.
Proof.
  unfold trim. rewrite trim_start_app_solid by reflexivity.
  change (trim_start pre ++ 123%N :: mid ++ 125%N :: post)
    with (trim_start pre ++ (123%N :: mid) ++ 125%N :: post).
  rewrite app_assoc, trim_end_app_solid by reflexivity.
  now rewrite <- app_assoc.
Qed.

Lemma find_sub_after (c : code_unit) (a b : jsstring) :
  ~ In c a -> find_sub [c] (a ++ c :: b) = Some (length a).
Proof.
  induction a as [|x a IH]; intros Ha; cbn [app find_sub starts_with length].
  - unfold unit_eqb. now rewrite N.eqb_refl.
  - rewrite andb_true_r. destruct (unit_eqb c x) eqn:E.
    + apply unit_eqb_eq in E. subst. exfalso. apply Ha. now left.
    + rewrite IH; [reflexivity|]. intros H. apply Ha. now right.
Qed.

Lemma find_last_before (c : code_unit) (a b : jsstring) :
  ~ In c b -> find_last [c] (a ++ c :: b) = Some (length a).
Proof.
  intros Hb. induction a as [|x a IH]; cbn [app find_last length].
  - apply find_last_unit_none in Hb. rewrite Hb. cbn [starts_with].
    unfold unit_eqb. now rewrite N.eqb_refl.
  - now rewrite IH.
Qed.

Lemma slice_middle (a m b : jsstring) :
  slice (a ++ m ++ b) (Z.of_nat (length a)) (Z.of_nat (length a + length m)) = m.
Proof.
  unfold slice, clamp_pos. rewrite !length_app.
  destruct (Z.of_nat (length a) <? 0)%Z eqn:E1; [apply Z.ltb_lt in E1; lia|].
  destruct (Z.of_nat (length a + length m) <? 0)%Z eqn:E2; [apply Z.ltb_lt in E2; lia|].
  rewrite !Z.min_l by lia.
  replace (Z.to_nat (Z.of_nat (length a + length m) - Z.of_nat (length a)))
    with (length m) by lia.
  rewrite Nat2Z.id, skipn_app_exact. apply firstn_app_exact.
Qed.

(** From the first opening brace to the last closing brace of the trimmed
    text: the braced part, when no brace of either kind stands outside it on
    its own side. *)
Lemma extract_braced (pre mid post : jsstring) :
  ~ In 123%N pre -> ~ In 125%N post ->
  let s := trim (pre ++ 123%N :: mid ++ 125%N :: post) in
  (0 <= indexOf s [123%N])%Z /\ (0 <= lastIndexOf s [125%N])%Z
  /\ slice s (indexOf s [123%N]) (lastIndexOf s [125%N] + 1) = 123%N :: mid ++ [125%N].
Proof.
  intros Hpre Hpost s. subst s. rewrite trim_braced.
  assert (H1 : ~ In 123%N (trim_start pre)) by (intros H; now apply trim_start_In in H).
  assert (H2 : ~ In 125%N (trim_end post)) by (intros H; now apply trim_end_In in H).
  unfold indexOf, lastIndexOf. rewrite find_sub_after by assumption.
  change (trim_start pre ++ 123%N :: mid ++ 125%N :: trim_end post)
    with (trim_start pre ++ (123%N :: mid) ++ 125%N :: trim_end post).
  rewrite app_assoc, find_last_before by assumption.
  split; [lia|]. split; [lia|].
  rewrite <- app_assoc.
  replace (trim_start pre ++ (123%N :: mid) ++ 125%N :: trim_end post)
    with (trim_start pre ++ (123%N :: mid ++ [125%N]) ++ trim_end post)
    by (cbn [app]; now rewrite <- app_assoc).
  replace (Z.of_nat (length (trim_start pre ++ 123%N :: mid)) + 1)%Z
    with (Z.of_nat (length (trim_start pre) + length (123%N :: mid ++ [125%N]))).
  - apply slice_middle.
  - rewrite !length_app. cbn [length]. rewrite length_app. cbn [length]. lia.
Qed.

Lemma either_led : tick_led (match_either (match_fenced fence_json) (match_fenced fence)).
Proof.
  intros c t H. unfold match_either.
  now rewrite match_fenced_json_led, match_fenced_fence_led.
Qed.

Lemma strip_plain (raw : jsstring) : no_tick raw -> strip_fences raw = trim raw.
Proof.
  intros H. unfold strip_fences.
  rewrite (replace_all_id (match_fenced fence_json)) by (auto using match_fenced_json_led).
  now rewrite replace_all_id by (auto using match_fenced_fence_led).
Qed.

Lemma edit_clean_plain (raw : jsstring) : no_tick raw -> ApiEdit.clean raw = trim raw.
Proof.
  intros H. unfold ApiEdit.clean. now rewrite replace_all_id by (auto using either_led).
Qed.

(** One fenced region under the single pattern of [src/api/edit.js]. *)
Lemma either_region (open : jsstring) (f : jsstring -> jsstring)
      (pre body post : jsstring) :
  open <> [] -> no_tick pre -> no_tick body -> no_tick post ->
  match_either (match_fenced fence_json) (match_fenced fence)
    (open ++ body ++ fence ++ post)
  = Some (length (open ++ body ++ fence)) ->
  replace_all (match_either (match_fenced fence_json) (match_fenced fence)) f 0
    (pre ++ open ++ body ++ fence ++ post)
  = pre ++ f (open ++ body ++ fence) ++ post.
Proof.
  intros Hopen Hpre Hbody Hpost Hhit.
  rewrite replace_all_pass by (auto using either_led). f_equal.
  replace (open ++ body ++ fence ++ post) with ((open ++ body ++ fence) ++ post)
    by (now rewrite <- !app_assoc).
  rewrite replace_all_hit.
  - now rewrite replace_all_id by (auto using either_led).
  - destruct open; [congruence | discriminate].
  - rewrite <- !app_assoc. exact Hhit.
Qed.

Lemma edit_clean_tagged (pre body post : jsstring) :
  no_tick pre -> no_tick body -> no_tick post ->
  ApiEdit.clean (pre ++ fence_json ++ body ++ fence ++ post)
  = trim (pre ++ trim body ++ post).
Proof.
  intros Hpre Hb Hpost. unfold ApiEdit.clean. f_equal.
  rewrite (either_region fence_json); try assumption; try discriminate.
  - now rewrite erase_tagged.
  - unfold match_either. now rewrite match_fenced_hit.
Qed.

Lemma erase_both_untagged (body : jsstring) :
  no_tick body -> starts_with (lit "json") body = false ->
  replace_all (match_literals [fence_json; fence]) erase 0 (fence ++ body ++ fence)
  = body.
Proof.
  intros Hb Hj.
  assert (E : match_literals [fence_json; fence] (fence ++ body ++ fence)
              = Some (length fence)).
  { cbn [match_literals].
    replace (starts_with fence_json (fence ++ body ++ fence)) with false.
    - now rewrite starts_with_app.
    - symmetry. change fence_json with ([96%N; 96%N; 96%N] ++ lit "json").
      change fence with [96%N; 96%N; 96%N]. cbn [app starts_with].
      unfold unit_eqb at 1 2 3. rewrite N.eqb_refl. cbn [andb].
      now apply starts_with_json_app. }
  rewrite replace_all_hit; [| discriminate | exact E].
  cbn [erase app].
  rewrite replace_all_pass by (auto using literals_led_both).
  rewrite <- (app_nil_r body) at 2. f_equal.
Qed.

Lemma edit_clean_untagged (pre body post : jsstring) :
  no_tick pre -> no_tick body -> no_tick post ->
  starts_with (lit "json") body = false ->
  ApiEdit.clean (pre ++ fence ++ body ++ fence ++ post)
  = trim (pre ++ trim body ++ post).
Proof.
  intros Hpre Hb Hpost Hj. unfold ApiEdit.clean. f_equal.
  rewrite (either_region fence); try assumption; try discriminate.
  - now rewrite erase_both_untagged.
  - unfold match_either.
    replace (match_fenced fence_json (fence ++ body ++ fence ++ post)) with (@None nat).
    + now rewrite match_fenced_hit.
    + symmetry. apply starts_json_false_none.
      change fence_json with ([96%N; 96%N; 96%N] ++ lit "json").
      change fence with [96%N; 96%N; 96%N]. cbn [app starts_with].
      unfold unit_eqb at 1 2 3. rewrite N.eqb_refl. cbn [andb].
      now apply starts_with_json_app.
Qed.

End ExtractionFacts.

Module EditFacts.
Import JS Edge Shapes JSFacts HandlerFacts RecoveryFacts ExtractionFacts.

Lemma assoc_In (table : list (jsstring * jsstring)) (k v : jsstring) :
  assoc table k = Some v -> In (k, v) table.
Proof.
  induction table as [|[k' v'] rest IH]; cbn [assoc]; [discriminate|].
  destruct (str_eqb k' k) eqn:E.
  - intros [= <-]. apply str_eqb_eq in E. subst. now left.
  - intros H. right. now apply IH.
Qed.

Lemma system_prompts_nonempty (k p : jsstring) :
  assoc ApiEdit.SYSTEM_PROMPTS k = Some p -> is_empty p = false.
Proof.
  intros H. apply assoc_In in H.
  assert (F : forallb (fun kv => negb (is_empty (snd kv))) ApiEdit.SYSTEM_PROMPTS = true)
    by (vm_compute; reflexivity).
  rewrite forallb_forall in F. specialize (F _ H). cbn [snd] in F.
  now apply negb_true_iff in F.
Qed.

(** No inherited name is a key of a registry. *)
Lemma inherited_not_own (a name : jsstring) :
  assoc object_prototype_functions a = Some name ->
  assoc ApiEdit.SYSTEM_PROMPTS a = None
  /\ Supabase.includes Supabase.validActions a = false
  /\ ApiAiEdit.includes ApiAiEdit.validActions a = false
  /\ a <> lit "tone".
Proof.
  intros H. apply assoc_In in H. cbn [object_prototype_functions In] in H.
  repeat match goal with
         | H : _ \/ _ |- _ => destruct H as [H|H]
         | H : False |- _ => contradiction
         | H : (_, _) = (_, _) |- _ => injection H as <- <-
         end; (split; [vm_compute; reflexivity|]);
    (split; [vm_compute; reflexivity|]);
    (split; [vm_compute; reflexivity|]); discriminate.
Qed.

Section WithHost.
Context {host : Host}.

(** What [prepare] computes once the body is known not to be [null]. *)
Lemma edit_prepare_fields (apiKey : jsstring) (body : value) :
  nullish body = false ->
  ApiEdit.prepare apiKey (Ok body)
  = (blank <- ApiEdit.missing (field body (lit "action")) (field body (lit "text")) ;;
     if (blank : bool) then
       Ok (inl (ApiEdit.Plain 400 (lit "Missing action or text")))
     else
       systemPrompt <- ApiEdit.choose (field body (lit "action"))
                         (field body (lit "tone")) ;;
       if negb (member_truthy systemPrompt) then
         Ok (inl (ApiEdit.Plain 400 (lit "Unknown action")))
       else
         trimmed <- call_trim (field body (lit "text")) ;;
         Ok (inr {| ApiEdit.api_key := apiKey;
                    ApiEdit.model := lit "claude-haiku-4-5-20251001";
                    ApiEdit.max_tokens := 1200;
                    ApiEdit.temperature := 0.2%float;
                    ApiEdit.system := systemPrompt;
                    ApiEdit.user_content := txt "Text to edit:|" ++ trimmed |})).
Proof.
  intros Hn. unfold ApiEdit.prepare. cbn [bind].
  rewrite !(get_field body) by assumption. reflexivity.
Qed.

Lemma edit_prepare_null (apiKey : jsstring) (body : result value) :
  match body with Ok b => nullish b = true | Throw _ => True end ->
  ApiEdit.prepare apiKey body = Ok (inl (ApiEdit.Plain 400 (lit "Invalid JSON"))).
Proof.
  destruct body as [b|e]; [|reflexivity].
  destruct b; try discriminate; reflexivity.
Qed.

Lemma edit_missing_fields (body : value) :
  edit_fields_missing body = true ->
  ApiEdit.missing (field body (lit "action")) (field body (lit "text")) = Ok true.
Proof.
  unfold edit_fields_missing, ApiEdit.missing. intros H.
  destruct (ToBoolean (field body (lit "action"))); [|reflexivity].
  destruct (ToBoolean (field body (lit "text"))) eqn:T; [|reflexivity].
  cbn [negb orb] in H.
  destruct (field body (lit "text")); try discriminate H.
  cbn [call_trim bind]. now rewrite H.
Qed.

Lemma edit_missing_text (action : value) (s : jsstring) :
  ToBoolean action = true -> is_empty (trim s) = false ->
  ApiEdit.missing action (VStr s) = Ok false.
Proof.
  intros Ha Hs. unfold ApiEdit.missing. rewrite Ha. cbn [negb].
  assert (T : ToBoolean (VStr s) = true).
  { destruct s; [discriminate Hs | reflexivity]. }
  rewrite T. cbn [negb call_trim bind]. now rewrite Hs.
Qed.

Lemma is_tone_key (action : value) :
  ApiEdit.is_tone action = true -> action = VStr (lit "tone").
Proof.
  destruct action; try discriminate. cbn [ApiEdit.is_tone]. intros H.
  apply str_eqb_eq in H. now subst.
Qed.

Lemma choose_registry (action tone : value) (k p : jsstring) :
  ToString action = Ok k -> assoc ApiEdit.SYSTEM_PROMPTS k = Some p ->
  ApiEdit.choose action tone = Ok (Own p).
Proof.
  intros Hk Hp. unfold ApiEdit.choose.
  destruct (ApiEdit.is_tone action) eqn:T.
  - apply is_tone_key in T. subst. cbn in Hk. injection Hk as <-.
    vm_compute in Hp. discriminate.
  - cbn [andb]. rewrite Hk. cbn [bind]. unfold lookup. now rewrite Hp.
Qed.

Lemma choose_inherited (a name : jsstring) (tone : value) :
  assoc object_prototype_functions a = Some name ->
  ApiEdit.choose (VStr a) tone = Ok (Builtin name).
Proof.
  intros H. destruct (inherited_not_own a name H) as (N & _ & _ & T).
  unfold ApiEdit.choose. cbn [ApiEdit.is_tone].
  destruct (str_eqb a (lit "tone")) eqn:E; [apply str_eqb_eq in E; contradiction|].
  cbn [andb ToString bind]. unfold lookup. now rewrite N, H.
Qed.

Lemma choose_unknown (a : jsstring) (tone : value) :
  assoc ApiEdit.SYSTEM_PROMPTS a = None -> inherited_name a = false ->
  (str_eqb a (lit "tone") && ToBoolean tone)%bool = false ->
  ApiEdit.choose (VStr a) tone = Ok Absent.
Proof.
  intros Ha Hi Ht. unfold ApiEdit.choose. cbn [ApiEdit.is_tone]. rewrite Ht.
  cbn [ToString bind]. unfold lookup. rewrite Ha.
  unfold inherited_name in Hi.
  destruct (assoc object_prototype_functions a); [discriminate|].
  now rewrite Hi.
Qed.

(** A call that [prepare] issues, read backwards. *)
Lemma edit_prepare_call (apiKey : jsstring) (body : result value) (call : ApiEdit.Call) :
  ApiEdit.prepare apiKey body = Ok (inr call) ->
  exists b s,
    body = Ok b /\ nullish b = false
    /\ field b (lit "text") = VStr s /\ is_empty (trim s) = false
    /\ ToBoolean (field b (lit "action")) = true
    /\ ApiEdit.choose (field b (lit "action")) (field b (lit "tone"))
       = Ok (ApiEdit.system call)
    /\ member_truthy (ApiEdit.system call) = true
    /\ call = {| ApiEdit.api_key := apiKey;
                 ApiEdit.model := lit "claude-haiku-4-5-20251001";
                 ApiEdit.max_tokens := 1200;
                 ApiEdit.temperature := 0.2%float;
                 ApiEdit.system := ApiEdit.system call;
                 ApiEdit.user_content := txt "Text to edit:|" ++ trim s |}.
Proof.
  intros H. destruct body as [b|e]; [|discriminate H].
  destruct (nullish b) eqn:Hn.
  { rewrite edit_prepare_null in H by exact Hn. discriminate. }
  rewrite edit_prepare_fields in H by assumption.
  unfold ApiEdit.missing in H.
  destruct (ToBoolean (field b (lit "action"))) eqn:Ha; cbn [negb bind] in H;
    [|discriminate].
  destruct (ToBoolean (field b (lit "text"))) eqn:Ht; cbn [negb bind] in H;
    [|discriminate].
  destruct (field b (lit "text")) as [| | | |s| |] eqn:Hs; cbn [call_trim bind] in H;
    try discriminate.
  destruct (is_empty (trim s)) eqn:Hb; [discriminate|].
  destruct (ApiEdit.choose _ _) as [m|] eqn:Hc; cbn [bind] in H; [|discriminate].
  destruct (member_truthy m) eqn:Hm; cbn [negb] in H; [|discriminate].
  injection H as <-. exists b, s. cbn [ApiEdit.system].
  repeat (split; [first [reflexivity | assumption]|]). reflexivity.
Qed.

(** The call prepared for a body with a text that is not blank, once the
    system prompt is chosen. *)
Lemma edit_prepare_chosen (apiKey : jsstring) (body : value) (s : jsstring)
      (m : member) :
  nullish body = false ->
  ToBoolean (field body (lit "action")) = true ->
  field body (lit "text") = VStr s -> trim s <> [] ->
  ApiEdit.choose (field body (lit "action")) (field body (lit "tone")) = Ok m ->
  member_truthy m = true ->
  ApiEdit.prepare apiKey (Ok body)
  = Ok (inr {| ApiEdit.api_key := apiKey;
               ApiEdit.model := lit "claude-haiku-4-5-20251001";
               ApiEdit.max_tokens := 1200;
               ApiEdit.temperature := 0.2%float;
               ApiEdit.system := m;
               ApiEdit.user_content := txt "Text to edit:|" ++ trim s |}).
Proof.
  intros Hn Ha Ht Hne Hc Hm.
  rewrite edit_prepare_fields by assumption. rewrite Ht.
  rewrite edit_missing_text;
    [| assumption | destruct (trim s); [congruence | reflexivity]].
  cbn [bind]. rewrite <- Ht, Hc. cbn [bind]. rewrite Hm, Ht. reflexivity.
Qed.

Lemma choose_tone (tone : value) (t : jsstring) :
  ToBoolean tone = true -> ToString tone = Ok t ->
  ApiEdit.choose (VStr (lit "tone")) tone
  = Ok (Own (txt "You are a professional editor.|"
             ++ txt "Rewrite the text to match this tone: " ++ t ++ txt ".|"
             ++ txt "Keep meaning identical. Do not add new facts. Language stays the same.|"
             ++ txt "Return 3 alternatives.|" ++ ApiEdit.SCHEMA_HINT)).
Proof.
  intros Hb Ht. unfold ApiEdit.choose, ApiEdit.tonePrompt.
  change (ApiEdit.is_tone (VStr (lit "tone"))) with true. rewrite Hb, Ht.
  reflexivity.
Qed.

(** A handler run on a POST with the credential set and a body to read. *)
Lemma edit_handler_prepared (env : Env) (req : Request) (key : jsstring)
      (body : value) (call : ApiEdit.Call) :
  method req = lit "POST" -> configured_key env = Some key ->
  json req = Ok body ->
  ApiEdit.prepare key (Ok body) = Ok (inr call) ->
  ApiEdit.handler env req = ApiEdit.Fetch call ApiEdit.answer.
Proof.
  intros Hm Hk Hj Hp. unfold ApiEdit.handler. rewrite Hm, Hk, Hj, Hp.
  reflexivity.
Qed.

End WithHost.
End EditFacts.

Module AnswerFacts.
Import JS Edge Shapes JSFacts HandlerFacts RecoveryFacts.
Section WithHost.
Context {host : Host}.

Lemma supabase_recover_status (raw : value) :
  Supabase.status (Supabase.recover raw) = 200%Z
  \/ Supabase.status (Supabase.recover raw) = 500%Z.
Proof.
  unfold Supabase.recover.
  destruct (Supabase.parseAlternatives raw); [|now left].
  destruct (get a (lit "alternatives")); cbn [bind]; [|now right].
  destruct (_ || _)%bool; [now left|].
  destruct (Supabase.normalise 0 _); cbn [bind]; [|now right].
  destruct (Nat.eqb _ 0); now left.
Qed.

Lemma api_recover_status (raw : value) (response : ApiAiEdit.Response) :
  ApiAiEdit.recover raw = Ok response -> ApiAiEdit.status response = 200%Z.
Proof.
  intros H. destruct (api_recover_cases raw response H) as [[-> _]|C]; [reflexivity|].
  destruct C as (parsed & items & mapped & _ & _ & _ & _ & ->).
  now destruct (Nat.eqb _ 0).
Qed.

Lemma edit_recover_status (raw : value) (response : ApiEdit.Response) :
  ApiEdit.recover raw = Ok response -> ApiEdit.status response = 200%Z.
Proof.
  unfold ApiEdit.recover. destruct (ApiEdit.parse raw); [|now intros [= <-]].
  destruct (get a (lit "alternatives")); cbn [bind]; [|discriminate].
  destruct (_ || _)%bool; now intros [= <-].
Qed.

Lemma supabase_recover_empty :
  Supabase.recover (VStr [])
  = Supabase.jsonRes (Supabase.ParseFailed (VStr [])) 200.
Proof. reflexivity. Qed.

Lemma api_recover_empty :
  ApiAiEdit.recover (VStr [])
  = Ok {| ApiAiEdit.status := 200; ApiAiEdit.payload := ApiAiEdit.ParseFailed (VStr []) |}.
Proof. reflexivity. Qed.

Lemma edit_recover_empty :
  ApiEdit.recover (VStr [])
  = Ok {| ApiEdit.status := 200; ApiEdit.payload := ApiEdit.ParseFailed (VStr []) |}.
Proof. reflexivity. Qed.

End WithHost.
End AnswerFacts.

Module PromptFacts.
Import JS Edge Shapes JSFacts HandlerFacts.

Lemma Ok_inj {A : Type} (a b : A) : Ok a = Ok b -> a = b.
Proof. now intros [= ->]. Qed.

Lemma starts_with_prefix (p q r : jsstring) :
  starts_with p q = true -> starts_with p (q ++ r) = true.
Proof.
  revert q. induction p as [|x p IH]; intros q; [reflexivity|].
  destruct q as [|y q]; cbn [starts_with app]; [discriminate|].
  intros H. apply andb_true_iff in H as [H1 H2]. rewrite H1. cbn [andb]. now apply IH.
Qed.

Lemma ends_with_app (x a b : jsstring) :
  ends_with x b = true -> ends_with x (a ++ b) = true.
Proof.
  unfold ends_with. intros H. rewrite rev_app_distr. now apply starts_with_prefix.
Qed.

Lemma ends_with_refl (x : jsstring) : ends_with x x = true.
Proof.
  unfold ends_with. rewrite <- (app_nil_r (rev x)) at 2. apply starts_with_app.
Qed.

Lemma includes_cases (a : jsstring) :
  Supabase.includes Supabase.validActions a = true ->
  In a [ lit "rewrite"; lit "shorter"; lit "clearer"; lit "fix";
         lit "tone"; lit "expand"; lit "bullets"; lit "example" ].
Proof.
  unfold Supabase.includes, Supabase.validActions. intros H.
  apply existsb_exists in H as (x & Hx & E). apply str_eqb_eq in E. now subst.
Qed.

Section WithHost.
Context {host : Host}.

(** The system prompt of [index.ts] for an action of the list, [tone] having
    its value. *)
Lemma supabase_frame (a : jsstring) (tone : value) (sp : jsstring) :
  Supabase.includes Supabase.validActions a = true ->
  (str_eqb a (lit "tone") && negb (ToBoolean tone))%bool = false ->
  Supabase.buildSystemPrompt a tone = Ok sp ->
  starts_with Supabase.BASE_SYSTEM sp = true
  /\ ends_with (if two_alternatives a then Supabase.SCHEMA_2 else Supabase.SCHEMA_3) sp
     = true.
Proof.
  intros Hin Ht Hsp. apply includes_cases in Hin. cbn [In] in Hin.
  unfold Supabase.buildSystemPrompt in Hsp.
  destruct Hin as [<-|[<-|[<-|[<-|[<-|[<-|[<-|[<-|[]]]]]]]]];
    try (vm_compute in Hsp; injection Hsp as <-; split; vm_compute; reflexivity).
  assert (Hb : (str_eqb (lit "tone") (lit "tone") && ToBoolean tone)%bool = true).
  { change (str_eqb (lit "tone") (lit "tone")) with true in *.
    rewrite andb_true_l in *. now apply negb_false_iff in Ht. }
  rewrite Hb in Hsp.
  destruct (ToString tone) as [t|]; [|discriminate Hsp].
  unfold bind in Hsp. apply Ok_inj in Hsp. subst sp. split; [apply starts_with_app|].
  change (two_alternatives (lit "tone")) with false. cbv iota.
  rewrite !app_assoc. apply ends_with_app, ends_with_refl.
Qed.

Lemma api_frame (a : jsstring) (tone profile : value) (sp : jsstring) :
  ApiAiEdit.includes ApiAiEdit.validActions a = true ->
  (str_eqb a (lit "tone") && negb (ToBoolean tone))%bool = false ->
  ApiAiEdit.buildSystemPrompt a tone profile = Ok sp ->
  starts_with ApiAiEdit.BASE_SYSTEM sp = true
  /\ ends_with (if two_alternatives a then ApiAiEdit.SCHEMA_2 else ApiAiEdit.SCHEMA_3) sp
     = true.
Proof.
  intros Hin Ht Hsp. apply includes_cases in Hin. cbn [In] in Hin.
  unfold ApiAiEdit.buildSystemPrompt in Hsp.
  destruct (ApiAiEdit.buildProfileContext profile) as [ctx|]; cbn [bind] in Hsp;
    [|discriminate].
  destruct Hin as [<-|[<-|[<-|[<-|[<-|[<-|[<-|[<-|[]]]]]]]]];
    try (match type of Hsp with
         | (if ?c then _ else _) = _ => change c with false in Hsp
         end;
         cbv iota in Hsp; apply Ok_inj in Hsp; subst sp;
         split; [apply starts_with_app|];
         rewrite 2!app_assoc; apply ends_with_app; vm_compute; reflexivity).
  assert (Hb : (str_eqb (lit "tone") (lit "tone") && ToBoolean tone)%bool = true).
  { change (str_eqb (lit "tone") (lit "tone")) with true in *.
    rewrite andb_true_l in *. now apply negb_false_iff in Ht. }
  rewrite Hb in Hsp.
  destruct (ToString tone) as [t|]; [|discriminate Hsp].
  unfold bind in Hsp. apply Ok_inj in Hsp. subst sp. split; [apply starts_with_app|].
  change (two_alternatives (lit "tone")) with false. cbv iota.
  rewrite !app_assoc. apply ends_with_app, ends_with_refl.
Qed.

End WithHost.
End PromptFacts.

Module CallFacts.
Import JS Edge Shapes JSFacts HandlerFacts PromptFacts.
Section WithHost.
Context {host : Host}.

(** A call that the [prepare] of [index.ts] issues, read backwards. *)
Lemma supabase_prepare_call (apiKey : jsstring) (body : value) (call : GenCall) :
  Supabase.prepare apiKey body = Ok (inr call) ->
  nullish body = false
  /\ must_reject body = false
  /\ is_string (field body (lit "action")) = true
  /\ Supabase.includes Supabase.validActions (string_value (field body (lit "action")))
     = true
  /\ (str_eqb (string_value (field body (lit "action"))) (lit "tone")
      && negb (ToBoolean (default_to VNull (field body (lit "tone")))))%bool = false
  /\ Supabase.buildSystemPrompt (string_value (field body (lit "action")))
       (default_to VNull (field body (lit "tone"))) = Ok (system call)
  /\ api_key call = apiKey /\ model call = Supabase.MODEL
  /\ max_tokens call = 2000%Z
  /\ temperature call
     = Supabase.getTemperature (string_value (field body (lit "action"))).
Proof.
  intros H.
  assert (Hn : nullish body = false).
  { destruct body; try reflexivity; cbn in H; discriminate. }
  assert (Hr : must_reject body = false).
  { destruct (must_reject body) eqn:R; [|reflexivity].
    now apply (supabase_prepare_rejects apiKey body call) in R. }
  rewrite supabase_prepare_fields in H by assumption. cbv zeta in H.
  destruct (negb (ToBoolean (field body (lit "action")))
            || negb (is_string (field body (lit "action"))))%bool eqn:G1;
    [discriminate|].
  apply orb_false_iff in G1 as [_ G1]. apply negb_false_iff in G1.
  destruct (ToString _) as [selected|]; cbn [bind] in H; [|discriminate].
  destruct (is_empty (trim selected)); [discriminate|].
  change (Supabase.string_of ?v) with (string_value v) in H.
  destruct (Supabase.includes Supabase.validActions _) eqn:G3; cbn [negb] in H;
    [|discriminate].
  destruct (_ && _)%bool eqn:G4; [discriminate|].
  destruct (Supabase.buildSystemPrompt _ _) as [sp|] eqn:S; cbn [bind] in H;
    [|discriminate].
  destruct (ToString _) as [t1|]; cbn [bind] in H; [|discriminate].
  destruct (ToString _) as [t2|]; cbn [bind] in H; [|discriminate].
  destruct (ToString _) as [t3|]; cbn [bind] in H; [|discriminate].
  destruct (ToString _) as [t4|]; cbn [bind] in H; [|discriminate].
  destruct (Supabase.buildUserMessage _) as [msg|]; cbn [bind] in H; [|discriminate].
  injection H as <-. cbn [system api_key model max_tokens temperature].
  repeat (split; [first [reflexivity | assumption]|]). reflexivity.
Qed.

Lemma api_prepare_call (apiKey : jsstring) (body : value) (call : GenCall) :
  ApiAiEdit.prepare apiKey body = Ok (inr call) ->
  nullish body = false
  /\ must_reject body = false
  /\ is_string (field body (lit "action")) = true
  /\ ApiAiEdit.includes ApiAiEdit.validActions (string_value (field body (lit "action")))
     = true
  /\ (str_eqb (string_value (field body (lit "action"))) (lit "tone")
      && negb (ToBoolean (default_to VNull (field body (lit "tone")))))%bool = false
  /\ ApiAiEdit.buildSystemPrompt (string_value (field body (lit "action")))
       (default_to VNull (field body (lit "tone")))
       (default_to VNull (field body (lit "userProfile"))) = Ok (system call)
  /\ api_key call = apiKey /\ model call = ApiAiEdit.MODEL
  /\ max_tokens call = 2000%Z
  /\ temperature call
     = ApiAiEdit.getTemperature (string_value (field body (lit "action"))).
Proof.
  intros H.
  assert (Hn : nullish body = false).
  { destruct body; try reflexivity; cbn in H; discriminate. }
  assert (Hr : must_reject body = false).
  { destruct (must_reject body) eqn:R; [|reflexivity].
    now apply (api_prepare_rejects apiKey body call) in R. }
  rewrite api_prepare_fields in H by assumption. cbv zeta in H.
  destruct (negb (ToBoolean (field body (lit "action")))
            || negb (is_string (field body (lit "action"))))%bool eqn:G1;
    [discriminate|].
  apply orb_false_iff in G1 as [_ G1]. apply negb_false_iff in G1.
  destruct (api_selection_check _) as [empty|]; cbn [bind] in H; [|discriminate].
  destruct empty; [discriminate|].
  change (ApiAiEdit.string_of ?v) with (string_value v) in H.
  destruct (ApiAiEdit.includes ApiAiEdit.validActions _) eqn:G3; cbn [negb] in H;
    [|discriminate].
  destruct (_ && _)%bool eqn:G4; [discriminate|].
  destruct (ApiAiEdit.buildSystemPrompt _ _ _) as [sp|] eqn:S; cbn [bind] in H;
    [|discriminate].
  destruct (call_trim _) as [t1|]; cbn [bind] in H; [|discriminate].
  destruct (ApiAiEdit.buildUserMessage _) as [msg|]; cbn [bind] in H; [|discriminate].
  injection H as <-. cbn [system api_key model max_tokens temperature].
  repeat (split; [first [reflexivity | assumption]|]). reflexivity.
Qed.

(** A profile whose [languages] is a string with text in it. *)
Lemma profile_line_throws (heading : jsstring) (v : value) (e : exn) :
  ApiAiEdit.profile_line heading v = Throw e -> e = TypeError.
Proof.
  unfold ApiAiEdit.profile_line. destruct (ToBoolean v); [|discriminate].
  destruct (ToString v) eqn:E; cbn [bind]; [discriminate|].
  intros [= <-]. now apply ToString_throws in E.
Qed.

Lemma profile_languages_string (props : list (jsstring * value))
      (c : code_unit) (s : jsstring) :
  field (VObj props) (lit "languages") = VStr (c :: s) ->
  ApiAiEdit.buildProfileContext (VObj props) = Throw TypeError.
Proof.
  intros Hl. unfold ApiAiEdit.buildProfileContext. cbn [ToBoolean negb].
  rewrite !(get_field (VObj props)) by reflexivity. cbn [bind]. rewrite Hl.
  destruct (ApiAiEdit.profile_line _ (field (VObj props) (lit "tone"))) eqn:E1;
    cbn [bind]; [|now apply profile_line_throws in E1; subst].
  destruct (ApiAiEdit.profile_line _ (field (VObj props) (lit "audience"))) eqn:E2;
    cbn [bind]; [|now apply profile_line_throws in E2; subst].
  destruct (ApiAiEdit.profile_line _ (field (VObj props) (lit "intent"))) eqn:E3;
    cbn [bind]; [|now apply profile_line_throws in E3; subst].
  reflexivity.
Qed.

(** The lines of a typed profile. *)
Lemma profile_line_typed (heading : jsstring) (v : value) :
  opt_string v = true ->
  ApiAiEdit.profile_line heading v
  = Ok (if is_empty (string_value v) then [] else [heading ++ string_value v]).
Proof.
  unfold ApiAiEdit.profile_line. destruct v; try discriminate; try reflexivity.
  intros _. now destruct s.
Qed.

Lemma join_values_of_strings (items : list value) :
  forallb is_string items = true ->
  join_values items = Ok (map string_value items).
Proof.
  induction items as [|x rest IH]; cbn [forallb join_values map]; [reflexivity|].
  intros H. apply andb_true_iff in H as [Hx Hr].
  destruct x; try discriminate. cbn [nullish ToString bind string_value].
  now rewrite (IH Hr).
Qed.

Lemma profile_typed (profile : value) :
  typed_profile profile = true ->
  exists lines,
    ApiAiEdit.buildProfileContext profile
    = Ok (if Nat.eqb (length lines) 0 then []
          else txt "||AUTHOR PROFILE (adapt your output to match these preferences):|"
               ++ join (txt "|") lines)
    /\ (profile_unset profile = true <-> lines = []).
Proof.
  unfold typed_profile.
  destruct profile as [| |b|n|s|items|props]; try discriminate;
    try (intros _; exists []; split; [reflexivity | split; reflexivity]).
  intros H.
  apply andb_true_iff in H as [H Hnotes]. apply andb_true_iff in H as [H Hlangs].
  apply andb_true_iff in H as [H Hintent]. apply andb_true_iff in H as [Htone Haud].
  unfold ApiAiEdit.buildProfileContext. cbn [ToBoolean negb].
  rewrite !(get_field (VObj props)) by reflexivity. cbn [bind].
  rewrite !profile_line_typed by assumption. cbn [bind].
  unfold profile_unset.
  set (tone := field (VObj props) (lit "tone")) in *.
  set (audience := field (VObj props) (lit "audience")) in *.
  set (intent := field (VObj props) (lit "intent")) in *.
  set (languages := field (VObj props) (lit "languages")) in *.
  set (notes := field (VObj props) (lit "style_notes")) in *.
  assert (Hl : (if ToBoolean languages then
                  some <- ApiAiEdit.has_length languages ;;
                  if some then
                    joined <- ApiAiEdit.call_join (lit ", ") languages ;;
                    Ok [txt "@ Languages: " ++ joined]
                  else Ok []
                else Ok [])
               = Ok (match languages with
                     | VArr (x :: rest) =>
                         [txt "@ Languages: "
                          ++ join (lit ", ") (map string_value (x :: rest))]
                     | _ => []
                     end)).
  { destruct languages as [| |b|n|s|items|ps]; try discriminate; try reflexivity.
    destruct items as [|x rest]; [reflexivity|].
    cbn [ToBoolean ApiAiEdit.has_length length Nat.eqb negb bind].
    unfold ApiAiEdit.call_join, array_join.
    now rewrite (join_values_of_strings _ Hlangs). }
  rewrite Hl. cbn [bind].
  assert (Hs : (if ToBoolean notes then
                  trimmed <- call_trim notes ;;
                  if is_empty trimmed then Ok []
                  else Ok [txt "@ Style notes: " ++ trimmed]
                else Ok [])
               = Ok (if is_empty (trim (string_value notes)) then []
                     else [txt "@ Style notes: " ++ trim (string_value notes)])).
  { destruct notes as [| |b|n|s|items|ps]; try discriminate; try reflexivity.
    destruct s; [reflexivity|]. cbn [ToBoolean call_trim bind string_value].
    now destruct (is_empty _). }
  rewrite Hs. cbn [bind].
  match goal with
  | |- exists _, (if Nat.eqb (length ?l) 0 then _ else _) = _ /\ _ => exists l
  end.
  split; [now destruct (Nat.eqb _ 0)|].
  destruct (is_empty (string_value tone)); cbn [andb app];
    [|split; discriminate].
  destruct (is_empty (string_value audience)); cbn [andb app];
    [|split; discriminate].
  destruct (is_empty (string_value intent)); cbn [andb app];
    [|split; discriminate].
  destruct languages as [| |b|n|s|items|ps]; try discriminate; cbn [andb app].
  - destruct (is_empty (trim (string_value notes))); split; try discriminate; reflexivity.
  - destruct (is_empty (trim (string_value notes))); split; try discriminate; reflexivity.
  - destruct items as [|x rest]; cbn [andb app]; [|split; discriminate].
    destruct (is_empty (trim (string_value notes))); split; try discriminate; reflexivity.
Qed.

Lemma api_selection_check_string (s : jsstring) :
  api_selection_check (VStr s) = Ok (is_empty (trim s)).
Proof. unfold api_selection_check. now destruct s. Qed.

Lemma edit_missing_string (action : value) (s : jsstring) :
  ApiEdit.missing action (VStr s)
  = Ok (negb (ToBoolean action) || is_empty (trim s))%bool.
Proof.
  unfold ApiEdit.missing. destruct (ToBoolean action); [|reflexivity].
  now destruct s.
Qed.

End WithHost.

(** The two bodies of the request to fix a selection agree outside their
    selection. *)
Lemma fix_bodies_agree (k : jsstring) :
  k <> lit "selectedText" -> k <> lit "text" ->
  field fix_body k = field trimmed_fix_body k.
Proof.
  intros H _. unfold field, fix_body, trimmed_fix_body, get. cbn [own_prop].
  destruct (str_eqb (lit "action") k); [reflexivity|].
  destruct (str_eqb (lit "selectedText") k) eqn:E; [|reflexivity].
  apply str_eqb_eq in E. congruence.
Qed.

End CallFacts.


(* ====================================================================== *)
(** * Further properties of the handlers                                   *)
(* ====================================================================== *)

Import RecoveryFacts ExtractionFacts EditFacts AnswerFacts PromptFacts CallFacts.

(** ** Response recovery *)

Section RecoveryProperties.
Context {host : Host}.

(** A success of the Supabase handler lists at least one alternative, none
    of them blank, and no more of them than the model gave entries. *)
Theorem supabase_success_has_text (raw : value) (st : Z)
        (alts : list Supabase.Alternative) :
  Supabase.recover raw
  = {| Supabase.status := st; Supabase.payload := Supabase.Alternatives alts |} ->
  st = 200%Z /\ alts <> []
  /\ Forall (fun a => trim (Supabase.text a) <> []) alts
  /\ exists parsed items,
       Supabase.parseAlternatives raw = Ok parsed
       /\ get parsed (lit "alternatives") = Ok (VArr items)
       /\ (length alts <= length items)%nat.
Proof.
  intros H.
  destruct (supabase_recover_alternatives raw st alts H)
    as (parsed & items & mapped & Hp & Hg & Hm & -> & Hne & ->).
  split; [reflexivity|]. split; [assumption|]. split.
  - apply Forall_forall. intros a Ha. apply filter_In in Ha as [_ Ha].
    now apply has_text_trim.
  - exists parsed, items. split; [assumption|]. split; [assumption|].
    rewrite <- (supabase_normalise_length items 0 mapped Hm).
    apply filter_length_le.
Qed.

(** A success of [src/api/ai-edit.js] carries, under [alternatives], at
    least one entry; each has a truthy label and a text that is a string and
    is not blank. *)
Theorem api_success_has_text (raw : value) (st : Z) (v : value) :
  ApiAiEdit.recover raw
  = Ok {| ApiAiEdit.status := st; ApiAiEdit.payload := ApiAiEdit.Result v |} ->
  st = 200%Z
  /\ exists kept,
       get v (lit "alternatives") = Ok (VArr (map ApiAiEdit.to_object kept))
       /\ kept <> []
       /\ Forall (fun a => ToBoolean (ApiAiEdit.label a) = true
                           /\ exists s, ApiAiEdit.text a = VStr s /\ trim s <> [])
            kept.
Proof.
  intros H. destruct (api_recover_cases raw _ H) as [[E _]|C]; [discriminate E|].
  destruct C as (parsed & items & mapped & Hp & Hg & Hm & Hk & E).
  destruct (Nat.eqb (length (filter api_has_text mapped)) 0) eqn:L;
    [discriminate E|].
  injection E as -> ->. split; [reflexivity|].
  exists (filter api_has_text mapped). split; [|split].
  - destruct parsed; try discriminate Hg. cbn [ApiAiEdit.with_alternatives get].
    now rewrite own_prop_set_prop.
  - now apply filter_empty_length.
  - apply Forall_forall. intros a Ha. apply filter_In in Ha as [Hin Ha]. split.
    + pose proof (api_normalise_labels items 0 mapped Hm) as F.
      rewrite Forall_forall in F. now apply F.
    + unfold api_has_text in Ha. destruct (ApiAiEdit.text a); try discriminate.
      eexists. split; [reflexivity|]. intros E. rewrite E in Ha. discriminate.
Qed.

(** [src/api/ai-edit.js] answers with the object the model wrote, its
    [alternatives] replaced: every other property of that object is sent
    on as it was parsed. *)
Theorem api_result_keeps_other_keys (raw : value) (st : Z) (v : value) :
  ApiAiEdit.recover raw
  = Ok {| ApiAiEdit.status := st; ApiAiEdit.payload := ApiAiEdit.Result v |} ->
  exists parsed,
    ApiAiEdit.parseAlternatives raw = Ok parsed
    /\ forall k, k <> lit "alternatives" -> get v k = get parsed k.
Proof.
  intros H. destruct (api_recover_cases raw _ H) as [[E _]|C]; [discriminate E|].
  destruct C as (parsed & items & mapped & Hp & Hg & Hm & Hk & E).
  destruct (Nat.eqb (length (filter api_has_text mapped)) 0) eqn:L;
    [discriminate E|].
  injection E as -> ->. exists parsed. split; [assumption|].
  intros k Hne. destruct parsed; try discriminate Hg.
  cbn [ApiAiEdit.with_alternatives get]. now rewrite own_prop_set_prop_other.
Qed.

(** A JSON object without an array under [alternatives]: the Supabase
    handler reports [bad_schema], [src/api/ai-edit.js] reports [parse_failed]
    and sends the raw text back. *)
Theorem schema_failure_reports (raw parsed : value) :
  Supabase.parseAlternatives raw = Ok parsed ->
  is_array (field parsed (lit "alternatives")) = false ->
  Supabase.recover raw
  = Supabase.jsonRes (Supabase.ErrorMessage (lit "bad_schema")) 200
  /\ ApiAiEdit.recover raw
     = Ok {| ApiAiEdit.status := 200;
             ApiAiEdit.payload := ApiAiEdit.ParseFailed raw |}.
Proof.
  intros Hp Ha.
  assert (Hg : get parsed (lit "alternatives") = Ok (field parsed (lit "alternatives"))).
  { apply get_field. pose proof (supabase_parse_object raw parsed Hp).
    now destruct parsed. }
  split.
  - unfold Supabase.recover. rewrite Hp, Hg. cbn [bind]. rewrite Ha.
    cbn [negb]. now rewrite orb_true_r.
  - unfold ApiAiEdit.recover.
    rewrite (api_parse_of_supabase raw parsed Hp), Hg. cbn [bind]. rewrite Ha.
    cbn [negb]. now rewrite orb_true_r.
Qed.

(** In [src/api/ai-edit.js] the report [bad_schema] means that the text
    parsed, that it held an array of alternatives, and that no entry of it
    had text. *)
Theorem api_bad_schema_means_no_text (raw : value) (st : Z) (e : jsstring) :
  ApiAiEdit.recover raw
  = Ok {| ApiAiEdit.status := st; ApiAiEdit.payload := ApiAiEdit.ErrorMessage e |} ->
  st = 200%Z /\ e = lit "bad_schema"
  /\ exists parsed items mapped,
       ApiAiEdit.parseAlternatives raw = Ok parsed
       /\ get parsed (lit "alternatives") = Ok (VArr items)
       /\ ApiAiEdit.normalise 0 items = Ok mapped
       /\ filter api_has_text mapped = [].
Proof.
  intros H. destruct (api_recover_cases raw _ H) as [[E _]|C]; [discriminate E|].
  destruct C as (parsed & items & mapped & Hp & Hg & Hm & Hk & E).
  destruct (Nat.eqb (length (filter api_has_text mapped)) 0) eqn:L;
    [|discriminate E].
  injection E as -> ->. split; [reflexivity|]. split; [reflexivity|].
  exists parsed, items, mapped. repeat (split; [assumption|]).
  destruct (filter api_has_text mapped); [reflexivity | discriminate L].
Qed.

(** Whatever the recovery parses from the first opening brace on is a JSON
    object, so that reading its [alternatives] cannot throw.  In
    [src/api/edit.js] this holds when the cleaned text has an opening
    brace. *)
Theorem parsed_output_is_object (raw parsed : value) (r : jsstring) :
  (Supabase.parseAlternatives raw = Ok parsed -> is_object parsed = true)
  /\ (ApiAiEdit.parseAlternatives raw = Ok parsed -> is_object parsed = true)
  /\ (ApiEdit.parse (VStr r) = Ok parsed -> In 123%N (ApiEdit.clean r) ->
      is_object parsed = true).
Proof.
  split; [apply supabase_parse_object|]. split; [|apply edit_parse_object].
  intros H. destruct (api_parse_schema raw parsed H) as [items Hg].
  destruct parsed; try discriminate Hg; reflexivity.
Qed.

(** After a parse, the only failure left to the recovery is a [TypeError]
    raised on an entry of the array.  The 500 of the Supabase handler needs
    an entry that is [null] or has a [label] or [text] that is an array or an
    object.  The recovery of [src/api/ai-edit.js] throws exactly when the
    text parsed and some entry of the array is [null] or has a truthy [text]
    that is no string. *)
Theorem recovery_failure_needs_bad_entry (raw : value) (e : exn) :
  (Supabase.status (Supabase.recover raw) = 500%Z ->
   Supabase.payload (Supabase.recover raw) = Supabase.Unhandled TypeError
   /\ exists parsed items,
        Supabase.parseAlternatives raw = Ok parsed
        /\ get parsed (lit "alternatives") = Ok (VArr items)
        /\ forallb plain_entry items = false)
  /\ (ApiAiEdit.recover raw = Throw e <->
      e = TypeError
      /\ exists parsed items,
           ApiAiEdit.parseAlternatives raw = Ok parsed
           /\ get parsed (lit "alternatives") = Ok (VArr items)
           /\ forallb trimmable_entry items = false).
Proof.
  split; [|split].
  - unfold Supabase.recover.
    destruct (Supabase.parseAlternatives raw) as [parsed|] eqn:Hp; [|discriminate].
    assert (Hg : get parsed (lit "alternatives")
                 = Ok (field parsed (lit "alternatives"))).
    { apply get_field. pose proof (supabase_parse_object raw parsed Hp).
      now destruct parsed. }
    rewrite Hg. cbn [bind].
    destruct (is_array (field parsed (lit "alternatives"))) eqn:A;
      [|cbn [negb]; rewrite orb_true_r; discriminate].
    destruct (field parsed (lit "alternatives")) as [| | | | |items|] eqn:F;
      try discriminate A.
    cbn [ToBoolean negb orb Supabase.items_of].
    destruct (Supabase.normalise 0 items) as [mapped|err] eqn:Hm; cbn [bind].
    + destruct (Nat.eqb _ 0); discriminate.
    + intros _. apply supabase_normalise_throws in Hm as E. subst err.
      split; [reflexivity|]. exists parsed, items.
      split; [reflexivity|]. split; [assumption|].
      destruct (forallb plain_entry items) eqn:P; [|reflexivity].
      destruct (supabase_normalise_plain items P 0) as [m Hm']. congruence.
  - intros H.
    destruct (ApiAiEdit.parseAlternatives raw) as [parsed|] eqn:Hp.
    2:{ unfold ApiAiEdit.recover in H. rewrite Hp in H. discriminate. }
    destruct (api_parse_schema raw parsed Hp) as [items Hg].
    rewrite (api_recover_array raw parsed items Hp Hg) in H.
    assert (He : e = TypeError).
    { destruct (ApiAiEdit.normalise 0 items) as [mapped|err] eqn:Hm; cbn [bind] in H.
      - destruct (ApiAiEdit.keep_with_text mapped) as [kept|err] eqn:Hk;
          cbn [bind] in H.
        + destruct (Nat.eqb _ 0); discriminate.
        + injection H as <-. now apply keep_with_text_throws in Hk.
      - injection H as <-. now apply api_normalise_throws in Hm. }
    split; [assumption|]. exists parsed, items.
    split; [reflexivity|]. split; [assumption|].
    destruct (forallb trimmable_entry items) eqn:P; [|reflexivity].
    destruct (api_pipeline_total items P 0) as (m & k & Hm & Hk).
    rewrite Hm in H. cbn [bind] in H. rewrite Hk in H. cbn [bind] in H.
    destruct (Nat.eqb _ 0); discriminate.
  - intros (-> & parsed & items & Hp & Hg & Hf).
    rewrite (api_recover_array raw parsed items Hp Hg).
    destruct (ApiAiEdit.normalise 0 items) as [mapped|err] eqn:Hm; cbn [bind].
    + now rewrite (api_untrimmable_throws items Hf 0 mapped Hm).
    + f_equal. now apply api_normalise_throws in Hm.
Qed.

(** Fence stripping changes a text without backticks only by trimming it,
    in the three handlers. *)
Theorem clean_without_backticks (raw : jsstring) :
  no_tick raw ->
  Supabase.clean raw = trim raw
  /\ ApiAiEdit.clean raw = trim raw
  /\ ApiEdit.clean raw = trim raw.
Proof.
  intros H. split; [now apply strip_plain|].
  split; [now apply strip_plain | now apply edit_clean_plain].
Qed.

(** Prose around the JSON object is ignored: in a text without backticks,
    with no opening brace before the object and no closing brace after it,
    what is handed to [JSON.parse] is the object, in the three handlers. *)
Theorem object_between_prose (pre mid post : jsstring) :
  no_tick (pre ++ lit "{" ++ mid ++ lit "}" ++ post) ->
  ~ In 123%N pre -> ~ In 125%N post ->
  Supabase.parseAlternatives (VStr (pre ++ lit "{" ++ mid ++ lit "}" ++ post))
  = JSON_parse (lit "{" ++ mid ++ lit "}")
  /\ ApiAiEdit.parseAlternatives (VStr (pre ++ lit "{" ++ mid ++ lit "}" ++ post))
     = (parsed <- JSON_parse (lit "{" ++ mid ++ lit "}") ;;
        alts <- get parsed (lit "alternatives") ;;
        if (negb (ToBoolean alts) || negb (is_array alts))%bool
        then Throw (Error (lit "Missing alternatives array"))
        else Ok parsed)
  /\ ApiEdit.parse (VStr (pre ++ lit "{" ++ mid ++ lit "}" ++ post))
     = JSON_parse (lit "{" ++ mid ++ lit "}").
Proof.
  intros Ht Hpre Hpost.
  change (pre ++ lit "{" ++ mid ++ lit "}" ++ post)
    with (pre ++ 123%N :: mid ++ 125%N :: post) in *.
  change (lit "{" ++ mid ++ lit "}") with (123%N :: mid ++ [125%N]).
  destruct (extract_braced pre mid post Hpre Hpost) as (H1 & H2 & H3).
  cbv zeta in H1, H2, H3.
  assert (L1 : (indexOf (trim (pre ++ 123%N :: mid ++ 125%N :: post)) [123%N] <? 0)%Z
               = false) by (now apply Z.ltb_ge).
  assert (L2 : (lastIndexOf (trim (pre ++ 123%N :: mid ++ 125%N :: post)) [125%N] <? 0)%Z
               = false) by (now apply Z.ltb_ge).
  split; [|split].
  - unfold Supabase.parseAlternatives, Supabase.clean.
    rewrite (strip_plain _ Ht).
    change (lit "{") with [123%N]. change (lit "}") with [125%N].
    now rewrite L1, L2, H3.
  - unfold ApiAiEdit.parseAlternatives, ApiAiEdit.clean.
    rewrite (strip_plain _ Ht).
    change (lit "{") with [123%N]. change (lit "}") with [125%N].
    now rewrite L1, L2, H3.
  - unfold ApiEdit.parse. rewrite (edit_clean_plain _ Ht).
    change (lit "{") with [123%N]. change (lit "}") with [125%N].
    apply Z.leb_le in H1. now rewrite H1, H3.
Qed.

(** The single pattern of [src/api/edit.js] unwraps a fenced region as the
    two patterns of the other handlers do: between texts without backticks,
    a region opened by a fence tagged [json], or by a bare fence, is replaced
    by its trimmed inner text. *)
Theorem edit_fences_unwrapped (pre body post : jsstring) :
  no_tick pre -> no_tick body -> no_tick post ->
  ApiEdit.clean (pre ++ fence_json ++ body ++ fence ++ post)
  = trim (pre ++ trim body ++ post)
  /\ (starts_with (lit "json") body = false ->
      ApiEdit.clean (pre ++ fence ++ body ++ fence ++ post)
      = trim (pre ++ trim body ++ post)).
Proof.
  intros Hpre Hb Hpost. split; [now apply edit_clean_tagged|].
  intros Hj. now apply edit_clean_untagged.
Qed.

End RecoveryProperties.

(** ** The handler of src/api/edit.js *)

Section EditProperties.
Context {host : Host}.

(** The 400 answers of [src/api/edit.js], for a POST where the credential
    is set.  A body that cannot be read, or is [null], is answered
    [Invalid JSON]; a body whose action is falsy, or whose text is falsy or
    a blank string, [Missing action or text]; and a string action that is
    neither a key of [SYSTEM_PROMPTS] nor an inherited name, with a text
    that is not blank, [Unknown action], as is the action [tone] without a
    tone value. *)
Theorem edit_request_checks (env : Env) (req : Request) (key : jsstring) :
  method req = lit "POST" -> configured_key env = Some key ->
  (match json req with Ok b => nullish b = true | Throw _ => True end ->
   ApiEdit.handler env req
   = ApiEdit.Return (Ok (ApiEdit.Plain 400 (lit "Invalid JSON"))))
  /\ (forall body,
         json req = Ok body -> nullish body = false ->
         edit_fields_missing body = true ->
         ApiEdit.handler env req
         = ApiEdit.Return (Ok (ApiEdit.Plain 400 (lit "Missing action or text"))))
  /\ (forall body a s,
         json req = Ok body ->
         field body (lit "action") = VStr a -> a <> [] ->
         field body (lit "text") = VStr s -> trim s <> [] ->
         assoc ApiEdit.SYSTEM_PROMPTS a = None -> inherited_name a = false ->
         (str_eqb a (lit "tone") && ToBoolean (field body (lit "tone")))%bool = false ->
         ApiEdit.handler env req
         = ApiEdit.Return (Ok (ApiEdit.Plain 400 (lit "Unknown action")))).
Proof.
  intros Hm Hk. unfold ApiEdit.handler. rewrite Hm, Hk.
  change (negb (str_eqb (lit "POST") (lit "POST"))) with false. cbv iota.
  split; [|split].
  - intros H. now rewrite edit_prepare_null.
  - intros body Hj Hn Hmiss. rewrite Hj, edit_prepare_fields by assumption.
    now rewrite edit_missing_fields.
  - intros body a s Hj Ha Hne Ht Hs Hnone Hinh Htone.
    assert (Hn : nullish body = false).
    { destruct body; try reflexivity; cbn in Ha; discriminate. }
    rewrite Hj, edit_prepare_fields by assumption. rewrite Ha, Ht.
    rewrite edit_missing_text.
    + cbn [bind]. now rewrite choose_unknown.
    + destruct a; [congruence | reflexivity].
    + destruct (trim s); [congruence | reflexivity].
Qed.

(** [src/api/edit.js] has no last-resort [catch]: a request whose action is
    truthy and whose text is truthy without being a string makes the handler
    throw a [TypeError] instead of answering. *)
Theorem edit_text_must_be_string (env : Env) (req : Request) (key : jsstring)
        (body : value) :
  method req = lit "POST" -> configured_key env = Some key ->
  json req = Ok body -> nullish body = false ->
  ToBoolean (field body (lit "action")) = true ->
  ToBoolean (field body (lit "text")) = true ->
  is_string (field body (lit "text")) = false ->
  ApiEdit.handler env req = ApiEdit.Return (Throw TypeError).
Proof.
  intros Hm Hk Hj Hn Ha Ht Hs. unfold ApiEdit.handler. rewrite Hm, Hk, Hj.
  change (negb (str_eqb (lit "POST") (lit "POST"))) with false. cbv iota.
  rewrite edit_prepare_fields by assumption. unfold ApiEdit.missing.
  rewrite Ha, Ht. cbn [negb].
  destruct (field body (lit "text")); try discriminate Hs; reflexivity.
Qed.

(** The generation call of [src/api/edit.js], for a body whose text is a
    string that is not blank.  The action need not be a string: any truthy
    value that converts to a key of [SYSTEM_PROMPTS] selects the prompt of
    that key; and the action [tone] with a truthy tone selects the prompt
    that [tonePrompt] writes around the tone.  The call carries the
    configured credential, the fixed model, 1200 tokens, temperature 0.2,
    and the trimmed text after its heading. *)
Theorem edit_generation_call (env : Env) (req : Request) (key : jsstring)
        (body : value) (s : jsstring) :
  method req = lit "POST" -> configured_key env = Some key ->
  json req = Ok body -> nullish body = false ->
  field body (lit "text") = VStr s -> trim s <> [] ->
  (forall k p,
      ToBoolean (field body (lit "action")) = true ->
      ToString (field body (lit "action")) = Ok k ->
      assoc ApiEdit.SYSTEM_PROMPTS k = Some p ->
      ApiEdit.handler env req
      = ApiEdit.Fetch
          {| ApiEdit.api_key := key;
             ApiEdit.model := lit "claude-haiku-4-5-20251001";
             ApiEdit.max_tokens := 1200;
             ApiEdit.temperature := 0.2%float;
             ApiEdit.system := Own p;
             ApiEdit.user_content := txt "Text to edit:|" ++ trim s |}
          ApiEdit.answer)
  /\ (forall t,
         field body (lit "action") = VStr (lit "tone") ->
         ToBoolean (field body (lit "tone")) = true ->
         ToString (field body (lit "tone")) = Ok t ->
         ApiEdit.handler env req
         = ApiEdit.Fetch
             {| ApiEdit.api_key := key;
                ApiEdit.model := lit "claude-haiku-4-5-20251001";
                ApiEdit.max_tokens := 1200;
                ApiEdit.temperature := 0.2%float;
                ApiEdit.system :=
                  Own (txt "You are a professional editor.|"
                       ++ txt "Rewrite the text to match this tone: " ++ t ++ txt ".|"
                       ++ txt "Keep meaning identical. Do not add new facts. Language stays the same.|"
                       ++ txt "Return 3 alternatives.|" ++ ApiEdit.SCHEMA_HINT);
                ApiEdit.user_content := txt "Text to edit:|" ++ trim s |}
             ApiEdit.answer).
Proof.
  intros Hm Hk Hj Hn Ht Hne. split.
  - intros k p Ha Hs Hp. apply (edit_handler_prepared env req key body); try assumption.
    apply edit_prepare_chosen; try assumption.
    + now apply (choose_registry _ _ k p).
    + cbn [member_truthy]. now rewrite (system_prompts_nonempty k p Hp).
  - intros t Ha Hb Hs. apply (edit_handler_prepared env req key body); try assumption.
    apply edit_prepare_chosen; try assumption.
    + now rewrite Ha.
    + rewrite Ha. now apply choose_tone.
    + reflexivity.
Qed.

(** [src/api/edit.js] has no list of valid actions: an action that names a
    function inherited from [Object.prototype] passes its check, and the
    generation call is made with that function, not a string, for system
    prompt.  The other two handlers answer the same action with
    [Unknown action]. *)
Theorem edit_inherited_action_accepted (env : Env) (req : Request) (key : jsstring)
        (body : value) (a name : jsstring) :
  method req = lit "POST" -> configured_key env = Some key ->
  json req = Ok body ->
  field body (lit "action") = VStr a ->
  assoc object_prototype_functions a = Some name ->
  (forall s, field body (lit "text") = VStr s -> trim s <> [] ->
     ApiEdit.handler env req
     = ApiEdit.Fetch
         {| ApiEdit.api_key := key;
            ApiEdit.model := lit "claude-haiku-4-5-20251001";
            ApiEdit.max_tokens := 1200;
            ApiEdit.temperature := 0.2%float;
            ApiEdit.system := Builtin name;
            ApiEdit.user_content := txt "Text to edit:|" ++ trim s |}
         ApiEdit.answer)
  /\ (forall s, field body (lit "selectedText") = VStr s -> trim s <> [] ->
        Supabase.handler env req
        = Done (Supabase.jsonRes
                  (Supabase.ErrorMessage (lit "Unknown action: " ++ a)) 400)
        /\ ApiAiEdit.handler env req
           = Done (Ok (ApiAiEdit.jsonError (lit "Unknown action: " ++ a) 400))).
Proof.
  intros Hm Hk Hj Ha Hin.
  assert (Hn : nullish body = false).
  { destruct body; try reflexivity; cbn in Ha; discriminate. }
  destruct (inherited_not_own a name Hin) as (_ & V1 & V2 & _).
  assert (Hne : a <> []) by (intros ->; vm_compute in Hin; discriminate).
  assert (Hta : ToBoolean (VStr a) = true) by (destruct a; [congruence | reflexivity]).
  split.
  - intros s Ht Hs. unfold ApiEdit.handler. rewrite Hm, Hk, Hj.
    change (negb (str_eqb (lit "POST") (lit "POST"))) with false. cbv iota.
    rewrite edit_prepare_fields by assumption. rewrite Ha, Ht.
    rewrite edit_missing_text;
      [| assumption | destruct (trim s); [congruence | reflexivity]].
    cbn [bind]. now rewrite (choose_inherited a name _ Hin).
  - intros s Ht Hs. split.
    + unfold Supabase.handler. rewrite Hm, Hk, Hj.
      change (str_eqb (lit "POST") (lit "OPTIONS")) with false.
      change (negb (str_eqb (lit "POST") (lit "POST"))) with false. cbv iota.
      rewrite supabase_prepare_fields by assumption. cbv zeta.
      rewrite Ha, Ht, Hta. cbn [negb is_string orb coalesce nullish ToString bind].
      cbn [Supabase.string_of]. rewrite V1.
      destruct (trim s); [congruence | reflexivity].
    + unfold ApiAiEdit.handler. rewrite Hm, Hk, Hj.
      change (negb (str_eqb (lit "POST") (lit "POST"))) with false. cbv iota.
      rewrite api_prepare_fields by assumption. cbv zeta.
      rewrite Ha, Ht, Hta. cbn [negb is_string orb].
      unfold api_selection_check.
      assert (Hts : ToBoolean (VStr s) = true).
      { destruct s; [exfalso; apply Hs; reflexivity | reflexivity]. }
      rewrite Hts. cbn [call_trim bind ApiAiEdit.string_of]. rewrite V2.
      destruct (trim s); [congruence | reflexivity].
Qed.

(** Every generation call of [src/api/edit.js] comes from a body with a
    truthy action and a text that is a string and is not blank; it carries
    the configured credential, the fixed model, 1200 tokens, temperature
    0.2, a truthy system prompt, and the trimmed text after its heading. *)
Theorem edit_call_invariant (env : Env) (req : Request) (call : ApiEdit.Call)
        (resume : Reply -> result ApiEdit.Outcome) :
  ApiEdit.handler env req = ApiEdit.Fetch call resume ->
  method req = lit "POST"
  /\ configured_key env = Some (ApiEdit.api_key call)
  /\ ApiEdit.model call = lit "claude-haiku-4-5-20251001"
  /\ ApiEdit.max_tokens call = 1200%Z
  /\ ApiEdit.temperature call = 0.2%float
  /\ member_truthy (ApiEdit.system call) = true
  /\ exists body s,
       json req = Ok body
       /\ ToBoolean (field body (lit "action")) = true
       /\ field body (lit "text") = VStr s /\ trim s <> []
       /\ ApiEdit.user_content call = txt "Text to edit:|" ++ trim s.
Proof.
  unfold ApiEdit.handler.
  destruct (str_eqb (method req) (lit "POST")) eqn:M; cbn [negb]; [|discriminate].
  apply str_eqb_eq in M.
  destruct (configured_key env) as [apiKey|]; [|discriminate].
  destruct (ApiEdit.prepare apiKey (json req)) as [[o|c]|] eqn:P; try discriminate.
  intros H. injection H as -> _.
  destruct (edit_prepare_call apiKey (json req) call P)
    as (b & s & Hj & Hn & Ht & Hs & Ha & Hc & Hm & E).
  rewrite E. cbn [ApiEdit.api_key ApiEdit.model ApiEdit.max_tokens
                  ApiEdit.temperature ApiEdit.system ApiEdit.user_content].
  repeat (split; [first [reflexivity | assumption]|]).
  exists b, s. repeat (split; [first [reflexivity | assumption]|]).
  split; [|reflexivity]. intros E0. rewrite E0 in Hs. discriminate.
Qed.

(** [src/api/edit.js] does not normalise: its answer is a success exactly
    when the text parses to a value with an array under [alternatives], and
    the success is the parsed value as it is, whatever the array holds. *)
Theorem edit_success_is_unnormalised (raw : value) (st : Z) (v : value) :
  ApiEdit.recover raw
  = Ok {| ApiEdit.status := st; ApiEdit.payload := ApiEdit.Result v |}
  <-> st = 200%Z /\ ApiEdit.parse raw = Ok v
      /\ is_array (field v (lit "alternatives")) = true.
Proof.
  unfold ApiEdit.recover. split.
  - destruct (ApiEdit.parse raw) as [parsed|]; [|discriminate].
    unfold field.
    destruct (get parsed (lit "alternatives")) as [alts|] eqn:G; cbn [bind];
      [|discriminate].
    destruct (is_array alts) eqn:A.
    + destruct alts; try discriminate A. cbn [ToBoolean negb orb].
      intros [= <- <-]. rewrite G. repeat split.
    + cbn [negb]. rewrite orb_true_r. discriminate.
  - intros (-> & -> & A). unfold field in A.
    destruct (get v (lit "alternatives")) as [alts|]; cbn [bind]; [|discriminate A].
    destruct alts; try discriminate A. reflexivity.
Qed.

End EditProperties.

(** ** Answers, validation and prompts *)

Section HandlerProperties.
Context {host : Host}.

(** After the generation call, a failure of the generator (the request did
    not get through, or the reply has an error status) is answered 502 by
    the three handlers, and nothing else is: a reply that got through is
    answered 200, or 500 by the last-resort catch of the Supabase handler. *)
Theorem upstream_failure_is_502 (reply : Reply) :
  (upstream_failed reply = true ->
   Supabase.status (Supabase.answer reply) = 502%Z
   /\ (exists response,
          ApiAiEdit.answer reply = Ok response
          /\ ApiAiEdit.status response = 502%Z)
   /\ (exists text, ApiEdit.answer reply = Ok (ApiEdit.Plain 502 text)))
  /\ (upstream_failed reply = false ->
      (Supabase.status (Supabase.answer reply) = 200%Z
       \/ Supabase.status (Supabase.answer reply) = 500%Z)
      /\ (forall response,
             ApiAiEdit.answer reply = Ok response -> ApiAiEdit.status response = 200%Z)
      /\ (forall outcome,
             ApiEdit.answer reply = Ok outcome -> outcome_status outcome = 200%Z)).
Proof.
  destruct reply as [|[|] st body]; cbn [upstream_failed negb]; split;
    try discriminate; intros _.
  - split; [reflexivity|]. split; eexists; [split|]; reflexivity.
  - cbn [Supabase.answer ApiAiEdit.answer ApiEdit.answer]. split; [|split].
    + destruct body as [data|]; cbn [bind]; [|now right].
      destruct (first_text data); cbn [bind]; [|now right].
      apply supabase_recover_status.
    + intros response. destruct body as [data|]; cbn [bind]; [|discriminate].
      destruct (first_text data); cbn [bind]; [|discriminate].
      apply api_recover_status.
    + intros outcome. destruct body as [data|]; cbn [bind]; [|discriminate].
      destruct (first_text data); cbn [bind]; [|discriminate].
      destruct (ApiEdit.recover _) as [r|] eqn:E; cbn [bind]; [|discriminate].
      intros [= <-]. cbn [outcome_status]. now apply edit_recover_status in E.
  - split; [reflexivity|]. split; eexists; [split|]; reflexivity.
Qed.

(** A reply of the generator that got through but holds no text (no
    [content], an empty [content], a first block without [text]) is
    answered 200 with [parse_failed] and the empty string for raw text.
    [src/api/ai-edit.js] and [src/api/edit.js] do the same for any falsy
    text. *)
Theorem reply_without_text (st : Z) (data t : value) :
  first_text data = Ok t ->
  (nullish t = true ->
   Supabase.answer (HttpReply true st (Ok data))
   = Supabase.jsonRes (Supabase.ParseFailed (VStr [])) 200)
  /\ (ToBoolean t = false ->
      ApiAiEdit.answer (HttpReply true st (Ok data))
      = Ok {| ApiAiEdit.status := 200;
              ApiAiEdit.payload := ApiAiEdit.ParseFailed (VStr []) |}
      /\ ApiEdit.answer (HttpReply true st (Ok data))
         = Ok (ApiEdit.Json
                 {| ApiEdit.status := 200;
                    ApiEdit.payload := ApiEdit.ParseFailed (VStr []) |})).
Proof.
  intros Ht. split.
  - intros Hn. cbn [Supabase.answer bind]. rewrite Ht. cbn [bind].
    unfold coalesce. rewrite Hn. apply supabase_recover_empty.
  - intros Hb. cbn [ApiAiEdit.answer ApiEdit.answer bind]. rewrite Ht. cbn [bind].
    unfold or_else. rewrite Hb. rewrite api_recover_empty, edit_recover_empty.
    split; reflexivity.
Qed.

(** The checks of the two handlers with a list of valid actions come in a
    fixed order, and the first that fails decides the message of the 400:
    the action, then the selection, then the list of actions, then the tone
    value. *)
Theorem validation_messages (env : Env) (req : Request) (key : jsstring)
        (body : value) :
  method req = lit "POST" -> configured_key env = Some key ->
  json req = Ok body -> nullish body = false ->
  (action_invalid body = true ->
   Supabase.handler env req
   = Done (Supabase.jsonRes
             (Supabase.ErrorMessage (txt "Missing or invalid ^action^")) 400)
   /\ ApiAiEdit.handler env req
      = Done (Ok (ApiAiEdit.jsonError (txt "Missing or invalid ^action^") 400)))
  /\ (action_invalid body = false -> selection_empty body = true ->
      Supabase.handler env req
      = Done (Supabase.jsonRes
                (Supabase.ErrorMessage (txt "Missing or empty ^selectedText^")) 400)
      /\ ApiAiEdit.handler env req
         = Done (Ok (ApiAiEdit.jsonError (txt "Missing or empty ^selectedText^") 400)))
  /\ (forall s,
         action_invalid body = false ->
         field body (lit "selectedText") = VStr s -> trim s <> [] ->
         (action_unknown body = true ->
          Supabase.handler env req
          = Done (Supabase.jsonRes
                    (Supabase.ErrorMessage
                       (lit "Unknown action: "
                        ++ string_value (field body (lit "action")))) 400)
          /\ ApiAiEdit.handler env req
             = Done (Ok (ApiAiEdit.jsonError
                           (lit "Unknown action: "
                            ++ string_value (field body (lit "action"))) 400)))
         /\ (action_unknown body = false -> tone_missing body = true ->
             Supabase.handler env req
             = Done (Supabase.jsonRes
                       (Supabase.ErrorMessage
                          (txt "^tone^ value is required when action is ^tone^")) 400)
             /\ ApiAiEdit.handler env req
                = Done (Ok (ApiAiEdit.jsonError
                              (txt "^tone^ value required when action is ^tone^")
                              400)))).
Proof.
  intros Hm Hk Hj Hn.
  unfold Supabase.handler, ApiAiEdit.handler. rewrite Hm, Hk, Hj.
  change (str_eqb (lit "POST") (lit "OPTIONS")) with false.
  change (negb (str_eqb (lit "POST") (lit "POST"))) with false. cbv iota.
  rewrite supabase_prepare_fields, api_prepare_fields by assumption. cbv zeta.
  change (negb (ToBoolean (field body (lit "action")))
          || negb (is_string (field body (lit "action"))))%bool
    with (action_invalid body).
  split; [|split].
  - intros ->. split; reflexivity.
  - intros -> Hs. unfold selection_empty in Hs. unfold api_selection_check.
    destruct (field body (lit "selectedText")) as [| | | |s| |]; try discriminate Hs;
      try (split; reflexivity).
    cbn [coalesce nullish ToString bind]. rewrite Hs.
    destruct s; cbn [ToBoolean call_trim bind]; [|rewrite Hs]; split; reflexivity.
  - intros s -> Hs Hne.
    assert (He : is_empty (trim s) = false)
      by (destruct (trim s); [congruence | reflexivity]).
    assert (Hts : ToBoolean (VStr s) = true).
    { destruct s; [exfalso; apply Hne; reflexivity | reflexivity]. }
    rewrite Hs. unfold api_selection_check. rewrite Hts.
    cbn [coalesce nullish ToString call_trim bind]. rewrite He.
    change (negb (Supabase.includes Supabase.validActions
                    (Supabase.string_of (field body (lit "action")))))
      with (action_unknown body).
    change (negb (ApiAiEdit.includes ApiAiEdit.validActions
                    (ApiAiEdit.string_of (field body (lit "action")))))
      with (action_unknown body).
    split.
    + intros ->. split; reflexivity.
    + intros -> Ht. unfold tone_missing in Ht.
      rewrite ToBoolean_default_null.
      change (Supabase.string_of ?v) with (string_value v).
      change (ApiAiEdit.string_of ?v) with (string_value v).
      rewrite Ht. split; reflexivity.
Qed.

(** A JSON body that is not an object.  [null] cannot be destructured: the
    Supabase handler answers 500 from its last-resort catch,
    [src/api/ai-edit.js] throws, and [src/api/edit.js], which destructures
    inside its first [try], answers 400.  Any other value has no fields, and
    is answered 400 for its missing action. *)
Theorem non_object_bodies (env : Env) (req : Request) (key : jsstring)
        (body : value) :
  method req = lit "POST" -> configured_key env = Some key ->
  json req = Ok body -> is_object body = false ->
  (nullish body = true ->
   Supabase.handler env req = Done (Supabase.unhandled TypeError)
   /\ ApiAiEdit.handler env req = Done (Throw TypeError)
   /\ ApiEdit.handler env req
      = ApiEdit.Return (Ok (ApiEdit.Plain 400 (lit "Invalid JSON"))))
  /\ (nullish body = false ->
      Supabase.handler env req
      = Done (Supabase.jsonRes
                (Supabase.ErrorMessage (txt "Missing or invalid ^action^")) 400)
      /\ ApiAiEdit.handler env req
         = Done (Ok (ApiAiEdit.jsonError (txt "Missing or invalid ^action^") 400))
      /\ ApiEdit.handler env req
         = ApiEdit.Return (Ok (ApiEdit.Plain 400 (lit "Missing action or text")))).
Proof.
  intros Hm Hk Hj Ho.
  unfold Supabase.handler, ApiAiEdit.handler, ApiEdit.handler. rewrite Hm, Hk, Hj.
  change (str_eqb (lit "POST") (lit "OPTIONS")) with false.
  change (negb (str_eqb (lit "POST") (lit "POST"))) with false. cbv iota.
  destruct body; try discriminate Ho; split; try discriminate; intros _;
    repeat split; reflexivity.
Qed.

(** Every generation call of the two handlers with a list of valid actions
    comes from a POST whose body passed the four checks; it carries the
    configured credential, the model of the file, 2000 tokens, and the
    temperature of the action. *)
Theorem generation_call_parameters (env : Env) (req : Request) (call : GenCall)
        (resume1 : Reply -> Supabase.Response)
        (resume2 : Reply -> result ApiAiEdit.Response) :
  (Supabase.handler env req = Generate call resume1 ->
   method req = lit "POST"
   /\ configured_key env = Some (api_key call)
   /\ model call = Supabase.MODEL /\ max_tokens call = 2000%Z
   /\ exists body,
        json req = Ok body /\ must_reject body = false
        /\ temperature call
           = Supabase.getTemperature (string_value (field body (lit "action"))))
  /\ (ApiAiEdit.handler env req = Generate call resume2 ->
      method req = lit "POST"
      /\ configured_key env = Some (api_key call)
      /\ model call = ApiAiEdit.MODEL /\ max_tokens call = 2000%Z
      /\ exists body,
           json req = Ok body /\ must_reject body = false
           /\ temperature call
              = ApiAiEdit.getTemperature (string_value (field body (lit "action")))).
Proof.
  split.
  - unfold Supabase.handler.
    destruct (str_eqb (method req) (lit "OPTIONS")); [discriminate|].
    destruct (str_eqb (method req) (lit "POST")) eqn:M; cbn [negb]; [|discriminate].
    apply str_eqb_eq in M.
    destruct (configured_key env) as [apiKey|]; [|discriminate].
    destruct (json req) as [body|]; [|discriminate].
    destruct (Supabase.prepare apiKey body) as [[r|c]|] eqn:P; try discriminate.
    intros H. injection H as -> _.
    destruct (supabase_prepare_call apiKey body call P)
      as (_ & Hr & _ & _ & _ & _ & K & Mo & T & Te).
    rewrite K. repeat (split; [first [reflexivity | assumption]|]).
    exists body. now repeat split.
  - unfold ApiAiEdit.handler.
    destruct (str_eqb (method req) (lit "POST")) eqn:M; cbn [negb]; [|discriminate].
    apply str_eqb_eq in M.
    destruct (configured_key env) as [apiKey|]; [|discriminate].
    destruct (json req) as [body|]; [|discriminate].
    destruct (ApiAiEdit.prepare apiKey body) as [[r|c]|] eqn:P; try discriminate.
    intros H. injection H as -> _.
    destruct (api_prepare_call apiKey body call P)
      as (_ & Hr & _ & _ & _ & _ & K & Mo & T & Te).
    rewrite K. repeat (split; [first [reflexivity | assumption]|]).
    exists body. now repeat split.
Qed.

(** The system prompt of every generation call begins with [BASE_SYSTEM] and
    ends with a schema hint: the hint for two alternatives when the action
    is [expand] or [bullets], the hint for three otherwise. *)
Theorem system_prompt_frame (key : jsstring) (body : value) (call : GenCall) :
  (Supabase.prepare key body = Ok (inr call) ->
   starts_with Supabase.BASE_SYSTEM (system call) = true
   /\ ends_with (if two_alternatives (string_value (field body (lit "action")))
                 then Supabase.SCHEMA_2 else Supabase.SCHEMA_3)
        (system call) = true)
  /\ (ApiAiEdit.prepare key body = Ok (inr call) ->
      starts_with ApiAiEdit.BASE_SYSTEM (system call) = true
      /\ ends_with (if two_alternatives (string_value (field body (lit "action")))
                    then ApiAiEdit.SCHEMA_2 else ApiAiEdit.SCHEMA_3)
           (system call) = true).
Proof.
  split; intros P.
  - destruct (supabase_prepare_call key body call P)
      as (_ & _ & _ & Hin & Ht & Hs & _).
    now apply (supabase_frame _ _ _ Hin Ht Hs).
  - destruct (api_prepare_call key body call P)
      as (_ & _ & _ & Hin & Ht & Hs & _).
    now apply (api_frame _ _ _ _ Hin Ht Hs).
Qed.

(** [index.ts] and [src/api/ai-edit.js] build the same user message from
    the same strings, the first taking [before] and [after] as fields of
    the body, the second as fields of [selectionContext]; and they throw
    alike on a tone that cannot be converted. *)
Theorem user_messages_agree (title content selected before after action : jsstring)
        (tone : value) :
  Supabase.buildUserMessage
    {| Supabase.noteTitle := title; Supabase.noteContent := content;
       Supabase.selectedText := selected;
       Supabase.before := before; Supabase.after := after;
       Supabase.action := action; Supabase.tone := tone |}
  = ApiAiEdit.buildUserMessage
      {| ApiAiEdit.noteTitle := VStr title; ApiAiEdit.noteContent := VStr content;
         ApiAiEdit.selectedText := selected;
         ApiAiEdit.selectionContext :=
           VObj [ (lit "before", VStr before); (lit "after", VStr after) ];
         ApiAiEdit.action := action; ApiAiEdit.tone := tone |}.
Proof.
  unfold Supabase.buildUserMessage, ApiAiEdit.buildUserMessage,
    ApiAiEdit.context_part.
  cbn [Supabase.noteTitle Supabase.noteContent Supabase.selectedText Supabase.before
       Supabase.after Supabase.action Supabase.tone
       ApiAiEdit.noteTitle ApiAiEdit.noteContent ApiAiEdit.selectedText
       ApiAiEdit.selectionContext ApiAiEdit.action ApiAiEdit.tone].
  change (get (VObj [(lit "before", VStr before); (lit "after", VStr after)]) (lit "before"))
    with (Ok (VStr before)).
  change (get (VObj [(lit "before", VStr before); (lit "after", VStr after)]) (lit "after"))
    with (Ok (VStr after)).
  cbn [ToBoolean bind].
  assert (E : forall s d,
             or_else (VStr s) (VStr d) = VStr (str_or s d)).
  { intros s d. now destruct s. }
  assert (E2 : forall s, or_else (or_else (VStr s) (VStr [])) (VStr (lit "(x)"))
                         = or_else (VStr s) (VStr (lit "(x)"))).
  { intros s. now destruct s. }
  assert (E3 : forall s d, d <> [] ->
             or_else (or_else (VStr s) (VStr [])) (VStr d) = VStr (str_or s d)).
  { intros s d Hd. destruct s; [|reflexivity]. destruct d; [congruence|reflexivity]. }
  rewrite !E3 by discriminate. rewrite !E.
  destruct (ToBoolean tone); [destruct (ToString tone)|]; reflexivity.
Qed.

(** The author profile of [src/api/ai-edit.js], for a profile of the
    documented types: it contributes nothing to the system prompt exactly
    when no descriptor is set (no tone, audience or intent, no language, and
    style notes that are blank); otherwise it begins with its heading. *)
Theorem profile_context_blank (profile : value) :
  typed_profile profile = true ->
  exists ctx,
    ApiAiEdit.buildProfileContext profile = Ok ctx
    /\ (profile_unset profile = true <-> ctx = [])
    /\ (profile_unset profile = false ->
        starts_with
          (txt "||AUTHOR PROFILE (adapt your output to match these preferences):|")
          ctx = true).
Proof.
  intros H. destruct (profile_typed profile H) as (lines & E & U).
  eexists. split; [exact E|]. rewrite U.
  destruct lines as [|l ls]; cbn [length Nat.eqb].
  - split; [split; reflexivity|]. intros C. apply not_true_iff_false in C.
    exfalso. apply C. now apply U.
  - split; [split; discriminate|]. intros _. apply starts_with_app.
Qed.

(** [src/api/ai-edit.js] calls [join] on the [languages] of the author
    profile whenever it has a positive length: a request that passes the
    four checks, with a profile whose [languages] is a string with text in
    it instead of a list, makes the handler throw a [TypeError]. *)
Theorem profile_languages_must_be_array (env : Env) (req : Request) (key : jsstring)
        (body : value) (props : list (jsstring * value))
        (c : code_unit) (s : jsstring) :
  method req = lit "POST" -> configured_key env = Some key ->
  json req = Ok body -> must_reject body = false ->
  is_string (field body (lit "selectedText")) = true ->
  field body (lit "userProfile") = VObj props ->
  field (VObj props) (lit "languages") = VStr (c :: s) ->
  ApiAiEdit.handler env req = Done (Throw TypeError).
Proof.
  intros Hm Hk Hj Hr Hs Hp Hl.
  assert (Hn : nullish body = false).
  { destruct body; try reflexivity; cbn in Hp; discriminate. }
  assert (Ho : opt_string (field body (lit "selectedText")) = true).
  { now destruct (field body (lit "selectedText")). }
  destruct (accepted_fields body Hr Ho) as (G1 & (t & Es & Ht & Hne) & G3 & G4).
  unfold ApiAiEdit.handler. rewrite Hm, Hk, Hj.
  change (negb (str_eqb (lit "POST") (lit "POST"))) with false. cbv iota.
  rewrite api_prepare_fields by assumption. cbv zeta.
  rewrite G1, Es. unfold api_selection_check.
  destruct t as [|c0 t]; [congruence|]. cbn [ToBoolean call_trim bind]. rewrite Ht.
  change (ApiAiEdit.includes ApiAiEdit.validActions (ApiAiEdit.string_of ?v))
    with (existsb (fun a => str_eqb a (string_value v)) known_actions).
  rewrite G3. cbn [negb].
  change (ApiAiEdit.string_of ?v) with (string_value v). rewrite G4.
  unfold ApiAiEdit.buildSystemPrompt. rewrite Hp. cbn [default_to].
  now rewrite (profile_languages_string props c s Hl).
Qed.

(** White space around the selection does not reach the generator, nor the
    checks: two bodies that differ only in their selection, both selections
    being strings with the same trimmed text, are prepared alike by the
    three handlers. *)
Theorem selection_whitespace_ignored (key : jsstring) (b1 b2 : value)
        (s1 s2 : jsstring) :
  nullish b1 = false -> nullish b2 = false ->
  (forall k, k <> lit "selectedText" -> k <> lit "text" -> field b1 k = field b2 k) ->
  trim s1 = trim s2 ->
  (field b1 (lit "selectedText") = VStr s1 ->
   field b2 (lit "selectedText") = VStr s2 ->
   Supabase.prepare key b1 = Supabase.prepare key b2
   /\ ApiAiEdit.prepare key b1 = ApiAiEdit.prepare key b2)
  /\ (field b1 (lit "text") = VStr s1 -> field b2 (lit "text") = VStr s2 ->
      ApiEdit.prepare key (Ok b1) = ApiEdit.prepare key (Ok b2)).
Proof.
  intros Hn1 Hn2 Hf Ht.
  assert (F : forall k, (str_eqb k (lit "selectedText") || str_eqb k (lit "text"))%bool
                        = false -> field b1 k = field b2 k).
  { intros k Hk. apply orb_false_iff in Hk as [K1 K2].
    apply Hf; intros ->; discriminate. }
  split.
  - intros E1 E2.
    rewrite !supabase_prepare_fields, !api_prepare_fields by assumption. cbv zeta.
    rewrite E1, E2, !api_selection_check_string.
    rewrite !(F (lit "action")), !(F (lit "tone")), !(F (lit "noteTitle")),
      !(F (lit "noteContent")), !(F (lit "before")), !(F (lit "after")),
      !(F (lit "selectionContext")), !(F (lit "userProfile")) by reflexivity.
    cbn [coalesce nullish ToString call_trim bind]. rewrite Ht.
    split; reflexivity.
  - intros E1 E2. rewrite !edit_prepare_fields by assumption.
    rewrite E1, E2, !edit_missing_string.
    rewrite !(F (lit "action")), !(F (lit "tone")) by reflexivity.
    cbn [call_trim bind]. rewrite Ht. reflexivity.
Qed.

End HandlerProperties.


(** ** Examples of the further properties *)

(** The example with one missing label: two alternatives, both with text. *)
Lemma supabase_success_has_text_witness :
  Supabase.recover (host := sample_host) (VStr labels_example)
  = {| Supabase.status := 200;
       Supabase.payload := Supabase.Alternatives labels_alternatives |}
  /\ labels_alternatives <> []
  /\ Forall (fun a => trim (Supabase.text a) <> []) labels_alternatives.
Proof.
  assert (E : Supabase.recover (host := sample_host) (VStr labels_example)
              = {| Supabase.status := 200;
                   Supabase.payload := Supabase.Alternatives labels_alternatives |})
    by (vm_compute; reflexivity).
  destruct (@supabase_success_has_text sample_host _ _ _ E) as (_ & N & F & _).
  split; [exact E|]. split; [exact N | exact F].
Defined.

Lemma api_success_has_text_witness :
  ApiAiEdit.recover (host := sample_host) (VStr labels_example)
  = Ok {| ApiAiEdit.status := 200; ApiAiEdit.payload := ApiAiEdit.Result labels_result |}
  /\ exists kept,
       get labels_result (lit "alternatives")
       = Ok (VArr (map ApiAiEdit.to_object kept))
       /\ kept <> []
       /\ Forall (fun a => ToBoolean (host := sample_host) (ApiAiEdit.label a) = true
                           /\ exists s, ApiAiEdit.text a = VStr s /\ trim s <> [])
            kept.
Proof.
  assert (E : ApiAiEdit.recover (host := sample_host) (VStr labels_example)
              = Ok {| ApiAiEdit.status := 200;
                      ApiAiEdit.payload := ApiAiEdit.Result labels_result |})
    by (vm_compute; reflexivity).
  split; [exact E|].
  exact (proj2 (@api_success_has_text sample_host _ _ _ E)).
Defined.

(** An object with another key than [alternatives]. *)
Lemma schema_failure_reports_witness :
  Supabase.parseAlternatives (VStr other_key_example) = Ok other_key_parsed
  /\ is_array (field other_key_parsed (lit "alternatives")) = false
  /\ Supabase.recover (host := sample_host) (VStr other_key_example)
     = Supabase.jsonRes (Supabase.ErrorMessage (lit "bad_schema")) 200
  /\ ApiAiEdit.recover (host := sample_host) (VStr other_key_example)
     = Ok {| ApiAiEdit.status := 200;
             ApiAiEdit.payload := ApiAiEdit.ParseFailed (VStr other_key_example) |}.
Proof.
  assert (P : Supabase.parseAlternatives (VStr other_key_example) = Ok other_key_parsed)
    by (vm_compute; reflexivity).
  split; [exact P|]. split; [reflexivity|].
  exact (@schema_failure_reports sample_host _ _ P eq_refl).
Defined.

(** The wrapped text with one alternative without text. *)
Lemma api_bad_schema_means_no_text_witness :
  ApiAiEdit.recover (host := sample_host) (VStr wrapped_empty_example)
  = Ok {| ApiAiEdit.status := 200;
          ApiAiEdit.payload := ApiAiEdit.ErrorMessage (lit "bad_schema") |}
  /\ exists parsed items mapped,
       ApiAiEdit.parseAlternatives (host := sample_host) (VStr wrapped_empty_example)
       = Ok parsed
       /\ get parsed (lit "alternatives") = Ok (VArr items)
       /\ ApiAiEdit.normalise (host := sample_host) 0 items = Ok mapped
       /\ filter api_has_text mapped = [].
Proof.
  assert (E : ApiAiEdit.recover (host := sample_host) (VStr wrapped_empty_example)
              = Ok {| ApiAiEdit.status := 200;
                      ApiAiEdit.payload := ApiAiEdit.ErrorMessage (lit "bad_schema") |})
    by (vm_compute; reflexivity).
  split; [exact E|].
  exact (proj2 (proj2 (@api_bad_schema_means_no_text sample_host _ _ _ E))).
Defined.

Lemma parsed_output_is_object_witness :
  Supabase.parseAlternatives (VStr gap_example) = Ok gap_parsed
  /\ In 123%N (ApiEdit.clean gap_example)
  /\ ApiEdit.parse (VStr gap_example) = Ok gap_parsed
  /\ is_object gap_parsed = true.
Proof.
  assert (P : Supabase.parseAlternatives (VStr gap_example) = Ok gap_parsed)
    by (vm_compute; reflexivity).
  assert (I : In 123%N (ApiEdit.clean gap_example)) by (vm_compute; left; reflexivity).
  assert (Q : ApiEdit.parse (VStr gap_example) = Ok gap_parsed)
    by (vm_compute; reflexivity).
  split; [exact P|]. split; [exact I|]. split; [exact Q|].
  exact (proj2 (proj2 (@parsed_output_is_object sample_host (VStr gap_example)
                         gap_parsed gap_example)) Q I).
Defined.

(** The array whose only entry is [null]. *)
Lemma recovery_failure_needs_bad_entry_witness :
  Supabase.status (Supabase.recover (host := sample_host) (VStr null_entry_example))
  = 500%Z
  /\ ApiAiEdit.recover (host := sample_host) (VStr null_entry_example) = Throw TypeError
  /\ Supabase.payload (Supabase.recover (host := sample_host) (VStr null_entry_example))
     = Supabase.Unhandled TypeError
  /\ exists parsed items,
       ApiAiEdit.parseAlternatives (host := sample_host) (VStr null_entry_example)
       = Ok parsed
       /\ get parsed (lit "alternatives") = Ok (VArr items)
       /\ forallb (trimmable_entry (host := sample_host)) items = false.
Proof.
  assert (S : Supabase.status
                (Supabase.recover (host := sample_host) (VStr null_entry_example))
              = 500%Z) by (vm_compute; reflexivity).
  assert (A : ApiAiEdit.recover (host := sample_host) (VStr null_entry_example)
              = Throw TypeError) by (vm_compute; reflexivity).
  destruct (@recovery_failure_needs_bad_entry sample_host (VStr null_entry_example)
              TypeError) as [T1 T2].
  split; [exact S|]. split; [exact A|].
  split; [exact (proj1 (T1 S)) | exact (proj2 (proj1 T2 A))].
Defined.

Lemma clean_without_backticks_witness :
  no_tick refusal_example
  /\ Supabase.clean refusal_example = trim refusal_example
  /\ ApiEdit.clean refusal_example = trim refusal_example.
Proof.
  assert (N : no_tick refusal_example) by (apply no_tick_check; reflexivity).
  destruct (clean_without_backticks refusal_example N) as (S & _ & E).
  split; [exact N|]. split; [exact S | exact E].
Defined.

(** The wrapped example: prose, an object, prose. *)
Lemma object_between_prose_witness :
  no_tick (prose_pre ++ lit "{" ++ prose_mid ++ lit "}" ++ prose_post)
  /\ ~ In 123%N prose_pre /\ ~ In 125%N prose_post
  /\ Supabase.parseAlternatives
       (VStr (prose_pre ++ lit "{" ++ prose_mid ++ lit "}" ++ prose_post))
     = JSON_parse (lit "{" ++ prose_mid ++ lit "}")
  /\ ApiEdit.parse
       (VStr (prose_pre ++ lit "{" ++ prose_mid ++ lit "}" ++ prose_post))
     = JSON_parse (lit "{" ++ prose_mid ++ lit "}").
Proof.
  assert (N : no_tick (prose_pre ++ lit "{" ++ prose_mid ++ lit "}" ++ prose_post))
    by (apply no_tick_check; reflexivity).
  assert (A : ~ In 123%N prose_pre) by (apply unit_absent_check; reflexivity).
  assert (B : ~ In 125%N prose_post) by (apply unit_absent_check; reflexivity).
  destruct (@object_between_prose sample_host prose_pre prose_mid prose_post N A B)
    as (S & _ & E).
  split; [exact N|]. split; [exact A|]. split; [exact B|].
  split; [exact S | exact E].
Defined.

Lemma edit_fences_unwrapped_witness :
  no_tick wrapped_pre /\ no_tick wrapped_body /\ no_tick wrapped_post
  /\ ApiEdit.clean (wrapped_pre ++ fence_json ++ wrapped_body ++ fence ++ wrapped_post)
     = trim (wrapped_pre ++ trim wrapped_body ++ wrapped_post)
  /\ ApiEdit.clean (wrapped_pre ++ fence ++ wrapped_body ++ fence ++ wrapped_post)
     = trim (wrapped_pre ++ trim wrapped_body ++ wrapped_post).
Proof.
  assert (H1 : no_tick wrapped_pre) by (apply no_tick_check; reflexivity).
  assert (H2 : no_tick wrapped_body) by (apply no_tick_check; reflexivity).
  assert (H3 : no_tick wrapped_post) by (apply no_tick_check; reflexivity).
  destruct (edit_fences_unwrapped wrapped_pre wrapped_body wrapped_post H1 H2 H3)
    as [T U].
  split; [exact H1|]. split; [exact H2|]. split; [exact H3|].
  split; [exact T | exact (U eq_refl)].
Defined.

(** A request that did not get through, and a reply whose text holds a
    [null] entry. *)
Lemma upstream_failure_is_502_witness :
  upstream_failed NetworkFailure = true
  /\ Supabase.status (Supabase.answer (host := sample_host) NetworkFailure) = 502%Z
  /\ upstream_failed null_entry_reply = false
  /\ (Supabase.status (Supabase.answer (host := sample_host) null_entry_reply) = 200%Z
      \/ Supabase.status (Supabase.answer (host := sample_host) null_entry_reply)
         = 500%Z).
Proof.
  split; [reflexivity|].
  split; [exact (proj1 (proj1 (@upstream_failure_is_502 sample_host NetworkFailure)
                          eq_refl))|].
  split; [reflexivity|].
  exact (proj1 (proj2 (@upstream_failure_is_502 sample_host null_entry_reply) eq_refl)).
Defined.

(** A reply that is the empty object. *)
Lemma reply_without_text_witness :
  first_text empty_reply = Ok VUndefined
  /\ Supabase.answer (host := sample_host) (HttpReply true 200 (Ok empty_reply))
     = Supabase.jsonRes (Supabase.ParseFailed (VStr [])) 200
  /\ ApiEdit.answer (host := sample_host) (HttpReply true 200 (Ok empty_reply))
     = Ok (ApiEdit.Json
             {| ApiEdit.status := 200;
                ApiEdit.payload := ApiEdit.ParseFailed (VStr []) |}).
Proof.
  destruct (@reply_without_text sample_host 200 empty_reply VUndefined eq_refl)
    as [S A].
  split; [reflexivity|]. split; [exact (S eq_refl) | exact (proj2 (A eq_refl))].
Defined.

(** The four messages, on four bodies. *)
Lemma validation_messages_witness :
  action_invalid (host := sample_host) empty_body = true
  /\ Supabase.handler (host := sample_host) with_key (post (Ok empty_body))
     = Done (Supabase.jsonRes
               (Supabase.ErrorMessage (txt "Missing or invalid ^action^")) 400)
  /\ selection_empty blank_selection_body = true
  /\ Supabase.handler (host := sample_host) with_key (post (Ok blank_selection_body))
     = Done (Supabase.jsonRes
               (Supabase.ErrorMessage (txt "Missing or empty ^selectedText^")) 400)
  /\ action_unknown unknown_action_body = true
  /\ ApiAiEdit.handler (host := sample_host) with_key (post (Ok unknown_action_body))
     = Done (Ok (ApiAiEdit.jsonError (lit "Unknown action: summarise") 400))
  /\ tone_missing (host := sample_host) tone_without_value_body = true
  /\ ApiAiEdit.handler (host := sample_host) with_key
       (post (Ok tone_without_value_body))
     = Done (Ok (ApiAiEdit.jsonError
                   (txt "^tone^ value required when action is ^tone^") 400)).
Proof.
  assert (K : configured_key with_key = Some (lit "sk-ant-test")) by reflexivity.
  pose proof (fun body n =>
                @validation_messages sample_host with_key (post (Ok body))
                  (lit "sk-ant-test") body eq_refl K eq_refl n) as V.
  split; [reflexivity|].
  split; [exact (proj1 (proj1 (V empty_body eq_refl) eq_refl))|].
  split; [reflexivity|].
  split; [exact (proj1 (proj1 (proj2 (V blank_selection_body eq_refl))
                          eq_refl eq_refl))|].
  assert (X : trim (lit "x") <> []) by discriminate.
  split; [reflexivity|].
  split; [exact (proj2 (proj1 (proj2 (proj2 (V unknown_action_body eq_refl))
                                 (lit "x") eq_refl eq_refl X) eq_refl))|].
  split; [reflexivity|].
  exact (proj2 (proj2 (proj2 (proj2 (V tone_without_value_body eq_refl))
                         (lit "x") eq_refl eq_refl X) eq_refl eq_refl)).
Defined.

(** The bodies [null] and 7. *)
Lemma non_object_bodies_witness :
  Supabase.handler (host := sample_host) with_key (post (Ok VNull))
  = Done (Supabase.unhandled TypeError)
  /\ ApiEdit.handler (host := sample_host) with_key (post (Ok VNull))
     = ApiEdit.Return (Ok (ApiEdit.Plain 400 (lit "Invalid JSON")))
  /\ ApiAiEdit.handler (host := sample_host) with_key (post (Ok number_body))
     = Done (Ok (ApiAiEdit.jsonError (txt "Missing or invalid ^action^") 400))
  /\ ApiEdit.handler (host := sample_host) with_key (post (Ok number_body))
     = ApiEdit.Return (Ok (ApiEdit.Plain 400 (lit "Missing action or text"))).
Proof.
  assert (K : configured_key with_key = Some (lit "sk-ant-test")) by reflexivity.
  pose proof (fun body o =>
                @non_object_bodies sample_host with_key (post (Ok body))
                  (lit "sk-ant-test") body eq_refl K eq_refl o) as V.
  destruct (proj1 (V VNull eq_refl) eq_refl) as (S & _ & E).
  destruct (proj2 (V number_body eq_refl) eq_refl) as (_ & A & E').
  split; [exact S|]. split; [exact E|]. split; [exact A | exact E'].
Defined.

(** The request to fix a selection. *)
Lemma generation_call_parameters_witness :
  exists call,
    Supabase.handler (host := sample_host) with_key (post (Ok fix_body))
    = Generate call (Supabase.answer (host := sample_host))
    /\ configured_key with_key = Some (api_key call)
    /\ model call = Supabase.MODEL /\ max_tokens call = 2000%Z.
Proof.
  destruct (@supabase_prepare_total sample_host (lit "sk-ant-test") fix_body
              eq_refl eq_refl) as [call P].
  assert (E : Supabase.handler (host := sample_host) with_key (post (Ok fix_body))
              = Generate call (Supabase.answer (host := sample_host))).
  { unfold Supabase.handler.
    change (str_eqb (method (post (Ok fix_body))) (lit "OPTIONS")) with false.
    change (negb (str_eqb (method (post (Ok fix_body))) (lit "POST"))) with false.
    cbv iota.
    change (configured_key with_key) with (Some (lit "sk-ant-test")). cbv iota.
    change (json (post (Ok fix_body))) with (Ok fix_body). cbv iota.
    now rewrite P. }
  exists call. split; [exact E|].
  destruct (proj1 (@generation_call_parameters sample_host with_key
                     (post (Ok fix_body)) call _
                     (ApiAiEdit.answer (host := sample_host))) E)
    as (_ & K & M & T & _).
  split; [exact K|]. split; [exact M | exact T].
Defined.

Lemma system_prompt_frame_witness :
  exists call,
    Supabase.prepare (host := sample_host) (lit "sk-ant-test") fix_body = Ok (inr call)
    /\ starts_with Supabase.BASE_SYSTEM (system call) = true
    /\ ends_with Supabase.SCHEMA_3 (system call) = true.
Proof.
  destruct (@supabase_prepare_total sample_host (lit "sk-ant-test") fix_body
              eq_refl eq_refl) as [call P].
  exists call. split; [exact P|].
  exact (proj1 (@system_prompt_frame sample_host (lit "sk-ant-test") fix_body call) P).
Defined.

(** A profile with a tone, and one without a descriptor. *)
Lemma profile_context_blank_witness :
  typed_profile warm_profile = true /\ typed_profile idle_profile = true
  /\ profile_unset warm_profile = false /\ profile_unset idle_profile = true
  /\ (exists ctx,
         ApiAiEdit.buildProfileContext (host := sample_host) warm_profile = Ok ctx
         /\ starts_with
              (txt "||AUTHOR PROFILE (adapt your output to match these preferences):|")
              ctx = true)
  /\ ApiAiEdit.buildProfileContext (host := sample_host) idle_profile = Ok [].
Proof.
  split; [reflexivity|]. split; [reflexivity|].
  split; [reflexivity|]. split; [reflexivity|].
  split.
  - destruct (@profile_context_blank sample_host warm_profile eq_refl)
      as (ctx & E & _ & S).
    exists ctx. split; [exact E | exact (S eq_refl)].
  - destruct (@profile_context_blank sample_host idle_profile eq_refl)
      as (ctx & E & U & _).
    rewrite E. f_equal. now apply U.
Defined.

Lemma profile_languages_must_be_array_witness :
  must_reject (host := sample_host) string_languages_body = false
  /\ ApiAiEdit.handler (host := sample_host) with_key (post (Ok string_languages_body))
     = Done (Throw TypeError).
Proof.
  split; [reflexivity|].
  apply (@profile_languages_must_be_array sample_host with_key
           (post (Ok string_languages_body)) (lit "sk-ant-test")
           string_languages_body [ (lit "languages", VStr (lit "en")) ]
           101%N (lit "n")); reflexivity.
Defined.

(** The body [null], the empty object, and an action outside the registry. *)
Lemma edit_request_checks_witness :
  ApiEdit.handler (host := sample_host) with_key (post (Ok VNull))
  = ApiEdit.Return (Ok (ApiEdit.Plain 400 (lit "Invalid JSON")))
  /\ edit_fields_missing (host := sample_host) empty_body = true
  /\ ApiEdit.handler (host := sample_host) with_key (post (Ok empty_body))
     = ApiEdit.Return (Ok (ApiEdit.Plain 400 (lit "Missing action or text")))
  /\ assoc ApiEdit.SYSTEM_PROMPTS (lit "summarise") = None
  /\ ApiEdit.handler (host := sample_host) with_key (post (Ok unknown_action_body))
     = ApiEdit.Return (Ok (ApiEdit.Plain 400 (lit "Unknown action"))).
Proof.
  assert (K : configured_key with_key = Some (lit "sk-ant-test")) by reflexivity.
  pose proof (fun body =>
                @edit_request_checks sample_host with_key (post (Ok body))
                  (lit "sk-ant-test") eq_refl K) as V.
  split; [exact (proj1 (V VNull) eq_refl)|].
  split; [reflexivity|].
  split; [exact (proj1 (proj2 (V empty_body)) empty_body eq_refl eq_refl eq_refl)|].
  split; [reflexivity|].
  apply (proj2 (proj2 (V unknown_action_body)) unknown_action_body
           (lit "summarise") (lit "x")); try reflexivity; discriminate.
Defined.

(** A text that is the number 5. *)
Lemma edit_text_must_be_string_witness :
  ToBoolean (host := sample_host) (field number_text_body (lit "text")) = true
  /\ ApiEdit.handler (host := sample_host) with_key (post (Ok number_text_body))
     = ApiEdit.Return (Throw TypeError).
Proof.
  split; [reflexivity|].
  apply (@edit_text_must_be_string sample_host with_key (post (Ok number_text_body))
           (lit "sk-ant-test") number_text_body); reflexivity.
Defined.

(** An action that is the array of the one string [fix]. *)
Lemma edit_generation_call_witness :
  ToString (host := sample_host) (field array_action_body (lit "action"))
  = Ok (lit "fix")
  /\ exists p,
       assoc ApiEdit.SYSTEM_PROMPTS (lit "fix") = Some p
       /\ ApiEdit.handler (host := sample_host) with_key (post (Ok array_action_body))
          = ApiEdit.Fetch
              {| ApiEdit.api_key := lit "sk-ant-test";
                 ApiEdit.model := lit "claude-haiku-4-5-20251001";
                 ApiEdit.max_tokens := 1200;
                 ApiEdit.temperature := 0.2%float;
                 ApiEdit.system := Own p;
                 ApiEdit.user_content := txt "Text to edit:|" ++ lit "teh cat" |}
              (ApiEdit.answer (host := sample_host)).
Proof.
  split; [reflexivity|].
  destruct (assoc ApiEdit.SYSTEM_PROMPTS (lit "fix")) as [p|] eqn:A;
    [|vm_compute in A; discriminate].
  exists p. split; [reflexivity|].
  assert (X : trim (lit " teh cat ") <> []) by discriminate.
  exact (proj1 (@edit_generation_call sample_host with_key
                  (post (Ok array_action_body)) (lit "sk-ant-test")
                  array_action_body (lit " teh cat ")
                  eq_refl eq_refl eq_refl eq_refl eq_refl X)
           (lit "fix") p eq_refl eq_refl A).
Defined.

(** The action [constructor]. *)
Lemma edit_inherited_action_accepted_witness :
  assoc object_prototype_functions (lit "constructor") = Some (lit "Object")
  /\ ApiEdit.handler (host := sample_host) with_key (post (Ok constructor_body))
     = ApiEdit.Fetch
         {| ApiEdit.api_key := lit "sk-ant-test";
            ApiEdit.model := lit "claude-haiku-4-5-20251001";
            ApiEdit.max_tokens := 1200;
            ApiEdit.temperature := 0.2%float;
            ApiEdit.system := Builtin (lit "Object");
            ApiEdit.user_content := txt "Text to edit:|" ++ lit "x" |}
         (ApiEdit.answer (host := sample_host))
  /\ Supabase.handler (host := sample_host) with_key (post (Ok constructor_body))
     = Done (Supabase.jsonRes
               (Supabase.ErrorMessage (lit "Unknown action: constructor")) 400).
Proof.
  assert (K : configured_key with_key = Some (lit "sk-ant-test")) by reflexivity.
  assert (X : trim (lit "x") <> []) by discriminate.
  destruct (@edit_inherited_action_accepted sample_host with_key
              (post (Ok constructor_body)) (lit "sk-ant-test") constructor_body
              (lit "constructor") (lit "Object") eq_refl K eq_refl eq_refl eq_refl)
    as [E S].
  split; [reflexivity|].
  split; [exact (E (lit "x") eq_refl X) | exact (proj1 (S (lit "x") eq_refl X))].
Defined.

Lemma edit_call_invariant_witness :
  exists call,
    ApiEdit.handler (host := sample_host) with_key (post (Ok array_action_body))
    = ApiEdit.Fetch call (ApiEdit.answer (host := sample_host))
    /\ ApiEdit.temperature call = 0.2%float
    /\ member_truthy (ApiEdit.system call) = true
    /\ exists body s,
         json (post (Ok array_action_body)) = Ok body
         /\ ToBoolean (host := sample_host) (field body (lit "action")) = true
         /\ field body (lit "text") = VStr s /\ trim s <> []
         /\ ApiEdit.user_content call = txt "Text to edit:|" ++ trim s.
Proof.
  destruct (assoc ApiEdit.SYSTEM_PROMPTS (lit "fix")) as [p|] eqn:A;
    [|vm_compute in A; discriminate].
  assert (X : trim (lit " teh cat ") <> []) by discriminate.
  assert (MT : member_truthy (Own p) = true).
  { cbn [member_truthy]. now rewrite (system_prompts_nonempty (lit "fix") p A). }
  pose proof (@edit_handler_prepared sample_host with_key (post (Ok array_action_body))
                (lit "sk-ant-test") array_action_body _ eq_refl eq_refl eq_refl
                (@edit_prepare_chosen sample_host (lit "sk-ant-test") array_action_body
                   (lit " teh cat ") (Own p) eq_refl eq_refl eq_refl X
                   (@choose_registry sample_host
                      (field array_action_body (lit "action"))
                      (field array_action_body (lit "tone"))
                      (lit "fix") p eq_refl A) MT)) as E.
  eexists. split; [exact E|].
  destruct (@edit_call_invariant sample_host _ _ _ _ E)
    as (_ & _ & _ & _ & T & M & B).
  split; [exact T|]. split; [exact M | exact B].
Defined.

(** The array whose only entry is [null] is returned as it is. *)
Lemma edit_success_is_unnormalised_witness :
  ApiEdit.parse (VStr null_entry_example) = Ok null_parsed
  /\ ApiEdit.recover (host := sample_host) (VStr null_entry_example)
     = Ok {| ApiEdit.status := 200; ApiEdit.payload := ApiEdit.Result null_parsed |}.
Proof.
  assert (P : ApiEdit.parse (VStr null_entry_example)
              = Ok null_parsed) by (vm_compute; reflexivity).
  split; [exact P|].
  apply (proj2 (@edit_success_is_unnormalised sample_host (VStr null_entry_example)
                  200 null_parsed)).
  split; [reflexivity|]. split; [exact P | reflexivity].
Defined.

(** An object with a note beside its alternatives. *)
Lemma api_result_keeps_other_keys_witness :
  ApiAiEdit.recover (host := sample_host) (VStr noted_example)
  = Ok {| ApiAiEdit.status := 200; ApiAiEdit.payload := ApiAiEdit.Result noted_result |}
  /\ exists parsed,
       ApiAiEdit.parseAlternatives (host := sample_host) (VStr noted_example) = Ok parsed
       /\ get noted_result (lit "note") = get parsed (lit "note").
Proof.
  assert (E : ApiAiEdit.recover (host := sample_host) (VStr noted_example)
              = Ok {| ApiAiEdit.status := 200;
                      ApiAiEdit.payload := ApiAiEdit.Result noted_result |})
    by (vm_compute; reflexivity).
  split; [exact E|].
  destruct (@api_result_keeps_other_keys sample_host _ _ _ E) as (parsed & P & K).
  exists parsed. split; [exact P|]. apply K. discriminate.
Defined.

(** The request to fix a selection, with and without the blanks around
    it. *)
Lemma selection_whitespace_ignored_witness :
  trim (lit " teh cat ") = trim (lit "teh cat")
  /\ Supabase.prepare (host := sample_host) (lit "sk-ant-test") fix_body
     = Supabase.prepare (host := sample_host) (lit "sk-ant-test") trimmed_fix_body
  /\ ApiAiEdit.prepare (host := sample_host) (lit "sk-ant-test") fix_body
     = ApiAiEdit.prepare (host := sample_host) (lit "sk-ant-test") trimmed_fix_body.
Proof.
  assert (T : trim (lit " teh cat ") = trim (lit "teh cat")) by reflexivity.
  split; [exact T|].
  exact (proj1 (@selection_whitespace_ignored sample_host (lit "sk-ant-test")
                  fix_body trimmed_fix_body (lit " teh cat ") (lit "teh cat")
                  eq_refl eq_refl fix_bodies_agree T) eq_refl eq_refl).
Defined.
